(** * Recipe-driven report pipeline: response cache, paginated fetcher and
      transform engine

    A shallow embedding of
      - [fs_report/data_cache.py]      (class [DataCache]),
      - [fs_report/api_client.py]      (class [APIClient]),
      - [fs_report/data_transformer.py] (class [DataTransformer]),
      - [fs_report/models.py]          (the query and transform records),
    followed by the properties of the pipeline stated and proved over it.

    Conventions.  Python [str] values are sequences of code points below 256
    (Rocq [string]); JSON numbers are integers ([Z]); a Python [dict] with
    [Any] values is an association list in insertion order; the process-wide
    cache dictionary is a [gmap] from the cache id to the entry.  An
    exception is a left injection in [res]. *)

From Stdlib Require Import ZArith QArith String Ascii List Lia Bool Sorting.Permutation Sorting.Sorted.
From Stdlib Require Import Numbers.DecimalString.
From stdpp Require Import base option list strings gmap fin_maps.

Local Open Scope string_scope.
Local Open Scope Z_scope.

Set Warnings "-register-all".

(** ** Python values *)

(** [Any] as it occurs in API records and data frame cells.  [VNull] stands
    for both [None] and pandas' NaN. *)
Inductive value : Type :=
| VNull
| VBool (b : bool)
| VInt (z : Z)
| VStr (s : string)
| VList (l : list value)
| VDict (d : list (string * value)).

(** A record of the API: [dict[str, Any]]. *)
Abbreviation record := (list (string * value)).

(** Exceptions, by class, with the message where the source builds one. *)
Inductive exn : Type :=
| ValueError (msg : string)
| KeyError (msg : string)
| TypeError (msg : string)
| ImportError (msg : string)
| IndexError (msg : string)
| HTTPError (msg : string).

Abbreviation res := (sum exn).
Abbreviation Ok := (@inr exn _).
Abbreviation Raise := (@inl exn _).

Module Py.

(** [d.get(k)] on an insertion-ordered dictionary. *)
Fixpoint get {A : Type} (k : string) (d : list (string * A)) : option A :=
  match d with
  | [] => None
  | (k', v) :: d' => if String.eqb k k' then Some v else get k d'
  end.

(** [d[k] = v]: replace in place when the key exists, append otherwise. *)
Fixpoint set {A : Type} (k : string) (v : A) (d : list (string * A)) : list (string * A) :=
  match d with
  | [] => [(k, v)]
  | (k', v') :: d' => if String.eqb k k' then (k, v) :: d' else (k', v') :: set k v d'
  end.

(** [del d[k]] (no error when absent: callers check first). *)
Fixpoint remove {A : Type} (k : string) (d : list (string * A)) : list (string * A) :=
  match d with
  | [] => []
  | (k', v') :: d' => if String.eqb k k' then d' else (k', v') :: remove k d'
  end.

(** Python's [==] on values. *)
Fixpoint value_eqb (a b : value) {struct a} : bool :=
  match a, b with
  | VNull, VNull => true
  | VBool x, VBool y => Bool.eqb x y
  | VInt x, VInt y => Z.eqb x y
  | VBool x, VInt y | VInt y, VBool x => Z.eqb (if x then 1 else 0) y
  | VStr x, VStr y => String.eqb x y
  | VList x, VList y =>
      (fix go (x y : list value) : bool :=
         match x, y with
         | [], [] => true
         | u :: x', w :: y' => value_eqb u w && go x' y'
         | _, _ => false
         end) x y
  | VDict x, VDict y =>
      Nat.eqb (length x) (length y) &&
      (fix go (x : list (string * value)) : bool :=
         match x with
         | [] => true
         | (k, u) :: x' =>
             match get k y with
             | Some w => value_eqb u w && go x'
             | None => false
             end
         end) x
  | _, _ => false
  end.

(** Truthiness, [bool(v)]. *)
Definition truthy (v : value) : bool :=
  match v with
  | VNull => false
  | VBool b => b
  | VInt z => negb (Z.eqb z 0)
  | VStr s => negb (String.eqb s "")
  | VList l => match l with [] => false | _ => true end
  | VDict d => match d with [] => false | _ => true end
  end.

(** [sub in s]. *)
Fixpoint contains (sub s : string) : bool :=
  String.prefix sub s ||
  match s with
  | EmptyString => false
  | String _ s' => contains sub s'
  end.

(** [s[n:]]. *)
Definition drop (n : nat) (s : string) : string :=
  String.substring n (String.length s - n) s.

(** The text after the first occurrence of [sep], if any. *)
Fixpoint after_first (sep s : string) : option string :=
  if String.prefix sep s then Some (drop (String.length sep) s)
  else match s with
       | EmptyString => None
       | String _ s' => after_first sep s'
       end.

(** The text before the first occurrence of [sep] (all of [s] if none). *)
Fixpoint before_first (sep s : string) : string :=
  if String.prefix sep s then ""
  else match s with
       | EmptyString => ""
       | String c s' => String c (before_first sep s')
       end.

(** [s.split(sep)], for a non-empty separator. *)
Fixpoint split_fuel (fuel : nat) (sep s : string) : list string :=
  match fuel with
  | O => [s]
  | S fuel' =>
      match after_first sep s with
      | None => [s]
      | Some rest => before_first sep s :: split_fuel fuel' sep rest
      end
  end.

Definition split (sep s : string) : list string :=
  split_fuel (String.length s) sep s.

(** [str.isspace] on one code point below 256. *)
Definition is_space (c : ascii) : bool :=
  let n := nat_of_ascii c in
  ((9 <=? n) && (n <=? 13) || (28 <=? n) && (n <=? 32) || (n =? 133) || (n =? 160))%nat.

Fixpoint lstrip (s : string) : string :=
  match s with
  | String c s' => if is_space c then lstrip s' else s
  | EmptyString => EmptyString
  end.

Fixpoint rstrip (s : string) : string :=
  match s with
  | EmptyString => EmptyString
  | String c s' =>
      match rstrip s' with
      | EmptyString => if is_space c then EmptyString else String c EmptyString
      | r => String c r
      end
  end.

Definition strip (s : string) : string := rstrip (lstrip s).

(** [s.startswith(p)] and [s.endswith(p)]. *)
Definition startswith (p s : string) : bool := String.prefix p s.

Definition endswith (p s : string) : bool :=
  (String.length p <=? String.length s)%nat &&
  String.eqb (String.substring (String.length s - String.length p) (String.length p) s) p.

(** [s[1:-1]]. *)
Definition slice_1_m1 (s : string) : string :=
  String.substring 1 (String.length s - 2) s.

(** [str(n)] for an integer. *)
Definition str_of_Z (z : Z) : string := NilZero.string_of_int (Z.to_int z).

End Py.

(** ** [hashlib.md5(...).hexdigest()]

    The digest of RFC 1321 on 32-bit words held in [Z], wrap-around written
    out with [Z.land].  The source applies it to the ASCII text that
    [json.dumps] returns. *)
Module MD5.

Definition mask32 : Z := 0xffffffff.

Definition add32 (a b : Z) : Z := Z.land (a + b) mask32.

Definition not32 (a : Z) : Z := Z.lxor a mask32.

Definition rotl32 (x c : Z) : Z :=
  Z.lor (Z.land (Z.shiftl x c) mask32) (Z.shiftr x (32 - c)).

(** floor(2^32 * abs(sin(i + 1))) *)
Definition K : list Z :=
  [0xd76aa478; 0xe8c7b756; 0x242070db; 0xc1bdceee;
   0xf57c0faf; 0x4787c62a; 0xa8304613; 0xfd469501;
   0x698098d8; 0x8b44f7af; 0xffff5bb1; 0x895cd7be;
   0x6b901122; 0xfd987193; 0xa679438e; 0x49b40821;
   0xf61e2562; 0xc040b340; 0x265e5a51; 0xe9b6c7aa;
   0xd62f105d; 0x02441453; 0xd8a1e681; 0xe7d3fbc8;
   0x21e1cde6; 0xc33707d6; 0xf4d50d87; 0x455a14ed;
   0xa9e3e905; 0xfcefa3f8; 0x676f02d9; 0x8d2a4c8a;
   0xfffa3942; 0x8771f681; 0x6d9d6122; 0xfde5380c;
   0xa4beea44; 0x4bdecfa9; 0xf6bb4b60; 0xbebfbc70;
   0x289b7ec6; 0xeaa127fa; 0xd4ef3085; 0x04881d05;
   0xd9d4d039; 0xe6db99e5; 0x1fa27cf8; 0xc4ac5665;
   0xf4292244; 0x432aff97; 0xab9423a7; 0xfc93a039;
   0x655b59c3; 0x8f0ccc92; 0xffeff47d; 0x85845dd1;
   0x6fa87e4f; 0xfe2ce6e0; 0xa3014314; 0x4e0811a1;
   0xf7537e82; 0xbd3af235; 0x2ad7d2bb; 0xeb86d391].

(** Per-round left rotations. *)
Definition R : list Z :=
  [7; 12; 17; 22; 7; 12; 17; 22; 7; 12; 17; 22; 7; 12; 17; 22;
   5; 9; 14; 20; 5; 9; 14; 20; 5; 9; 14; 20; 5; 9; 14; 20;
   4; 11; 16; 23; 4; 11; 16; 23; 4; 11; 16; 23; 4; 11; 16; 23;
   6; 10; 15; 21; 6; 10; 15; 21; 6; 10; 15; 21; 6; 10; 15; 21].

Definition bytes_of_string (s : string) : list Z :=
  List.map (fun c => Z.of_nat (nat_of_ascii c)) (list_ascii_of_string s).

(** [n] bytes of [x], least significant first. *)
Fixpoint le_bytes (n : nat) (x : Z) : list Z :=
  match n with
  | O => []
  | S n' => Z.land x 0xff :: le_bytes n' (Z.shiftr x 8)
  end.

(** Append the bit 1, zeros up to 56 modulo 64, and the bit length on 8 bytes. *)
Definition pad (msg : list Z) : list Z :=
  let len := Z.of_nat (length msg) in
  let zeros := Z.to_nat ((55 - len) mod 64) in
  msg ++ [0x80] ++ List.repeat 0 zeros ++ le_bytes 8 (Z.land (8 * len) 0xffffffffffffffff).

(** Little-endian 32-bit words of a byte list. *)
Fixpoint words (fuel : nat) (bs : list Z) : list Z :=
  match fuel, bs with
  | S fuel', b0 :: b1 :: b2 :: b3 :: bs' =>
      (b0 + Z.shiftl b1 8 + Z.shiftl b2 16 + Z.shiftl b3 24) :: words fuel' bs'
  | _, _ => []
  end.

Record state : Type := mkState { sa : Z; sb : Z; sc : Z; sd : Z }.

Definition init : state :=
  {| sa := 0x67452301; sb := 0xefcdab89; sc := 0x98badcfe; sd := 0x10325476 |}.

(** Operation [i] of a block with message words [M]. *)
Definition round (M : list Z) (i : nat) (s : state) : state :=
  let '(mkState a b c d) := s in
  let iz := Z.of_nat i in
  let '(f, g) :=
    if (i <? 16)%nat then (Z.lor (Z.land b c) (Z.land (not32 b) d), iz)
    else if (i <? 32)%nat then (Z.lor (Z.land d b) (Z.land (not32 d) c), (5 * iz + 1) mod 16)
    else if (i <? 48)%nat then (Z.lxor b (Z.lxor c d), (3 * iz + 5) mod 16)
    else (Z.lxor c (Z.lor b (not32 d)), (7 * iz) mod 16) in
  let f' := add32 (add32 (add32 f a) (List.nth i K 0)) (List.nth (Z.to_nat g) M 0) in
  {| sa := d; sb := add32 b (rotl32 f' (List.nth i R 0)); sc := b; sd := c |}.

Definition block (s : state) (M : list Z) : state :=
  let s' := List.fold_left (fun acc i => round M i acc) (List.seq 0 64) s in
  {| sa := add32 (sa s) (sa s'); sb := add32 (sb s) (sb s');
     sc := add32 (sc s) (sc s'); sd := add32 (sd s) (sd s') |}.

(** The 16-word blocks of a padded message. *)
Fixpoint blocks (fuel : nat) (ws : list Z) : list (list Z) :=
  match fuel, ws with
  | S fuel', _ :: _ => List.firstn 16 ws :: blocks fuel' (List.skipn 16 ws)
  | _, _ => []
  end.

Definition digest (msg : list Z) : list Z :=
  let bs := pad msg in
  let ws := words (length bs) bs in
  let s := List.fold_left block (blocks (length ws) ws) init in
  le_bytes 4 (sa s) ++ le_bytes 4 (sb s) ++ le_bytes 4 (sc s) ++ le_bytes 4 (sd s).

Definition hex_digit (n : Z) : ascii :=
  ascii_of_nat (Z.to_nat (if Z.ltb n 10 then 48 + n else 87 + n)).

Definition hex_byte (b : Z) : string :=
  String (hex_digit (Z.shiftr b 4)) (String (hex_digit (Z.land b 0xf)) EmptyString).

Definition hexdigest (s : string) : string :=
  String.concat "" (List.map hex_byte (digest (bytes_of_string s))).

End MD5.

(** ** [json.dumps(d, sort_keys=True)] on a flat dictionary *)
Module Json.

(** The scalar values a parameter dictionary holds. *)
Inductive pvalue : Type :=
| PStr (s : string)
| PInt (z : Z)
| PBool (b : bool).

#[global] Instance pvalue_eq_dec : EqDecision pvalue := ltac:(solve_decision).

(** The double quote character. *)
Definition dquote : string := String (ascii_of_nat 34) EmptyString.

(** One character of a string literal with [ensure_ascii=True]. *)
Definition escape_char (c : ascii) : string :=
  let n := Z.of_nat (nat_of_ascii c) in
  if Z.eqb n 34 then "\" +:+ dquote
  else if Z.eqb n 92 then "\\"
  else if Z.eqb n 10 then "\n"
  else if Z.eqb n 13 then "\r"
  else if Z.eqb n 9 then "\t"
  else if Z.eqb n 8 then "\b"
  else if Z.eqb n 12 then "\f"
  else if Z.leb 32 n && Z.leb n 126 then String c EmptyString
  else "\u00" +:+ MD5.hex_byte n.

Fixpoint escape (s : string) : string :=
  match s with
  | EmptyString => EmptyString
  | String c s' => escape_char c +:+ escape s'
  end.

Definition quote (s : string) : string := dquote +:+ escape s +:+ dquote.

Definition dumps_scalar (v : pvalue) : string :=
  match v with
  | PStr s => quote s
  | PInt z => Py.str_of_Z z
  | PBool true => "true"
  | PBool false => "false"
  end.

(** Insertion of an item into a list of items sorted by key. *)
Fixpoint insert_item (kv : string * pvalue) (l : list (string * pvalue)) : list (string * pvalue) :=
  match l with
  | [] => [kv]
  | kv' :: l' => if String.leb (fst kv) (fst kv') then kv :: l else kv' :: insert_item kv l'
  end.

Definition sort_items (l : list (string * pvalue)) : list (string * pvalue) :=
  List.fold_right insert_item [] l.

Definition dumps_item (kv : string * pvalue) : string :=
  quote (fst kv) +:+ ": " +:+ dumps_scalar (snd kv).

Definition dumps (d : gmap string pvalue) : string :=
  "{" +:+ String.concat ", " (List.map dumps_item (sort_items (map_to_list d))) +:+ "}".

End Json.

(** ** [fs_report/models.py] *)
Module Models.

Module QueryParams.
(** Every field defaults to [None]; pydantic keeps [limit] within 1..10000
    and [offset] non-negative. *)
Record t : Type := mk {
  filter : option string;
  sort : option string;
  limit : option Z;
  offset : option Z;
  archived : option bool
}.
End QueryParams.

Module QueryConfig.
Record t : Type := mk {
  endpoint : string;
  params : QueryParams.t
}.
End QueryConfig.

(** [page_query = query.copy(deep=True); page_query.params.offset = offset] *)
Definition with_offset (q : QueryConfig.t) (o : Z) : QueryConfig.t :=
  let p := QueryConfig.params q in
  {| QueryConfig.endpoint := QueryConfig.endpoint q;
     QueryConfig.params :=
       {| QueryParams.filter := QueryParams.filter p; QueryParams.sort := QueryParams.sort p;
          QueryParams.limit := QueryParams.limit p; QueryParams.offset := Some o;
          QueryParams.archived := QueryParams.archived p |} |}.

Module GroupByConfig.
Record t : Type := mk {
  keys : list string;
  aggs : option (list (string * string))
}.
End GroupByConfig.

Module StringAggTransform.
Record t : Type := mk {
  name : string;
  column : string;
  separator : string;
  distinct : bool
}.
End StringAggTransform.

Inductive CalcOperation : Type := MEAN | SUM | COUNT | MIN | MAX | MEDIAN.

Module CalcTransform.
Record t : Type := mk {
  name : string;
  expr : string;
  operation : option CalcOperation
}.
End CalcTransform.

Module SortTransform.
Record t : Type := mk {
  sort : list string;
  ascending : bool
}.
End SortTransform.

Module PivotTransform.
Record t : Type := mk {
  index : string;
  columns : string;
  values : string
}.
End PivotTransform.

Module JoinTransform.
Record t : Type := mk {
  right : string;
  left_on : list string;
  right_on : list string;
  how : string
}.
End JoinTransform.

Module SelectTransform.
Record t : Type := mk {
  columns : list string
}.
End SelectTransform.

Module RenameTransform.
Record t : Type := mk {
  columns : list (string * string)
}.
End RenameTransform.

Module Transform.
(** One step of a recipe; the populated field says which. *)
Record t : Type := mk {
  group_by : option (list string + GroupByConfig.t);
  string_agg : option StringAggTransform.t;
  calc : option CalcTransform.t;
  filter : option string;
  sort : option SortTransform.t;
  pivot : option PivotTransform.t;
  join : option JoinTransform.t;
  select : option SelectTransform.t;
  flatten : option (list string + record);
  rename : option RenameTransform.t;
  transform_function : option string
}.

(** [Transform()] with every field left at [None]. *)
Definition none : t :=
  {| group_by := None; string_agg := None; calc := None; filter := None; sort := None;
     pivot := None; join := None; select := None; flatten := None; rename := None;
     transform_function := None |}.
End Transform.

End Models.

(** ** [fs_report/data_cache.py] *)
Module DataCache.

Import Json.

Record CacheKey : Type := mkCacheKey {
  endpoint : string;
  params_hash : string;
  full_params : gmap string pvalue
}.

Record CacheEntry : Type := mkCacheEntry {
  data : list record;
  timestamp : Z;
  params : gmap string pvalue
}.

(** The state of a [DataCache] object: its [self.cache] dictionary. *)
Abbreviation t := (gmap string CacheEntry).

(** [DataCache.__init__] *)
Definition init : t := ∅.

(** [{k: v for k, v in params_dict.items() if v is not None}] *)
Definition drop_none (d : list (string * option pvalue)) : gmap string pvalue :=
  list_to_map (omap (fun kv => match snd kv with Some v => Some (fst kv, v) | None => None end) d).

(** [DataCache._generate_cache_key] *)
Definition _generate_cache_key (query : Models.QueryConfig.t) : CacheKey :=
  let p := Models.QueryConfig.params query in
  let params_dict :=
    [("filter", PStr <$> Models.QueryParams.filter p);
     ("sort", PStr <$> Models.QueryParams.sort p);
     ("limit", PInt <$> Models.QueryParams.limit p);
     ("offset", PInt <$> Models.QueryParams.offset p);
     ("archived", PBool <$> Models.QueryParams.archived p)] in
  let params_dict := drop_none params_dict in
  let params_json := Json.dumps params_dict in
  let params_hash := MD5.hexdigest params_json in
  {| endpoint := Models.QueryConfig.endpoint query; params_hash := params_hash; full_params := params_dict |}.

(** [f"{cache_key.endpoint}:{cache_key.params_hash}"] *)
Definition cache_id (k : CacheKey) : string :=
  endpoint k +:+ ":" +:+ params_hash k.

(** [re.search(lit + r"([^;]+)", s)]: group 1 of the leftmost match, that is
    the longest run of characters other than [;] that follows the leftmost
    occurrence of [lit] followed by at least one such character. *)
Fixpoint search_clause (lit s : string) : option string :=
  let here :=
    if String.prefix lit s
    then match Py.before_first ";" (Py.drop (String.length lit) s) with
         | EmptyString => None
         | g => Some g
         end
    else None in
  match here with
  | Some g => Some g
  | None =>
      match s with
      | EmptyString => None
      | String _ s' => search_clause lit s'
      end
  end.

(** [DataCache._extract_date_range] *)
Definition _extract_date_range (filter_expr : string) : option (string * string) :=
  let start_match := search_clause "detected>=" filter_expr in
  let end_match := search_clause "detected<=" filter_expr in
  match start_match, end_match with
  | Some s, Some e => Some (s, e)
  | _, _ => None
  end.

(** [DataCache._is_subset_filter].  The third test repeats the first one and
    can never be reached with a true condition; it is kept as written. *)
Definition _is_subset_filter (cached_filter requested_filter : string) : bool :=
  if String.eqb cached_filter "" && negb (String.eqb requested_filter "") then false
  else if String.eqb cached_filter requested_filter then true
  else if String.eqb cached_filter "" && negb (String.eqb requested_filter "") then true
  else if Py.contains "detected>=" cached_filter && Py.contains "detected>=" requested_filter then
    let cached_dates := _extract_date_range cached_filter in
    let requested_dates := _extract_date_range requested_filter in
    match cached_dates, requested_dates with
    | Some cd, Some rd =>
        if bool_decide (cd = rd)
        then (String.length cached_filter <? String.length requested_filter)%nat
        else false
    | _, _ => false
    end
  else false.

(** [params.get("filter", "")]; the entry, when present, is a string because
    [QueryParams.filter] is one. *)
Definition get_filter (p : gmap string pvalue) : string :=
  match p !! "filter" with
  | Some (PStr s) => s
  | _ => ""
  end.

(** [DataCache._can_reuse_data].  The keys of a parameter dictionary fix the
    type of their values, so Python's [==] on two of them is equality. *)
Definition _can_reuse_data (cached_params requested_params : gmap string pvalue) : bool :=
  if bool_decide (cached_params = requested_params) then true
  else
    let cached_filter := get_filter cached_params in
    let requested_filter := get_filter requested_params in
    if _is_subset_filter cached_filter requested_filter then true
    else false.

(** [item.get(k) != s] for a string [s]. *)
Definition get_differs (item : record) (k s : string) : bool :=
  match Py.get k item with
  | Some v => negb (Py.value_eqb v (VStr s))
  | None => true
  end.

(** [item.get(k) not in l] for a list of strings [l]. *)
Definition get_not_in (item : record) (k : string) (l : list string) : bool :=
  match Py.get k item with
  | Some v => negb (List.existsb (fun s => Py.value_eqb v (VStr s)) l)
  | None => true
  end.

(** [filter_expr.split(lit)[1].split(";")[0].strip()] *)
Definition clause_value (lit filter_expr : string) : string :=
  Py.strip (List.nth 0 (Py.split ";" (List.nth 1 (Py.split lit filter_expr) "")) "").

(** [DataCache._matches_filter] *)
Definition _matches_filter (item : record) (filter_expr : string) : bool :=
  if Py.contains "type==" filter_expr && get_differs item "type" (clause_value "type==" filter_expr)
  then false
  else if Py.contains "status=in=" filter_expr &&
          (let status_match := clause_value "status=in=" filter_expr in
           Py.startswith "(" status_match && Py.endswith ")" status_match &&
           get_not_in item "status" (Py.split "," (Py.slice_1_m1 status_match)))
  then false
  else if Py.contains "severity==" filter_expr &&
          get_differs item "severity" (clause_value "severity==" filter_expr)
  then false
  else true.

(** [DataCache._subset_data] *)
Definition _subset_data (data : list record) (filter_expr : string) : list record :=
  if String.eqb filter_expr "" then data
  else List.filter (fun item => _matches_filter item filter_expr) data.

(** [DataCache.get] *)
Definition get (cache : t) (query : Models.QueryConfig.t) : option (list record) :=
  let cache_key := _generate_cache_key query in
  let cache_id := cache_id cache_key in
  match cache !! cache_id with
  | Some cached_entry =>
      let requested_params := full_params cache_key in
      if _can_reuse_data (params cached_entry) requested_params then
        if bool_decide (params cached_entry = requested_params) then Some (data cached_entry)
        else if negb (String.eqb (get_filter requested_params) "") then
          Some (_subset_data (data cached_entry) (get_filter requested_params))
        else None
      else None
  | None => None
  end.

(** [DataCache.put]; [now] is the reading of [time.time()]. *)
Definition put (cache : t) (query : Models.QueryConfig.t) (data : list record) (now : Z) : t :=
  let cache_key := _generate_cache_key query in
  let cache_id := cache_id cache_key in
  <[cache_id := {| data := data; timestamp := now; params := full_params cache_key |}]> cache.

(** [DataCache.clear] *)
Definition clear (cache : t) : t := ∅.

End DataCache.

(** ** [fs_report/api_client.py] *)
Module APIClient.

(** [response.json()]: a bare array of records, or an object. *)
Inductive document : Type :=
| DList (items : list record)
| DObject (d : record).

(** What the client cannot decide: the answer to the [n]-th HTTP request
    ([self.client.get], [raise_for_status] and [json]), the [n]-th draw of
    [random.uniform(0, 1)], and the clock. *)
Record Env : Type := mkEnv {
  http_get : nat -> Models.QueryConfig.t -> res document;
  uniform : nat -> Q;
  time_ : nat -> Z
}.

(** The progress file of one fetch. *)
Inductive pfile : Type :=
| NoFile
| Corrupt
| Progress (offset : Z) (results : list record).

(** What the client reads and writes. *)
Record World : Type := mkWorld {
  cache : gmap string DataCache.CacheEntry;
  requests : nat;
  draws : nat;
  slept : list Q;
  progress_file : pfile
}.

(** The records of a JSON array.  The data model has every row a mapping;
    an element that is not one makes Python raise at the first [rec.get],
    the model raises here. *)
Fixpoint records_of (l : list value) : res (list record) :=
  match l with
  | [] => Ok []
  | VDict d :: l' =>
      match records_of l' with
      | inr rs => Ok (d :: rs)
      | inl e => Raise e
      end
  | _ :: _ => Raise (TypeError "record is not a mapping")
  end.

(** [a or b] on optional values ([None] when [get] finds nothing). *)
Definition or_else (a b : option value) : option value :=
  match a with
  | Some v => if Py.truthy v then a else b
  | None => b
  end.

Section Client.

Variable env : Env.

(** [APIClient.fetch_data] *)
Definition fetch_data (w : World) (query : Models.QueryConfig.t) : res (list record) * World :=
  match DataCache.get (cache w) query with
  | Some cached_data => (Ok cached_data, w)
  | None =>
      let n := requests w in
      let w := {| cache := cache w; requests := S n; draws := draws w;
                  slept := slept w; progress_file := progress_file w |} in
      let store (result : list record) : res (list record) * World :=
        (Ok result,
         {| cache := DataCache.put (cache w) query result (time_ env n);
            requests := requests w; draws := draws w; slept := slept w;
            progress_file := progress_file w |}) in
      match http_get env n query with
      | inl e => (Raise e, w)
      | inr (DList data) => store data
      | inr (DObject data) =>
          let items := or_else (or_else (Py.get "items" data) (Py.get "scans" data)) (Py.get "data" data) in
          match items with
          | Some (VList (x :: l)) =>
              match records_of (x :: l) with
              | inr items => store items
              | inl e => (Raise e, w)
              end
          | _ => store (match data with [] => [] | _ => [data] end)
          end
      end
  end.

(** The local variables of the pagination loop. *)
Record Loop : Type := mkLoop {
  offset : Z;
  all_results : list record;
  consecutive_empty_pages : Z;
  retry_count : Z;
  using_cache : bool
}.

(** [{rec.get('id') for rec in l if rec.get('id')}]: the truthy ids, without
    repetition; a list or a mapping is not hashable. *)
Fixpoint id_set (l : list record) : res (list value) :=
  match l with
  | [] => Ok []
  | rec :: l' =>
      match Py.get "id" rec with
      | Some v =>
          if Py.truthy v then
            match v with
            | VList _ | VDict _ => Raise (TypeError "unhashable type")
            | _ =>
                match id_set l' with
                | inr s => Ok (if List.existsb (Py.value_eqb v) s then s else v :: s)
                | inl e => Raise e
                end
            end
          else id_set l'
      | None => id_set l'
      end
  end.

(** [a & b] on sets held as lists without repetition. *)
Definition intersection (a b : list value) : list value :=
  List.filter (fun v => List.existsb (Py.value_eqb v) b) a.

(** How one turn of [while True] ends. *)
Inductive outcome : Type :=
| Continue (l : Loop)
| Break (l : Loop)
| Raised (e : exn).

Definition max_consecutive_empty : Z := 3.

(** One turn of the loop of [fetch_all_with_resume]. *)
Definition turn (query : Models.QueryConfig.t) (limit max_retries : Z) (w : World) (l : Loop) : outcome * World :=
  let page_query := Models.with_offset query (offset l) in
  let cached_check := DataCache.get (cache w) page_query in
  let using_cache := match cached_check with Some _ => true | None => using_cache l end in
  match fetch_data w page_query with
  | (inl e, w) =>
      let wait := Qplus (inject_Z (2 ^ Z.min (retry_count l) 6)) (uniform env (draws w)) in
      let w := {| cache := cache w; requests := requests w; draws := S (draws w);
                  slept := slept w ++ [wait]; progress_file := progress_file w |} in
      let l := {| offset := offset l; all_results := all_results l;
                  consecutive_empty_pages := consecutive_empty_pages l;
                  retry_count := retry_count l + 1; using_cache := using_cache |} in
      if max_retries <? retry_count l then (Break l, w) else (Continue l, w)
  | (inr page, w) =>
      match page with
      | [] =>
          let l := {| offset := offset l; all_results := all_results l;
                      consecutive_empty_pages := consecutive_empty_pages l + 1;
                      retry_count := 0; using_cache := using_cache |} in
          if max_consecutive_empty <=? consecutive_empty_pages l then (Break l, w)
          else (Continue {| offset := offset l + limit; all_results := all_results l;
                            consecutive_empty_pages := consecutive_empty_pages l;
                            retry_count := retry_count l; using_cache := using_cache |}, w)
      | _ :: _ =>
          let l := {| offset := offset l; all_results := all_results l;
                      consecutive_empty_pages := 0;
                      retry_count := 0; using_cache := using_cache |} in
          let append :=
            let all_results := (all_results l ++ page)%list in
            let offset := offset l + limit in
            (Continue {| offset := offset; all_results := all_results;
                         consecutive_empty_pages := 0; retry_count := 0;
                         using_cache := using_cache |},
             {| cache := cache w; requests := requests w; draws := draws w;
                slept := slept w; progress_file := Progress offset all_results |}) in
          match all_results l with
          | [] => append
          | _ :: _ =>
              match id_set page with
              | inl e => (Raised e, w)
              | inr page_ids =>
                  match id_set (all_results l) with
                  | inl e => (Raised e, w)
                  | inr existing_ids =>
                      let duplicates := intersection page_ids existing_ids in
                      match duplicates with
                      | _ :: _ => (Break l, w)
                      | [] =>
                          if (0 <? length page_ids)%nat && (length duplicates =? length page_ids)%nat
                          then (Break l, w)
                          else append
                      end
                  end
              end
          end
      end
  end.

(** [while True], with [fuel] turns at most; [None] when they do not
    suffice. *)
Fixpoint loop (fuel : nat) (query : Models.QueryConfig.t) (limit max_retries : Z)
    (w : World) (l : Loop) : option (res (list record) * World) :=
  match fuel with
  | O => None
  | S fuel' =>
      match turn query limit max_retries w l with
      | (Continue l', w') => loop fuel' query limit max_retries w' l'
      | (Break l', w') => Some (Ok (all_results l'), w')
      | (Raised e, w') => Some (Raise e, w')
      end
  end.

(** [APIClient.fetch_all_with_resume] *)
Definition fetch_all_with_resume (fuel : nat) (w : World) (query : Models.QueryConfig.t)
    (max_retries : Z) : option (res (list record) * World) :=
  match DataCache.get (cache w) query with
  | Some cached_data => Some (Ok cached_data, w)
  | None =>
      let limit :=
        match Models.QueryParams.limit (Models.QueryConfig.params query) with
        | Some n => if n =? 0 then 10000 else n
        | None => 10000
        end in
      let '(offset, all_results, w) :=
        match progress_file w with
        | Progress offset results => (offset, results, w)
        | Corrupt =>
            (0, [], {| cache := cache w; requests := requests w; draws := draws w;
                       slept := slept w; progress_file := NoFile |})
        | NoFile => (0, [], w)
        end in
      let start := {| offset := offset; all_results := all_results;
                      consecutive_empty_pages := 0; retry_count := 0;
                      using_cache := false |} in
      match loop fuel query limit max_retries w start with
      | Some (inr all_results, w) =>
          Some (Ok all_results,
                {| cache := cache w; requests := requests w; draws := draws w;
                   slept := slept w; progress_file := NoFile |})
      | other => other
      end
  end.

End Client.

End APIClient.

(** ** [pandas.DataFrame], as far as the transformer uses it *)
Module Frame.

(** Ordered column labels and ordered rows; a row maps every label to a cell,
    [VNull] where pandas has NaN or [None]. *)
Record DataFrame : Type := mkDataFrame {
  columns : list string;
  rows : list record
}.

(** [pd.DataFrame()] *)
Definition empty : DataFrame := {| columns := []; rows := [] |}.

Definition mem (c : string) (l : list string) : bool := List.existsb (String.eqb c) l.

(** [row[c]], NaN when the label is absent. *)
Definition cell (c : string) (r : record) : value :=
  match Py.get c r with
  | Some v => v
  | None => VNull
  end.

(** The labels of a list of records, in order of first appearance. *)
Fixpoint union_keys (acc : list string) (data : list record) : list string :=
  match data with
  | [] => acc
  | r :: data' =>
      union_keys (List.fold_left (fun acc k => if mem k acc then acc else (acc ++ [k])%list) (List.map fst r) acc) data'
  end.

(** [row.reindex(cols)] *)
Definition project (cols : list string) (r : record) : record :=
  List.map (fun c => (c, cell c r)) cols.

(** [pd.DataFrame(data)] for a list of records. *)
Definition of_records (data : list record) : DataFrame :=
  let cols := union_keys [] data in
  {| columns := cols; rows := List.map (project cols) data |}.

(** [df[c] = [f(row) for row in rows]]: in place when [c] exists, a new last
    column otherwise. *)
Definition set_column (c : string) (f : record -> value) (df : DataFrame) : DataFrame :=
  {| columns := if mem c (columns df) then columns df else (columns df ++ [c])%list;
     rows := List.map (fun r => Py.set c (f r) r) (rows df) |}.

(** [df.drop(columns=[c])] *)
Definition drop (c : string) (df : DataFrame) : res DataFrame :=
  if mem c (columns df)
  then Ok {| columns := List.filter (fun c' => negb (String.eqb c c')) (columns df);
             rows := List.map (Py.remove c) (rows df) |}
  else Raise (KeyError c).

(** [df.rename(columns=mapping)] *)
Definition rename (mapping : list (string * string)) (df : DataFrame) : DataFrame :=
  let new c := match Py.get c mapping with Some c' => c' | None => c end in
  {| columns := List.map new (columns df);
     rows := List.map (List.map (fun kv => (new (fst kv), snd kv))) (rows df) |}.

(** [df.reindex(columns=cols)] and [df[cols]] for labels that exist. *)
Definition reindex (cols : list string) (df : DataFrame) : DataFrame :=
  {| columns := cols; rows := List.map (project cols) (rows df) |}.

(** [series.fillna(v)] on one cell. *)
Definition fillna (v : value) (x : value) : value :=
  match x with
  | VNull => v
  | _ => x
  end.

(** A frame with a named index, as [pivot_table] returns it. *)
Record Indexed : Type := mkIndexed {
  index_name : string;
  index_values : list value;
  frame : DataFrame
}.

(** [ix.reset_index()]: the index becomes the first column; pandas refuses
    when a column already has its name. *)
Definition reset_index (ix : Indexed) : res DataFrame :=
  if mem (index_name ix) (columns (frame ix))
  then Raise (ValueError ("cannot insert " +:+ index_name ix +:+ ", already exists"))
  else Ok {| columns := index_name ix :: columns (frame ix);
             rows := List.map (fun vr => (index_name ix, fst vr) :: snd vr)
                              (List.combine (index_values ix) (rows (frame ix))) |}.

(** Insertion into an increasing list of strings. *)
Fixpoint insert_sorted (s : string) (l : list string) : list string :=
  match l with
  | [] => [s]
  | x :: l' => if String.leb s x then s :: l else x :: insert_sorted s l'
  end.

Definition insert_uniq (s : string) (l : list string) : list string :=
  if mem s l then l else insert_sorted s l.

(** The distinct strings of a list, in increasing order. *)
Definition sort_uniq (l : list string) : list string :=
  List.fold_right insert_uniq [] l.

(** The string cells of column [c]; null cells are no keys. *)
Definition keys_of (c : string) (rs : list record) : list string :=
  omap (fun r => match cell c r with VStr s => Some s | _ => None end) rs.

(** A row takes part in a pivot when both of its keys are there. *)
Definition has_keys (index columns : string) (r : record) : bool :=
  match cell index r, cell columns r with
  | VStr _, VStr _ => true
  | _, _ => false
  end.

Definition keyed (index columns : string) (rs : list record) : list record :=
  List.filter (has_keys index columns) rs.

(** The row belongs to the group of index [i] and column key [c]. *)
Definition in_group (index columns : string) (i c : string) (r : record) : bool :=
  Py.value_eqb (cell index r) (VStr i) && Py.value_eqb (cell columns r) (VStr c).

Definition int_of (v : value) : Z :=
  match v with
  | VInt z => z
  | VBool true => 1
  | _ => 0
  end.

(** The sum of column [values] over the group of [i] and [c]. *)
Definition cell_sum (index columns values : string) (rs : list record) (i c : string) : Z :=
  List.fold_right Z.add 0
    (List.map (fun r => int_of (cell values r)) (List.filter (in_group index columns i c) rs)).

(** Where the model of [pivot_table] below applies: three distinct labels,
    string or null keys, integer values, and a row with both keys. *)
Definition pivot_domain (df : DataFrame) (index columns values : string) : bool :=
  negb (String.eqb index columns) && negb (String.eqb index values) && negb (String.eqb columns values) &&
  List.forallb (fun r => match cell index r with VStr _ | VNull => true | _ => false end) (rows df) &&
  List.forallb (fun r => match cell columns r with VStr _ | VNull => true | _ => false end) (rows df) &&
  List.forallb (fun r => match cell values r with VInt _ => true | _ => false end) (rows df) &&
  List.existsb (has_keys index columns) (rows df).

(** [df.pivot_table(index=, columns=, values=, aggfunc="sum", fill_value=0)]
    on its domain: the rows with a null key are left out, the index and the
    column labels are the distinct keys in increasing order, a cell is the
    sum over its group, and a group that does not occur is [fill_value]. *)
Definition pivot_table_sum (df : DataFrame) (index columns values : string) : Indexed :=
  let rs := keyed index columns (rows df) in
  let idx := sort_uniq (keys_of index rs) in
  let cols := sort_uniq (keys_of columns rs) in
  {| index_name := index;
     index_values := List.map VStr idx;
     frame := {| Frame.columns := cols;
                 rows := List.map (fun i => List.map (fun c =>
                            (c, if List.existsb (in_group index columns i c) rs
                                then VInt (cell_sum index columns values rs i c)
                                else VInt 0)) cols) idx |} |}.

(** The library calls that are taken as given: [DataFrame.sort_values(by,
    ascending=)], [pd.merge(left, right, left_on=, right_on=, how=)], and
    [pivot_table] outside the domain above.  Each may raise. *)
Record Pandas : Type := mkPandas {
  sort_values : list string -> bool -> DataFrame -> res DataFrame;
  merge : DataFrame -> DataFrame -> list string -> list string -> string -> res DataFrame;
  pivot_table_other : DataFrame -> string -> string -> string -> res Indexed
}.

Definition pivot_table (pd : Pandas) (df : DataFrame) (index columns values : string) : res Indexed :=
  if pivot_domain df index columns values
  then Ok (pivot_table_sum df index columns values)
  else pivot_table_other pd df index columns values.

End Frame.

(** ** [fs_report/data_transformer.py] *)
Module DataTransformer.

Import Frame.

(** [additional_data]: named record lists. *)
Abbreviation additional := (list (string * list record)).

(** The methods of [DataTransformer] that are not embedded here; each takes
    the frame and its configuration and may raise. *)
Record Rest : Type := mkRest {
  _apply_group_by : DataFrame -> list string + Models.GroupByConfig.t -> res DataFrame;
  _apply_string_agg : DataFrame -> Models.StringAggTransform.t -> res DataFrame;
  _apply_calc : DataFrame -> Models.CalcTransform.t -> res DataFrame;
  _apply_filter : DataFrame -> string -> res DataFrame;
  _apply_flatten : DataFrame -> list string + record -> res DataFrame;
  _apply_pandas_transform_function : DataFrame -> string -> option additional -> res DataFrame
}.

(** What [transform] writes to its logger, as far as it tells the steps
    apart: the warnings, [Applying transform i] and [Error in transform i]. *)
Inductive event : Type :=
| LogWarning (msg : string)
| LogApplying (i : nat)
| LogError (i : nat) (e : exn).

(** [severity_order = {"critical": 0, "high": 1, "medium": 2, "low": 3}],
    looked up by [map] and completed by [fillna(99)]. *)
Definition severity_rank (v : value) : Z :=
  match v with
  | VStr s =>
      if String.eqb s "critical" then 0
      else if String.eqb s "high" then 1
      else if String.eqb s "medium" then 2
      else if String.eqb s "low" then 3
      else 99
  | _ => 99
  end.

(** [Series.map] looks the cells up in a hash table. *)
Definition hashable (v : value) : bool :=
  match v with
  | VList _ | VDict _ => false
  | _ => true
  end.

Section Transformer.

Variable pd : Pandas.
Variable rest : Rest.

(** [DataTransformer._apply_sort] *)
Definition _apply_sort (df : DataFrame) (sort_config : Models.SortTransform.t) : res DataFrame :=
  let sort := Models.SortTransform.sort sort_config in
  let ascending := Models.SortTransform.ascending sort_config in
  let missing_cols := List.filter (fun col => negb (mem col (columns df))) sort in
  match missing_cols with
  | _ :: _ => Raise (ValueError "Sort columns not found in data")
  | [] =>
      if mem "severity" sort then
        if List.forallb (fun r => hashable (cell "severity" r)) (rows df) then
          let df_copy := set_column "_severity_order" (fun r => VInt (severity_rank (cell "severity" r))) df in
          let sort_cols := List.map (fun col => if String.eqb col "severity" then "_severity_order" else col) sort in
          match sort_values pd sort_cols ascending df_copy with
          | inr result => drop "_severity_order" result
          | inl e => Raise e
          end
        else Raise (TypeError "unhashable type")
      else sort_values pd sort ascending df
  end.

(** [DataTransformer._apply_pivot]; whatever the reshaping raises is caught
    and the frame is returned as it came. *)
Definition _apply_pivot (df : DataFrame) (pivot_config : Models.PivotTransform.t) : res DataFrame :=
  let index := Models.PivotTransform.index pivot_config in
  let columns_ := Models.PivotTransform.columns pivot_config in
  let values := Models.PivotTransform.values pivot_config in
  let required_cols := [index; columns_; values] in
  let missing_cols := List.filter (fun col => negb (mem col (columns df))) required_cols in
  match missing_cols with
  | _ :: _ => Raise (ValueError "Pivot columns not found in data")
  | [] =>
      let df_clean := set_column values (fun r => fillna (VInt 0) (cell values r)) df in
      let attempt : res DataFrame :=
        match pivot_table pd df_clean index columns_ values with
        | inl e => Raise e
        | inr pivoted =>
            match reset_index pivoted with
            | inl e => Raise e
            | inr pivoted =>
                let severity_order := ["low"; "medium"; "high"; "critical"] in
                let cols := columns pivoted in
                match cols with
                | [] => Raise (IndexError "index 0 is out of bounds")
                | idx_col :: _ =>
                    let present := List.filter (fun s => mem s cols) severity_order in
                    let others := List.filter (fun c => negb (mem c present) && negb (String.eqb c idx_col)) cols in
                    let new_order := ([idx_col] ++ present ++ others)%list in
                    Ok (reindex new_order pivoted)
                end
            end
        end in
      match attempt with
      | inr pivoted => Ok pivoted
      | inl _ => Ok df
      end
  end.

(** [DataTransformer._apply_select] *)
Definition _apply_select (df : DataFrame) (select_config : Models.SelectTransform.t) : res DataFrame :=
  let available_columns := columns df in
  let selected_columns :=
    List.filter (fun col => mem col available_columns) (Models.SelectTransform.columns select_config) in
  match selected_columns with
  | [] => Ok df
  | _ :: _ => Ok (reindex selected_columns df)
  end.

(** [DataTransformer._apply_rename] for a [RenameTransform]. *)
Definition _apply_rename (df : DataFrame) (rename_config : Models.RenameTransform.t) : res DataFrame :=
  let columns_mapping := Models.RenameTransform.columns rename_config in
  let rename_mapping := List.filter (fun on => mem (fst on) (columns df)) columns_mapping in
  match rename_mapping with
  | _ :: _ => Ok (rename rename_mapping df)
  | [] => Ok df
  end.

(** [x.get(nested_field) if isinstance(x, dict) else None] *)
Definition nested (nested_field : string) (x : value) : value :=
  match x with
  | VDict d => match Py.get nested_field d with Some v => v | None => VNull end
  | _ => VNull
  end.

(** The loop over [join_config.right_on]: the right frame with the extracted
    columns, or [None] when a column cannot be resolved. *)
Fixpoint resolve_right_on (right_df : DataFrame) (right_on : list string) : option DataFrame :=
  match right_on with
  | [] => Some right_df
  | col :: right_on' =>
      if mem col (columns right_df) then resolve_right_on right_df right_on'
      else if Py.contains "." col then
        let base_col := Py.before_first "." col in
        let nested_field := match Py.after_first "." col with Some s => s | None => "" end in
        if mem base_col (columns right_df)
        then resolve_right_on (set_column col (fun r => nested nested_field (cell base_col r)) right_df) right_on'
        else None
      else None
  end.

(** [DataTransformer._apply_join] *)
Definition _apply_join (df : DataFrame) (join_config : Models.JoinTransform.t)
    (additional_data : option additional) : res DataFrame :=
  match additional_data with
  | None => Ok df
  | Some additional_data =>
      match Py.get (Models.JoinTransform.right join_config) additional_data with
      | None => Ok df
      | Some right_data =>
          let right_df := of_records right_data in
          let left_on := Models.JoinTransform.left_on join_config in
          if negb (List.forallb (fun col => mem col (columns df)) left_on) then Ok df
          else
            match resolve_right_on right_df (Models.JoinTransform.right_on join_config) with
            | None => Ok df
            | Some right_df =>
                merge pd df right_df left_on (Models.JoinTransform.right_on join_config)
                  (Models.JoinTransform.how join_config)
            end
      end
  end.

(** [DataTransformer._apply_transform]: the first populated field decides;
    any exception leaves as [ValueError("Error applying transform")]. *)
Definition _apply_transform (df : DataFrame) (transform : Models.Transform.t) : list event * res DataFrame :=
  let wrap (r : res DataFrame) : list event * res DataFrame :=
    match r with
    | inr df => ([], Ok df)
    | inl _ => ([], Raise (ValueError "Error applying transform"))
    end in
  match Models.Transform.group_by transform with
  | Some c => wrap (_apply_group_by rest df c)
  | None =>
  match Models.Transform.string_agg transform with
  | Some c => wrap (_apply_string_agg rest df c)
  | None =>
  match Models.Transform.calc transform with
  | Some c => wrap (_apply_calc rest df c)
  | None =>
  match Models.Transform.filter transform with
  | Some c => wrap (_apply_filter rest df c)
  | None =>
  match Models.Transform.sort transform with
  | Some c => wrap (_apply_sort df c)
  | None =>
  match Models.Transform.pivot transform with
  | Some c => wrap (_apply_pivot df c)
  | None =>
  match Models.Transform.select transform with
  | Some c => wrap (_apply_select df c)
  | None =>
  match Models.Transform.flatten transform with
  | Some c => wrap (_apply_flatten rest df c)
  | None =>
  match Models.Transform.rename transform with
  | Some c => wrap (_apply_rename df c)
  | None => ([LogWarning "No valid transform found"], Ok df)
  end end end end end end end end end.

(** The body of the loop of [transform] for one step. *)
Definition apply_one (df : DataFrame) (transform : Models.Transform.t)
    (additional_data : option additional) : list event * res DataFrame :=
  match Models.Transform.transform_function transform with
  | Some (String c f) =>
      ([], _apply_pandas_transform_function rest df (String c f) additional_data)
  | _ =>
      match Models.Transform.join transform with
      | Some join =>
          match additional_data with
          | Some _ => ([], _apply_join df join additional_data)
          | None => ([LogWarning "Join transform requested but no additional_data provided"], Ok df)
          end
      | None => _apply_transform df transform
      end
  end.

(** [for i, transform in enumerate(transforms)], from index [i]. *)
Fixpoint apply_all (i : nat) (df : DataFrame) (transforms : list Models.Transform.t)
    (additional_data : option additional) : list event * res DataFrame :=
  match transforms with
  | [] => ([], Ok df)
  | transform :: transforms' =>
      match apply_one df transform additional_data with
      | (ev, inr df') =>
          let '(evs, out) := apply_all (S i) df' transforms' additional_data in
          ((LogApplying (i + 1) :: ev ++ evs)%list, out)
      | (ev, inl e) => ((LogApplying (i + 1) :: ev ++ [LogError (i + 1) e])%list, Raise e)
      end
  end.

(** The final clean-up of the [i_d] column. *)
Definition cleanup (df : DataFrame) : res DataFrame :=
  if mem "i_d" (columns df) then
    if mem "finding_count" (columns df) then drop "i_d" df
    else Ok (rename [("i_d", "finding_count")] df)
  else Ok df.

(** [DataTransformer.transform] *)
Definition transform (data : list record) (transforms : list Models.Transform.t)
    (additional_data : option additional) : list event * res DataFrame :=
  match data with
  | [] => ([LogWarning "No data to transform"], Ok Frame.empty)
  | _ :: _ =>
      let df := of_records data in
      match apply_all 0 df transforms additional_data with
      | (ev, inr df) => (ev, cleanup df)
      | (ev, inl e) => (ev, Raise e)
      end
  end.

End Transformer.

End DataTransformer.

(** ** Sample queries and records *)
Module CacheExamples.

Import Json.

Definition findings_query (f : option string) (o : option Z) : Models.QueryConfig.t :=
  {| Models.QueryConfig.endpoint := "/public/v0/findings";
     Models.QueryConfig.params :=
       {| Models.QueryParams.filter := f; Models.QueryParams.sort := None;
          Models.QueryParams.limit := Some 100; Models.QueryParams.offset := o;
          Models.QueryParams.archived := None |} |}.

Definition F1 : string := "detected>=2024-01-01;detected<=2024-12-31".
Definition F2 : string := "detected>=2024-01-01;detected<=2024-12-31;severity==high".

Definition r_high : record := [("id", VInt 1); ("severity", VStr "high")].
Definition r_low : record := [("id", VInt 2); ("severity", VStr "low")].
Definition R12 : list record := [r_high; r_low].

End CacheExamples.


(** ** Sample upstreams *)
Module ApiExamples.

Import APIClient.

Definition no_jitter (n : nat) : Q := 0%Q.

(** An upstream that refuses every request. *)
Definition down : Env :=
  {| http_get := fun _ _ => Raise (HTTPError "503 Service Unavailable");
     uniform := no_jitter;
     time_ := fun _ => 0 |}.

(** An upstream that pages in the object format: two records at offset 0,
    and an empty [items] array with the [total] from there on. *)
Definition page_object (items : list value) : document :=
  DObject [("items", VList items); ("total", VInt 2)].

Definition paged_objects : Env :=
  {| http_get := fun _ q =>
       match Models.QueryParams.offset (Models.QueryConfig.params q) with
       | Some 0 => Ok (page_object [VDict CacheExamples.r_high; VDict CacheExamples.r_low])
       | _ => Ok (page_object [])
       end;
     uniform := no_jitter;
     time_ := fun _ => 0 |}.

(** The record that [fetch_data] makes of the empty page. *)
Definition wrapper : record := [("items", VList []); ("total", VInt 2)].

(** A fresh client: empty cache, nothing requested, no progress file. *)
Definition fresh : World :=
  {| cache := DataCache.init; requests := 0; draws := 0; slept := []; progress_file := NoFile |}.

(** A client restarted on the progress file of an interrupted fetch. *)
Definition resumed : World :=
  {| cache := DataCache.init; requests := 0; draws := 0; slept := [];
     progress_file := Progress 100 CacheExamples.R12 |}.

Definition all_findings : Models.QueryConfig.t := CacheExamples.findings_query None None.

End ApiExamples.

(** ** The schedule of the retries *)
Module Backoff.

(** [2 ** min(retry_count, 6)] *)
Definition base (retry_count : Z) : Z := 2 ^ Z.min retry_count 6.

(** The sleeps of [n] failed attempts in a row, the first with retry count
    [k] and jitter draw number [d]. *)
Fixpoint waits (env : APIClient.Env) (n : nat) (k : Z) (d : nat) : list Q :=
  match n with
  | O => []
  | S n' => Qplus (inject_Z (base k)) (APIClient.uniform env d) :: waits env n' (k + 1) (S d)
  end.

End Backoff.

(** ** The pages of one fetch in the cache *)
Module Pages.

(** Every entry of the cache is a page of [q] below offset [off]. *)
Definition below (q : Models.QueryConfig.t) (c : gmap string DataCache.CacheEntry) (off : Z) : Prop :=
  forall id e, c !! id = Some e ->
    exists o, o < off /\ DataCache.params e = DataCache.full_params (DataCache._generate_cache_key (Models.with_offset q o)).

End Pages.

(** ** An upstream that serves a record list in the array format *)
Module Upstream.

(** [R[offset : offset + limit]] *)
Definition slice (R : list record) (offset limit : Z) : list record :=
  List.firstn (Z.to_nat limit) (List.skipn (Z.to_nat offset) R).

(** Every page request for [q] is answered with the slice at its offset;
    past the end of [R] the page is empty. *)
Definition serves (env : APIClient.Env) (q : Models.QueryConfig.t) (R : list record) (limit : Z) : Prop :=
  forall n o, APIClient.http_get env n (Models.with_offset q o) = Ok (APIClient.DList (slice R o limit)).


(** The records carry the non-zero integer ids [zs], without repetition. *)
Definition identified (R : list record) (zs : list Z) : Prop :=
  List.map (Py.get "id") R = List.map (fun z => Some (VInt z)) zs /\
  List.NoDup zs /\ ~ In 0 zs.

(** No page is served from the pages cached before it. *)
Definition pages_miss (q : Models.QueryConfig.t) : Prop :=
  forall c off, Pages.below q c off -> DataCache.get c (Models.with_offset q off) = None.

(** Seven records and the upstream that serves them. *)
Definition seven : list record :=
  List.map (fun z => [("id", VInt z); ("severity", VStr "low")]) [1; 2; 3; 4; 5; 6; 7].

Definition listing : APIClient.Env :=
  {| APIClient.http_get := fun _ q =>
       match Models.QueryParams.offset (Models.QueryConfig.params q) with
       | Some o => Ok (APIClient.DList (slice seven o 3))
       | None => Ok (APIClient.DList seven)
       end;
     APIClient.uniform := fun _ => 0%Q;
     APIClient.time_ := fun _ => 0 |}.


Definition by_three : Models.QueryConfig.t :=
  {| Models.QueryConfig.endpoint := "/public/v0/findings";
     Models.QueryConfig.params :=
       {| Models.QueryParams.filter := None; Models.QueryParams.sort := None;
          Models.QueryParams.limit := Some 3; Models.QueryParams.offset := None;
          Models.QueryParams.archived := None |} |}.

End Upstream.

(** ** What is assumed of [sort_values], and a library to run examples on *)
Module SortSpec.

Import Frame.

(** The integer in column [c] of a row. *)
Definition key (c : string) (r : record) : Z :=
  match cell c r with
  | VInt z => z
  | _ => 0
  end.

(** The order that [ascending] asks for. *)
Definition ordered (ascending : bool) (a b : Z) : Prop :=
  if ascending then a <= b else b <= a.

(** [sort_values] on one integer column returns the same columns and the
    same rows, rearranged into the order asked for. *)
Definition sorts (pd : Pandas) : Prop :=
  forall (c : string) (ascending : bool) (df : DataFrame),
    mem c (columns df) = true ->
    (forall r, In r (rows df) -> exists z, cell c r = VInt z) ->
    exists out,
      sort_values pd [c] ascending df = Ok out /\
      columns out = columns df /\
      Permutation (rows df) (rows out) /\
      Sorted (fun a b => ordered ascending (key c a) (key c b)) (rows out).

(** The sort keeps rows with the same key in the order they came. *)
Definition stable (pd : Pandas) : Prop :=
  forall (c : string) (ascending : bool) (df out : DataFrame),
    sort_values pd [c] ascending df = Ok out ->
    forall k, List.filter (fun r => Z.eqb (key c r) k) (rows out) =
              List.filter (fun r => Z.eqb (key c r) k) (rows df).

(** The place of a row in the severity order. *)
Definition rank (r : record) : Z := DataTransformer.severity_rank (cell "severity" r).

(** Every row has exactly the labels of the frame. *)
Definition well_formed (df : DataFrame) : Prop :=
  forall r, In r (rows df) -> List.map fst r = columns df.

End SortSpec.

(** ** What a pivot is expected to return *)
Module PivotSpec.

Import Frame.

Definition severity_names : list string := ["low"; "medium"; "high"; "critical"].

(** [df_clean[values] = df_clean[values].fillna(0)] on one row. *)
Definition clean (values : string) (r : record) : record :=
  Py.set values (fillna (VInt 0) (cell values r)) r.

(** The keys of the rows that take part. *)
Definition index_keys (df : DataFrame) (index columns : string) : list string :=
  keys_of index (keyed index columns (rows df)).

Definition column_keys (df : DataFrame) (index columns : string) : list string :=
  keys_of columns (keyed index columns (rows df)).

(** The severity columns that occur, in the fixed order, and the others. *)
Definition severity_columns (keys : list string) : list string :=
  List.filter (fun s => mem s keys) severity_names.

Definition other_columns (keys : list string) : list string :=
  List.filter (fun k => negb (mem k severity_names)) (sort_uniq keys).

(** A frame that can be pivoted: the three labels are distinct columns of
    it, the keys are strings or null and some row has both, the values are
    integers or null, and the index label is neither a column key nor a
    severity name. *)
Definition pivotable (df : DataFrame) (index columns values : string) : bool :=
  negb (String.eqb index columns) && negb (String.eqb index values) && negb (String.eqb columns values) &&
  mem index (Frame.columns df) && mem columns (Frame.columns df) && mem values (Frame.columns df) &&
  List.forallb (fun r => match cell index r with VStr _ | VNull => true | _ => false end) (rows df) &&
  List.forallb (fun r => match cell columns r with VStr _ | VNull => true | _ => false end) (rows df) &&
  List.forallb (fun r => match cell values r with VInt _ | VNull => true | _ => false end) (rows df) &&
  List.existsb (has_keys index columns) (rows df) &&
  negb (mem index (column_keys df index columns)) &&
  negb (mem index severity_names).

(** The table the pivot is expected to be. *)
Definition expected (df : DataFrame) (index columns values : string) : DataFrame :=
  let labels := (severity_columns (column_keys df index columns) ++
                 other_columns (column_keys df index columns))%list in
  {| Frame.columns := index :: labels;
     rows := List.map (fun i => (index, VStr i) ::
                          List.map (fun c => (c, VInt (cell_sum index columns values (rows df) i c))) labels)
               (sort_uniq (index_keys df index columns)) |}.

End PivotSpec.

Module Reference.

Import Frame.

(** Insertion before the first row that may follow [x]. *)
Fixpoint insert_by (before : record -> record -> bool) (x : record) (l : list record) : list record :=
  match l with
  | [] => [x]
  | y :: l' => if before x y then x :: l else y :: insert_by before x l'
  end.

Definition before (c : string) (ascending : bool) (x y : record) : bool :=
  if ascending then SortSpec.key c x <=? SortSpec.key c y
  else SortSpec.key c y <=? SortSpec.key c x.

(** A stable sort on one integer column; other calls are not served. *)
Definition sort_values (by_ : list string) (ascending : bool) (df : DataFrame) : res DataFrame :=
  match by_ with
  | [c] =>
      if List.forallb (fun r => match cell c r with VInt _ => true | _ => false end) (rows df)
      then Ok {| columns := columns df;
                 rows := List.fold_right (insert_by (before c ascending)) [] (rows df) |}
      else Raise (TypeError "sort key is not an integer column")
  | _ => Raise (TypeError "one sort column expected")
  end.

Definition pandas : Pandas :=
  {| Frame.sort_values := sort_values;
     merge := fun _ _ _ _ _ => Raise (TypeError "merge is not served");
     pivot_table_other := fun _ _ _ _ => Raise (TypeError "pivot_table is not served") |}.

(** The steps that are not embedded answer with an error. *)
Definition rest : DataTransformer.Rest :=
  {| DataTransformer._apply_group_by := fun _ _ => Raise (ValueError "not embedded");
     DataTransformer._apply_string_agg := fun _ _ => Raise (ValueError "not embedded");
     DataTransformer._apply_calc := fun _ _ => Raise (ValueError "not embedded");
     DataTransformer._apply_filter := fun _ _ => Raise (ValueError "not embedded");
     DataTransformer._apply_flatten := fun _ _ => Raise (ValueError "not embedded");
     DataTransformer._apply_pandas_transform_function := fun _ _ _ => Raise (ImportError "not embedded") |}.

End Reference.

(** ** Sample findings and steps *)
Module TransformExamples.

Import Models.

Definition finding (project severity : string) (n : Z) : record :=
  [("project", VStr project); ("severity", VStr severity); ("n", VInt n)].

Definition findings : list record :=
  [finding "alpha" "low" 1; finding "beta" "urgent" 2; finding "alpha" "critical" 3;
   finding "beta" "low" 4; finding "alpha" "low" 5].

Definition sort_step (by_ : list string) (ascending : bool) : Transform.t :=
  {| Transform.group_by := None; Transform.string_agg := None; Transform.calc := None;
     Transform.filter := None;
     Transform.sort := Some {| SortTransform.sort := by_; SortTransform.ascending := ascending |};
     Transform.pivot := None; Transform.join := None; Transform.select := None;
     Transform.flatten := None; Transform.rename := None; Transform.transform_function := None |}.

Definition pivot_step (index columns values : string) : Transform.t :=
  {| Transform.group_by := None; Transform.string_agg := None; Transform.calc := None;
     Transform.filter := None; Transform.sort := None;
     Transform.pivot := Some {| PivotTransform.index := index; PivotTransform.columns := columns;
                                PivotTransform.values := values |};
     Transform.join := None; Transform.select := None;
     Transform.flatten := None; Transform.rename := None; Transform.transform_function := None |}.

Definition join_step (right : string) (left_on right_on : list string) : Transform.t :=
  {| Transform.group_by := None; Transform.string_agg := None; Transform.calc := None;
     Transform.filter := None; Transform.sort := None; Transform.pivot := None;
     Transform.join := Some {| JoinTransform.right := right; JoinTransform.left_on := left_on;
                               JoinTransform.right_on := right_on; JoinTransform.how := "left" |};
     Transform.select := None;
     Transform.flatten := None; Transform.rename := None; Transform.transform_function := None |}.

Definition projects : list record :=
  [[("id", VStr "alpha"); ("name", VStr "Alpha")]; [("id", VStr "beta"); ("name", VStr "Beta")]].

(** Findings in which one severity is spelled like the index column. *)
Definition clashing : list record :=
  [finding "alpha" "low" 1; finding "beta" "project" 2].

(** Findings in which one project has no severity at all. *)
Definition unrated : list record :=
  [finding "alpha" "low" 1;
   [("project", VStr "gamma"); ("severity", VNull); ("n", VInt 7)]].

End TransformExamples.

(** ** More of Python's [str] and [dict] *)
Module PyStr.

(** [c.lower()] on one code point below 256: the ASCII capitals and the
    Latin-1 capitals U+00C0 to U+00DE other than the multiplication sign. *)
Definition lower_char (c : ascii) : ascii :=
  let n := nat_of_ascii c in
  if ((65 <=? n) && (n <=? 90) || (192 <=? n) && (n <=? 222) && negb (n =? 215))%nat
  then ascii_of_nat (n + 32)
  else c.

(** [s.lower()] *)
Fixpoint lower (s : string) : string :=
  match s with
  | EmptyString => EmptyString
  | String c s' => String (lower_char c) (lower s')
  end.

(** [s.replace(old, new)] for a non-empty [old]: the occurrences are taken
    from the left and do not overlap; [skip] counts the characters of the
    occurrence just replaced that are still to be passed. *)
Fixpoint replace_from (old new : string) (skip : nat) (s : string) : string :=
  match s with
  | EmptyString => EmptyString
  | String c s' =>
      match skip with
      | S k => replace_from old new k s'
      | O =>
          if String.prefix old s
          then new +:+ replace_from old new (String.length old - 1) s'
          else String c (replace_from old new 0 s')
      end
  end.

Definition replace (old new s : string) : string := replace_from old new 0 s.

(** [s[:-1]] *)
Definition slice_0_m1 (s : string) : string :=
  String.substring 0 (String.length s - 1) s.

Definition is_digit (c : ascii) : bool :=
  let n := nat_of_ascii c in ((48 <=? n) && (n <=? 57))%nat.

Definition digit_value (c : ascii) : Z := Z.of_nat (nat_of_ascii c) - 48.

Definition underscore : ascii := ascii_of_nat 95.

(** The digits of a decimal literal, single underscores allowed between
    two digits: the value, and how many digits were read. *)
Fixpoint digits (acc : Z) (count : nat) (after_underscore : bool) (s : string) : option (Z * nat) :=
  match s with
  | EmptyString => if after_underscore then None else Some (acc, count)
  | String c s' =>
      if is_digit c then digits (10 * acc + digit_value c) (S count) false s'
      else if Ascii.eqb c underscore && negb after_underscore then digits acc count true s'
      else None
  end.

(** [sys.get_int_max_str_digits()], as shipped. *)
Definition int_max_str_digits : nat := 4300.

(** [int(s)] for a string: [None] stands for the [ValueError].  White space
    around, one sign, then digits; more than 4300 digits are refused. *)
Definition int_ (s : string) : option Z :=
  let s := Py.strip s in
  let '(sign, body) :=
    match s with
    | String c r =>
        if Ascii.eqb c "+" then (1, r) else if Ascii.eqb c "-" then (-1, r) else (1, s)
    | EmptyString => (1, s)
    end in
  match body with
  | String c _ =>
      if is_digit c then
        match digits 0 0 false body with
        | Some (z, n) => if (int_max_str_digits <? n)%nat then None else Some (sign * z)
        | None => None
        end
      else None
  | EmptyString => None
  end.

(** [all(p(c) for c in s)] *)
Fixpoint all_chars (p : ascii -> bool) (s : string) : bool :=
  match s with
  | EmptyString => true
  | String c s' => p c && all_chars p s'
  end.

(** The characters that a text accepted by [int] is made of. *)
Definition int_char (c : ascii) : bool :=
  Py.is_space c || is_digit c || Ascii.eqb c underscore || Ascii.eqb c "+" || Ascii.eqb c "-".

(** Anything but the dollar sign. *)
Definition no_dollar (c : ascii) : bool := negb (Ascii.eqb c "$").

(** [del d[k]] *)
Definition del_ {A : Type} (k : string) (d : list (string * A)) : res (list (string * A)) :=
  match Py.get k d with
  | Some _ => Ok (Py.remove k d)
  | None => Raise (KeyError k)
  end.

(** [d.update(other)] *)
Definition update {A : Type} (d other : list (string * A)) : list (string * A) :=
  List.fold_left (fun acc kv => Py.set (fst kv) (snd kv) acc) other d.

(** [dict(items)] for a list of pairs. *)
Definition dict_ {A : Type} (items : list (string * A)) : list (string * A) :=
  update [] items.

(** [isinstance(v, dict)] *)
Definition is_dict (v : value) : bool :=
  match v with
  | VDict _ => true
  | _ => false
  end.

End PyStr.

(** ** [DataCache.get_stats] *)
Module CacheStats.

Import DataCache.

(** The dictionary that [get_stats] returns.  The map that holds the cache
    does not keep the order of insertion, so [cache_keys] is the set of the
    keys. *)
Record Stats : Type := mkStats {
  total_entries : nat;
  total_records : nat;
  cache_keys : gset string
}.

(** [sum(len(entry.data) for entry in self.cache.values())] *)
Definition sum_records (cache : DataCache.t) : nat :=
  map_fold (fun _ entry acc => (length (data entry) + acc)%nat) 0%nat cache.

(** [DataCache.get_stats] *)
Definition get_stats (cache : DataCache.t) : Stats :=
  {| total_entries := size cache;
     total_records := sum_records cache;
     cache_keys := dom cache |}.

End CacheStats.

(** ** The module-level functions of [fs_report/data_transformer.py] *)
Module Flatten.

Import PyStr.

(** [flatten_dict], on the value that holds the dictionary. *)
Fixpoint flatten_value (v : value) (parent_key sep : string) {struct v} : record :=
  match v with
  | VDict d =>
      dict_
        ((fix items (d : list (string * value)) : list (string * value) :=
            match d with
            | [] => []
            | (k, v) :: d' =>
                let new_key :=
                  if String.eqb parent_key "" then k else parent_key +:+ sep +:+ k in
                ((match v with
                  | VDict _ => flatten_value v new_key sep
                  | _ => [(new_key, v)]
                  end) ++ items d')%list
            end) d)
  | _ => []
  end.

(** The list [items] that [flatten_dict] hands to [dict]. *)
Definition items (d : record) (parent_key sep : string) : list (string * value) :=
  List.flat_map
    (fun kv =>
       let new_key :=
         if String.eqb parent_key "" then fst kv else parent_key +:+ sep +:+ fst kv in
       match snd kv with
       | VDict _ => flatten_value (snd kv) new_key sep
       | _ => [(new_key, snd kv)]
       end) d.

(** [flatten_dict(d, parent_key, sep)] *)
Definition flatten_dict (d : record) (parent_key sep : string) : record :=
  flatten_value (VDict d) parent_key sep.

(** The body of [for field in fields_to_flatten], on the copy [rec_flat] of
    [rec]. *)
Definition flatten_field (rec : record) (rec_flat : res record) (field : string) : res record :=
  match rec_flat with
  | inl e => Raise e
  | inr rec_flat =>
      match Py.get field rec with
      | Some (VDict d) => del_ field (update rec_flat (flatten_dict d field "."))
      | _ => Ok rec_flat
      end
  end.

(** The body of [for k, v in list(rec_flat.items())]. *)
Definition flatten_item (rec_flat : res record) (kv : string * value) : res record :=
  match rec_flat with
  | inl e => Raise e
  | inr rec_flat =>
      match snd kv with
      | VDict d => del_ (fst kv) (update rec_flat (flatten_dict d (fst kv) "."))
      | _ => Ok rec_flat
      end
  end.

(** One turn of [for rec in records]. *)
Definition flatten_record (fields_to_flatten : option (list string)) (rec : record) : res record :=
  match fields_to_flatten with
  | Some (field :: fields) => List.fold_left (flatten_field rec) (field :: fields) (Ok rec)
  | _ => List.fold_left flatten_item rec (Ok rec)
  end.

(** [flatten_records(records, fields_to_flatten)] *)
Fixpoint flatten_records (records : list record) (fields_to_flatten : option (list string))
    : res (list record) :=
  match records with
  | [] => Ok []
  | rec :: records' =>
      match flatten_record fields_to_flatten rec with
      | inl e => Raise e
      | inr rec_flat =>
          match flatten_records records' fields_to_flatten with
          | inl e => Raise e
          | inr flat_records => Ok (rec_flat :: flat_records)
          end
      end
  end.

End Flatten.

(** ** What is said of flattened records *)
Module FlattenSpec.

(** No value of the dictionary is itself a dictionary. *)
Definition flat (r : record) : Prop := List.Forall (fun kv => PyStr.is_dict (snd kv) = false) r.

(** [list(r.keys())] *)
Definition keys (r : record) : list string := List.map fst r.

(** The state of the loop over the items of a record: [r] is the copy being
    rewritten, [todo] the items still to visit.  The keys of [r] are
    distinct, the items to visit are still in [r], with their value or one
    that is no dictionary, and the dictionaries left in [r] are all to
    visit. *)
Definition pending (todo r : record) : Prop :=
  List.NoDup (keys r) /\
  (forall k v, In (k, v) todo -> exists b, In (k, b) r /\ (b = v \/ PyStr.is_dict b = false)) /\
  (forall k b, In (k, b) r -> PyStr.is_dict b = true -> In k (keys todo)).

End FlattenSpec.

(** ** The validators of [fs_report/models.py] *)
Module Validators.

(** [QueryParams.validate_filter] *)
Definition validate_filter (v : option string) : res (option string) :=
  match v with
  | None => Ok None
  | Some s =>
      if Py.contains ";" s && Py.contains "and" s
      then Raise (ValueError "Cannot mix ';' and 'and' operators in filter")
      else Ok (Some s)
  end.

(** [QueryParams(filter=, sort=, limit=, offset=, archived=)]: the fields
    are validated when the object is built; what pydantic raises is a
    [ValueError] that lists the fields refused. *)
Definition QueryParams (filter sort : option string) (limit offset : option Z)
    (archived : option bool) : res Models.QueryParams.t :=
  let filter_ok := match validate_filter filter with inr _ => true | inl _ => false end in
  let limit_ok := match limit with Some n => (1 <=? n) && (n <=? 10000) | None => true end in
  let offset_ok := match offset with Some n => 0 <=? n | None => true end in
  if filter_ok && limit_ok && offset_ok
  then Ok {| Models.QueryParams.filter := filter; Models.QueryParams.sort := sort;
             Models.QueryParams.limit := limit; Models.QueryParams.offset := offset;
             Models.QueryParams.archived := archived |}
  else Raise (ValueError "validation error for QueryParams").

(** [Recipe.validate_name] *)
Definition validate_name (v : string) : res string :=
  if String.eqb (Py.strip v) "" then Raise (ValueError "Recipe name cannot be empty")
  else Ok (Py.strip v).

(** [Config.validate_domain] *)
Definition validate_domain (v : string) : res string :=
  if String.eqb (Py.strip v) "" then Raise (ValueError "Domain cannot be empty")
  else
    let domain := PyStr.lower (Py.strip v) in
    let domain :=
      if Py.startswith "http://" domain || Py.startswith "https://" domain
      then match Py.after_first "://" domain with
           | Some rest => Ok rest
           | None => Raise (IndexError "list index out of range")
           end
      else Ok domain in
    match domain with
    | inl e => Raise e
    | inr domain => if Py.endswith "/" domain then Ok (PyStr.slice_0_m1 domain) else Ok domain
    end.

(** [Config], the fields that the engine and the client read. *)
Module Config.
Record t : Type := mk {
  auth_token : string;
  domain : string;
  output_dir : string;
  start_date : string;
  end_date : string;
  project_filter : option string;
  version_filter : option string
}.
End Config.

End Validators.

(** ** What [fetch_data] sends *)
Module Request.

Import Validators.

Section Dates.

(** [datetime.fromisoformat(s).strftime("%Y-%m-%d")]: the day of an ISO
    8601 date, or the [ValueError] of a text that is none. *)
Variable day_of : string -> res string.

Variable config : Config.t.

(** ["/findings" in endpoint.lower() if endpoint else False] *)
Definition is_findings_endpoint (endpoint : string) : bool :=
  if String.eqb endpoint "" then false else Py.contains "/findings" (PyStr.lower endpoint).

(** [APIClient._substitute_variables]; [replace(hour=0, minute=0, second=0)]
    and [replace(hour=23, minute=59, second=59)] fix the time of day. *)
Definition _substitute_variables (filter_expr endpoint : string) : res string :=
  match day_of (Config.start_date config) with
  | inl e => Raise e
  | inr start_day =>
      match day_of (Config.end_date config) with
      | inl e => Raise e
      | inr end_day =>
          let suffix := if is_findings_endpoint endpoint then "" else "Z" in
          let start_str := start_day +:+ "T00:00:00" +:+ suffix in
          let end_str := end_day +:+ "T23:59:59" +:+ suffix in
          let result := PyStr.replace "${start}" start_str filter_expr in
          let result := PyStr.replace "${end}" end_str result in
          Ok result
      end
  end.

(** The [params] dictionary of [fetch_data]: a field that is [None], empty
    or zero is not sent. *)
Definition request_params (query : Models.QueryConfig.t) : res (list (string * string)) :=
  let p := Models.QueryConfig.params query in
  let with_filter : res (list (string * string)) :=
    match Models.QueryParams.filter p with
    | Some (String c f) =>
        match _substitute_variables (String c f) (Models.QueryConfig.endpoint query) with
        | inl e => Raise e
        | inr s => Ok [("filter", s)]
        end
    | _ => Ok []
    end in
  match with_filter with
  | inl e => Raise e
  | inr params =>
      let params :=
        match Models.QueryParams.sort p with
        | Some (String c s) => Py.set "sort" (String c s) params
        | _ => params
        end in
      let params :=
        match Models.QueryParams.limit p with
        | Some n => if n =? 0 then params else Py.set "limit" (Py.str_of_Z n) params
        | None => params
        end in
      let params :=
        match Models.QueryParams.offset p with
        | Some n => if n =? 0 then params else Py.set "offset" (Py.str_of_Z n) params
        | None => params
        end in
      let params :=
        match Models.QueryParams.archived p with
        | Some b => Py.set "archived" (if b then "true" else "false") params
        | None => params
        end in
      Ok params
  end.

End Dates.

(** [APIClient.test_connection] *)
Definition test_query : Models.QueryConfig.t :=
  {| Models.QueryConfig.endpoint := "/public/v0/projects";
     Models.QueryConfig.params :=
       {| Models.QueryParams.filter := None; Models.QueryParams.sort := None;
          Models.QueryParams.limit := Some 1; Models.QueryParams.offset := None;
          Models.QueryParams.archived := None |} |}.

Definition test_connection (env : APIClient.Env) (w : APIClient.World) : bool * APIClient.World :=
  match APIClient.fetch_data env w test_query with
  | (inr _, w') => (true, w')
  | (inl _, w') => (false, w')
  end.

End Request.

(** ** The queries that [ReportEngine] builds, [fs_report/report_engine.py] *)
Module ReportEngine.

Import Validators.

(** [try: id = int(text); f"{name}=={id}" except ValueError:
    f"{name}=={text}"] *)
Definition id_clause (name text : string) : string :=
  match PyStr.int_ text with
  | Some id => name +:+ "==" +:+ Py.str_of_Z id
  | None => name +:+ "==" +:+ text
  end.

(** The clauses for [config.project_filter] and [config.version_filter],
    each when it is set and not empty. *)
Definition additional_filters (config : Config.t) : list string :=
  (match Config.project_filter config with
   | Some (String c s) => [id_clause "project" (String c s)]
   | _ => []
   end ++
   match Config.version_filter config with
   | Some (String c s) => [id_clause "projectVersion" (String c s)]
   | _ => []
   end)%list.

(** The filter of the findings-based reports in [_process_recipe]. *)
Definition findings_filter (config : Config.t) : string :=
  let base_filter := "detected>=${start};detected<=${end}" in
  let base_filter :=
    match Config.project_filter config with
    | Some (String c s) => base_filter +:+ ";" +:+ id_clause "project" (String c s)
    | _ => base_filter
    end in
  let base_filter :=
    match Config.version_filter config with
    | Some (String c s) => base_filter +:+ ";" +:+ id_clause "projectVersion" (String c s)
    | _ => base_filter
    end in
  base_filter.

(** The [unified_query] of the findings-based reports. *)
Definition findings_query (config : Config.t) (query : Models.QueryConfig.t) : res Models.QueryConfig.t :=
  match Validators.QueryParams (Some (findings_filter config)) None
          (Models.QueryParams.limit (Models.QueryConfig.params query)) None None with
  | inl e => Raise e
  | inr params =>
      Ok {| Models.QueryConfig.endpoint := Models.QueryConfig.endpoint query;
            Models.QueryConfig.params := params |}
  end.

(** [ReportEngine._apply_scan_filters] *)
Definition _apply_scan_filters (config : Config.t) (query_config : Models.QueryConfig.t)
    : res Models.QueryConfig.t :=
  let p := Models.QueryConfig.params query_config in
  let original_filter := match Models.QueryParams.filter p with Some f => f | None => "" end in
  match additional_filters config with
  | [] => Ok query_config
  | f :: fs =>
      let combined_filter := String.concat ";" (f :: fs) in
      let final_filter :=
        if String.eqb original_filter "" then combined_filter
        else original_filter +:+ ";" +:+ combined_filter in
      match Validators.QueryParams (Some final_filter) (Models.QueryParams.sort p)
              (Models.QueryParams.limit p) (Models.QueryParams.offset p) None with
      | inl e => Raise e
      | inr params =>
          Ok {| Models.QueryConfig.endpoint := Models.QueryConfig.endpoint query_config;
                Models.QueryConfig.params := params |}
      end
  end.

End ReportEngine.

(** ** The caches that a run can reach *)
Module History.

(** One call of [DataCache.put]: the query, the records, the clock. *)
Definition op : Type := Models.QueryConfig.t * list record * Z.

(** The cache after the [put]s of [ops], in order, on a new [DataCache]. *)
Definition puts (ops : list op) : DataCache.t :=
  List.fold_left (fun c o => DataCache.put c (fst (fst o)) (snd (fst o)) (snd o)) ops DataCache.init.

End History.

(** ** The pages of a fetch that the cache can serve again *)
Module Replay.

(** The query of page number [k] of a fetch in pages of [L]. *)
Definition page (q : Models.QueryConfig.t) (L : Z) (k : nat) : Models.QueryConfig.t :=
  Models.with_offset q (Z.of_nat k * L).

(** The cache ids of the first [n] pages. *)
Definition page_ids (q : Models.QueryConfig.t) (L : Z) (n : nat) : list string :=
  List.map (fun k => DataCache.cache_id (DataCache._generate_cache_key (page q L k)))
    (List.seq 0 n).

(** The cache answers the first [n] page queries with the slices of [R]. *)
Definition cached (q : Models.QueryConfig.t) (c : gmap string DataCache.CacheEntry)
    (R : list record) (L : Z) (n : nat) : Prop :=
  forall k, (k < n)%nat ->
    DataCache.get c (page q L k) = Some (Upstream.slice R (Z.of_nat k * L) L).

(** Two states of the client that differ in the progress file at most. *)
Definition same_client (w w' : APIClient.World) : Prop :=
  APIClient.cache w' = APIClient.cache w /\
  APIClient.requests w' = APIClient.requests w /\
  APIClient.draws w' = APIClient.draws w /\
  APIClient.slept w' = APIClient.slept w.

End Replay.

(** * Facts on dictionaries and frames *)
Module PyProps.

Lemma get_set_same {A : Type} (k : string) (v : A) (d : list (string * A)) :
  Py.get k (Py.set k v d) = Some v.
Proof.
  induction d as [|[k' v'] d IH]; cbn [Py.set Py.get].
  - rewrite String.eqb_refl. reflexivity.
  - destruct (String.eqb k k') eqn:E; cbn [Py.get]; rewrite ?String.eqb_refl, ?E; auto.
Qed.

Lemma get_set_other {A : Type} (k k' : string) (v : A) (d : list (string * A)) :
  k <> k' -> Py.get k' (Py.set k v d) = Py.get k' d.
Proof.
  intros Hne. induction d as [|[k0 v0] d IH]; cbn [Py.set Py.get].
  - apply String.eqb_neq in Hne. rewrite String.eqb_sym, Hne. reflexivity.
  - destruct (String.eqb k k0) eqn:E; cbn [Py.get].
    + apply String.eqb_eq in E. subst k0.
      replace (String.eqb k' k) with false; [reflexivity|].
      symmetry. apply String.eqb_neq. congruence.
    + rewrite IH. reflexivity.
Qed.

Lemma get_None {A : Type} (k : string) (d : list (string * A)) :
  ~ In k (List.map fst d) -> Py.get k d = None.
Proof.
  induction d as [|[k' v'] d IH]; cbn [Py.get List.map fst]; [reflexivity|].
  intros H. destruct (String.eqb_spec k k') as [->|Hne].
  - exfalso. apply H. left. reflexivity.
  - apply IH. intros Hin. apply H. right. exact Hin.
Qed.

Lemma remove_set_fresh {A : Type} (k : string) (v : A) (d : list (string * A)) :
  Py.get k d = None -> Py.remove k (Py.set k v d) = d.
Proof.
  induction d as [|[k' v'] d IH]; cbn [Py.get Py.set Py.remove].
  - rewrite String.eqb_refl. reflexivity.
  - destruct (String.eqb k k') eqn:E; [discriminate|].
    intros H. cbn [Py.remove]. rewrite E, IH by exact H. reflexivity.
Qed.

Lemma mem_In (c : string) (l : list string) : Frame.mem c l = true <-> In c l.
Proof.
  unfold Frame.mem. rewrite existsb_exists. split.
  - intros (x & Hx & E). apply String.eqb_eq in E. subst. exact Hx.
  - intros H. exists c. split; [exact H|apply String.eqb_refl].
Qed.

Lemma mem_false (c : string) (l : list string) : Frame.mem c l = false <-> ~ In c l.
Proof.
  rewrite <- mem_In. destruct (Frame.mem c l); split; intros; congruence.
Qed.

Lemma mem_app_r (c : string) (l : list string) : Frame.mem c (l ++ [c]) = true.
Proof. apply mem_In, in_or_app. right. left. reflexivity. Qed.

Lemma filter_fresh (c : string) (l : list string) :
  ~ In c l -> List.filter (fun c' => negb (String.eqb c c')) (l ++ [c]) = l.
Proof.
  induction l as [|x l IH]; cbn [app List.filter]; intros H.
  - rewrite String.eqb_refl. reflexivity.
  - destruct (String.eqb_spec c x) as [->|Hne].
    + exfalso. apply H. left. reflexivity.
    + cbn [negb]. rewrite IH; [reflexivity|]. intros Hin. apply H. right. exact Hin.
Qed.

Lemma StronglySorted_map_in {A B : Type} (R : A -> A -> Prop) (R' : B -> B -> Prop)
    (g : A -> B) (l : list A) :
  (forall a b, In a l -> In b l -> R a b -> R' (g a) (g b)) ->
  StronglySorted R l -> StronglySorted R' (List.map g l).
Proof.
  intros H S. induction S as [|a l S IH Hall]; cbn [List.map]; constructor.
  - apply IH. intros x y Hx Hy. apply H; right; assumption.
  - rewrite List.Forall_forall in *. intros y Hy.
    apply in_map_iff in Hy as (b & <- & Hb).
    apply H; [left; reflexivity|right; exact Hb|apply Hall; exact Hb].
Qed.

Lemma filter_map_swap {A B : Type} (p : B -> bool) (g : A -> B) (l : list A) :
  List.filter p (List.map g l) = List.map g (List.filter (fun a => p (g a)) l).
Proof.
  induction l as [|a l IH]; cbn [List.map List.filter]; [reflexivity|].
  destruct (p (g a)); cbn [List.map]; rewrite IH; reflexivity.
Qed.

End PyProps.

(** * Properties of the response cache *)
Module DataCacheProps.

Import Json DataCache CacheExamples.

Lemma can_reuse_refl (p : gmap string pvalue) : _can_reuse_data p p = true.
Proof. unfold _can_reuse_data. rewrite bool_decide_eq_true_2; reflexivity. Qed.

(** C9.  Storing a record list under a query and reading the same query back
    returns that list, unchanged and unfiltered, whatever else the cache
    holds. *)
Theorem put_get_exact (c : gmap string CacheEntry) (q : Models.QueryConfig.t)
    (R : list record) (now : Z) :
  get (put c q R now) q = Some R.
Proof.
  unfold get, put.
  rewrite lookup_insert_eq. cbn [params data].
  rewrite can_reuse_refl.
  rewrite bool_decide_eq_true_2; reflexivity.
Qed.

(** What a hit is made of: the entry stored under the requested id, read
    verbatim when its parameters are the requested ones and filtered by the
    requested filter otherwise. *)
Lemma get_Some_inv (c : gmap string CacheEntry) (q : Models.QueryConfig.t) (d : list record) :
  get c q = Some d ->
  exists e, c !! cache_id (_generate_cache_key q) = Some e /\
    ((params e = full_params (_generate_cache_key q) /\ d = data e) \/
     (params e <> full_params (_generate_cache_key q) /\
      get_filter (full_params (_generate_cache_key q)) <> "" /\
      _is_subset_filter (get_filter (params e)) (get_filter (full_params (_generate_cache_key q))) = true /\
      d = _subset_data (data e) (get_filter (full_params (_generate_cache_key q))))).
Proof.
  unfold get. generalize (_generate_cache_key q). intros k.
  destruct (c !! _) as [e|]; [|discriminate].
  intros H. exists e. split; [reflexivity|].
  unfold _can_reuse_data in H.
  destruct (bool_decide (params e = full_params k)) eqn:E.
  - apply bool_decide_eq_true_1 in E. left. split; congruence.
  - apply bool_decide_eq_false_1 in E. right.
    destruct (_is_subset_filter _ _) eqn:S; [|discriminate].
    destruct (String.eqb (get_filter (full_params k)) "") eqn:F; cbn in H; [discriminate|].
    apply String.eqb_neq in F. repeat split; congruence.
Qed.

Lemma get_miss (c : gmap string CacheEntry) (q : Models.QueryConfig.t) :
  c !! cache_id (_generate_cache_key q) = None -> get c q = None.
Proof. unfold get. intros ->. reflexivity. Qed.

(** After one [put], a request with another cache id is a miss, whatever the
    two filters are. *)
Lemma put_then_get_other_id (q1 q2 : Models.QueryConfig.t) (R : list record) (now : Z) :
  cache_id (_generate_cache_key q1) <> cache_id (_generate_cache_key q2) ->
  get (put init q1 R now) q2 = None.
Proof.
  intros Hne. apply get_miss. unfold put, init.
  rewrite lookup_insert_ne by exact Hne. apply lookup_empty.
Qed.

Lemma is_subset_filter_empty_cached (F : string) :
  F <> "" -> _is_subset_filter "" F = false.
Proof.
  intros HF. unfold _is_subset_filter.
  apply String.eqb_neq in HF. rewrite HF. reflexivity.
Qed.

(** The parameters kept in a key, field by field. *)
Lemma full_params_lookup (q : Models.QueryConfig.t) :
  let p := Models.QueryConfig.params q in
  let d := full_params (_generate_cache_key q) in
  d !! "filter" = PStr <$> Models.QueryParams.filter p /\
  d !! "sort" = PStr <$> Models.QueryParams.sort p /\
  d !! "limit" = PInt <$> Models.QueryParams.limit p /\
  d !! "offset" = PInt <$> Models.QueryParams.offset p /\
  d !! "archived" = PBool <$> Models.QueryParams.archived p.
Proof.
  destruct q as [ep [f s l o a]]. cbn.
  destruct f, s, l, o, a; vm_compute; repeat split.
Qed.

(** C1, at a request that restricts a cached filter by one equality clause
    on the same date range: the heuristic accepts the pair and the local
    filter yields the one matching record, but [get] looks the request up
    under its own id only and reports no match. *)
Theorem subset_request_misses :
  _is_subset_filter F1 F2 = true /\
  _subset_data R12 F2 = [r_high] /\
  get (put init (findings_query (Some F1) None) R12 0) (findings_query (Some F2) None) = None.
Proof. vm_compute. repeat split. Qed.

(** C3, refuted: with the records of the unfiltered query in the cache, a
    request with a filter is not served from them. *)
Lemma empty_cached_filter_not_superset :
  _is_subset_filter "" "severity==high" = false /\
  get (put init (findings_query None None) R12 0) (findings_query (Some "severity==high") None) = None /\
  get (put init (findings_query (Some "") None) R12 0) (findings_query (Some "severity==high") None) = None.
Proof. vm_compute. repeat split. Qed.

(** C3, as the code has it.  The heuristic never takes an empty cached
    filter for a superset of a non-empty requested one, and [get] answers
    no match whenever the entry it finds has an empty filter while the
    request has one. *)
Theorem empty_cached_filter_no_reuse (c : gmap string CacheEntry) (q : Models.QueryConfig.t) (F : string) :
  Models.QueryParams.filter (Models.QueryConfig.params q) = Some F ->
  F <> "" ->
  (forall e, c !! cache_id (_generate_cache_key q) = Some e -> get_filter (params e) = "") ->
  _is_subset_filter "" F = false /\
  (forall p, get_filter p = "" -> _can_reuse_data p (full_params (_generate_cache_key q)) = false) /\
  get c q = None.
Proof.
  intros Hq HF Hc.
  assert (Hreq : get_filter (full_params (_generate_cache_key q)) = F).
  { unfold get_filter. destruct (full_params_lookup q) as [-> _]. rewrite Hq. reflexivity. }
  assert (Hno : forall p, get_filter p = "" -> _can_reuse_data p (full_params (_generate_cache_key q)) = false).
  { intros p Hp. unfold _can_reuse_data.
    rewrite bool_decide_eq_false_2.
    - rewrite Hp, Hreq, is_subset_filter_empty_cached; auto.
    - intros E. rewrite E, Hreq in Hp. auto. }
  split; [apply is_subset_filter_empty_cached; assumption|].
  split; [exact Hno|].
  unfold get. destruct (c !! _) as [e|] eqn:E; [|reflexivity].
  rewrite (Hno _ (Hc e eq_refl)). reflexivity.
Qed.

Lemma empty_cached_filter_no_reuse_witness :
  _is_subset_filter "" "severity==high" = false /\
  (forall p, get_filter p = "" ->
     _can_reuse_data p (full_params (_generate_cache_key (findings_query (Some "severity==high") None))) = false) /\
  get (<[cache_id (_generate_cache_key (findings_query (Some "severity==high") None)) :=
          {| data := R12; timestamp := 0; params := full_params (_generate_cache_key (findings_query None None)) |}]> init)
      (findings_query (Some "severity==high") None) = None.
Proof.
  apply (empty_cached_filter_no_reuse _ _ "severity==high").
  - reflexivity.
  - discriminate.
  - intros e. rewrite lookup_insert_eq. intros [= <-]. vm_compute. reflexivity.
Defined.

(** C4, refuted: the offset is part of the stored parameters, and two
    queries that differ in nothing but the offset get different cache ids. *)
Lemma offset_in_cache_key :
  (put init (findings_query (Some F1) (Some 100)) R12 0 !! cache_id (_generate_cache_key (findings_query (Some F1) (Some 100))))
    ≫= (fun e => params e !! "offset") = Some (PInt 100) /\
  cache_id (_generate_cache_key (findings_query (Some F1) (Some 0))) <>
  cache_id (_generate_cache_key (findings_query (Some F1) (Some 100))).
Proof. vm_compute. split; [reflexivity|discriminate]. Qed.

(** C4, as the code has it.  The key is made of the endpoint and of every
    parameter that is not [None] among filter, sort, limit, offset and
    archived; the hash is the MD5 of their JSON text with sorted keys; [put]
    stores exactly these parameters with the entry; the offset is among them
    whenever the query has one, so queries that differ in the offset alone
    have different keys. *)
Theorem cache_key_keeps_offset (c : gmap string CacheEntry) (q : Models.QueryConfig.t)
    (R : list record) (now o o' : Z) :
  o <> o' ->
  let k := _generate_cache_key q in
  let p := Models.QueryConfig.params q in
  endpoint k = Models.QueryConfig.endpoint q /\
  params_hash k = MD5.hexdigest (Json.dumps (full_params k)) /\
  (full_params k !! "filter" = PStr <$> Models.QueryParams.filter p /\
   full_params k !! "sort" = PStr <$> Models.QueryParams.sort p /\
   full_params k !! "limit" = PInt <$> Models.QueryParams.limit p /\
   full_params k !! "offset" = PInt <$> Models.QueryParams.offset p /\
   full_params k !! "archived" = PBool <$> Models.QueryParams.archived p) /\
  put c q R now !! cache_id k = Some {| data := R; timestamp := now; params := full_params k |} /\
  full_params (_generate_cache_key (Models.with_offset q o)) <>
  full_params (_generate_cache_key (Models.with_offset q o')) /\
  _generate_cache_key (Models.with_offset q o) <> _generate_cache_key (Models.with_offset q o').
Proof.
  intros Hne k p.
  assert (Hd : full_params (_generate_cache_key (Models.with_offset q o)) <>
               full_params (_generate_cache_key (Models.with_offset q o'))).
  { intros E.
    pose proof (full_params_lookup (Models.with_offset q o)) as (_ & _ & _ & H1 & _).
    pose proof (full_params_lookup (Models.with_offset q o')) as (_ & _ & _ & H2 & _).
    rewrite E, H2 in H1. cbn in H1. congruence. }
  split; [reflexivity|]. split; [reflexivity|].
  split; [apply full_params_lookup|].
  split; [unfold put; apply lookup_insert_eq|].
  split; [exact Hd|]. intros E. apply Hd. rewrite E. reflexivity.
Qed.

Lemma cache_key_keeps_offset_witness :
  full_params (_generate_cache_key (Models.with_offset (findings_query (Some F1) None) 0)) !! "offset" = Some (PInt 0) /\
  _generate_cache_key (Models.with_offset (findings_query (Some F1) None) 0) <>
  _generate_cache_key (Models.with_offset (findings_query (Some F1) None) 100).
Proof.
  assert (H : 0 <> 100) by lia.
  pose proof (cache_key_keeps_offset init (Models.with_offset (findings_query (Some F1) None) 0) R12 0 0 100 H) as T.
  cbv zeta in T.
  destruct T as (_ & _ & (_ & _ & _ & Ho & _) & _ & _ & Hk).
  split; [exact Ho | exact Hk].
Defined.

End DataCacheProps.

(** * Properties of the paginated fetcher *)
Module APIClientProps.

Import Json DataCache APIClient ApiExamples.

Lemma fetch_data_raises (env : Env) (w : World) (q : Models.QueryConfig.t) (e : exn) :
  DataCache.get (cache w) q = None ->
  http_get env (requests w) q = Raise e ->
  fetch_data env w q =
    (Raise e, {| cache := cache w; requests := S (requests w); draws := draws w;
                 slept := slept w; progress_file := progress_file w |}).
Proof. intros H1 H2. unfold fetch_data. rewrite H1, H2. reflexivity. Qed.

(** More fuel does not change a result. *)
Lemma loop_mono (env : Env) (q : Models.QueryConfig.t) (limit max_retries : Z) (fuel : nat) :
  forall (w : World) (l : Loop) r,
  loop env fuel q limit max_retries w l = Some r ->
  forall fuel', (fuel <= fuel')%nat -> loop env fuel' q limit max_retries w l = Some r.
Proof.
  induction fuel as [|fuel IH]; intros w l r H fuel' Hle; [discriminate|].
  destruct fuel' as [|fuel']; [lia|].
  cbn [loop] in *.
  destruct (turn env q limit max_retries w l) as [[l'|l'|e] w']; try assumption.
  apply IH with (fuel' := fuel') in H; [assumption|lia].
Qed.

Lemma loop_None_le (env : Env) (q : Models.QueryConfig.t) (limit max_retries : Z) (fuel fuel' : nat)
    (w : World) (l : Loop) :
  loop env fuel q limit max_retries w l = None ->
  (fuel' <= fuel)%nat ->
  loop env fuel' q limit max_retries w l = None.
Proof.
  intros H Hle.
  destruct (loop env fuel' q limit max_retries w l) as [r|] eqn:E; [|reflexivity].
  rewrite (loop_mono _ _ _ _ _ _ _ _ E _ Hle) in H. discriminate.
Qed.

Lemma base_doubles (k : Z) : 0 <= k -> Backoff.base (k + 1) = Z.min (2 * Backoff.base k) 64.
Proof.
  intros Hk. unfold Backoff.base.
  destruct (Z_lt_le_dec k 6) as [Hlt|Hge].
  - assert (Hc : k = 0 \/ k = 1 \/ k = 2 \/ k = 3 \/ k = 4 \/ k = 5) by lia.
    destruct Hc as [->|[->|[->|[->|[->| ->]]]]]; reflexivity.
  - rewrite (Z.min_r k 6), (Z.min_r (k + 1) 6) by lia. reflexivity.
Qed.

Lemma waits_nth (env : Env) (n : nat) : forall (k : Z) (d i : nat),
  (i < n)%nat ->
  nth_error (Backoff.waits env n k d) i =
    Some (Qplus (inject_Z (Backoff.base (k + Z.of_nat i))) (uniform env (d + i))).
Proof.
  induction n as [|n IH]; intros k d i Hi; [lia|].
  destruct i as [|i]; cbn [Backoff.waits nth_error].
  - rewrite Z.add_0_r, Nat.add_0_r. reflexivity.
  - rewrite IH by lia.
    replace (k + 1 + Z.of_nat i) with (k + Z.of_nat (S i)) by lia.
    replace (S d + i)%nat with (d + S i)%nat by lia. reflexivity.
Qed.

Section Down.

Variable env : Env.
Variable q : Models.QueryConfig.t.
Variable limit max_retries : Z.

Hypothesis always_fails : forall n q', exists e, http_get env n q' = Raise e.

(** With every request refused, the loop sleeps once per attempt and leaves
    by [break] after attempt [max_retries + 1], with what it had. *)
Lemma loop_down (n : nat) : forall (w : World) (l : Loop),
  DataCache.get (cache w) (Models.with_offset q (offset l)) = None ->
  retry_count l = max_retries - Z.of_nat n ->
  loop env (S n) q limit max_retries w l =
    Some (Ok (all_results l),
          {| cache := cache w; requests := (requests w + S n)%nat; draws := (draws w + S n)%nat;
             slept := slept w ++ Backoff.waits env (S n) (retry_count l) (draws w);
             progress_file := progress_file w |}) /\
  loop env n q limit max_retries w l = None.
Proof.
  induction n as [|n IH]; intros w l Hmiss Hrc.
  - split; [|reflexivity].
    cbn [loop]. unfold turn.
    destruct (always_fails (requests w) (Models.with_offset q (offset l))) as [e He].
    rewrite (fetch_data_raises _ _ _ _ Hmiss He). cbn.
    replace (max_retries <? retry_count l + 1) with true by (symmetry; apply Z.ltb_lt; lia).
    cbn. do 2 f_equal. f_equal; lia.
  - assert (Hturn : turn env q limit max_retries w l =
      (Continue {| offset := offset l; all_results := all_results l;
                   consecutive_empty_pages := consecutive_empty_pages l;
                   retry_count := retry_count l + 1;
                   using_cache := using_cache l |},
       {| cache := cache w; requests := S (requests w); draws := S (draws w);
          slept := slept w ++ [Qplus (inject_Z (Backoff.base (retry_count l))) (uniform env (draws w))];
          progress_file := progress_file w |})).
    { unfold turn.
      destruct (always_fails (requests w) (Models.with_offset q (offset l))) as [e He].
      rewrite (fetch_data_raises _ _ _ _ Hmiss He). cbn.
      replace (max_retries <? retry_count l + 1) with false by (symmetry; apply Z.ltb_ge; lia).
      rewrite Hmiss. reflexivity. }
    split.
    + change (loop env (S (S n)) q limit max_retries w l) with
        (match turn env q limit max_retries w l with
         | (Continue l', w') => loop env (S n) q limit max_retries w' l'
         | (Break l', w') => Some (Ok (all_results l'), w')
         | (Raised e, w') => Some (Raise e, w')
         end).
      rewrite Hturn.
      edestruct IH as [-> _]; [exact Hmiss | cbn; lia |].
      cbn [all_results cache requests draws slept progress_file retry_count Backoff.waits].
      rewrite <- app_assoc. do 2 f_equal. f_equal; lia.
    + change (loop env (S n) q limit max_retries w l) with
        (match turn env q limit max_retries w l with
         | (Continue l', w') => loop env n q limit max_retries w' l'
         | (Break l', w') => Some (Ok (all_results l'), w')
         | (Raised e, w') => Some (Raise e, w')
         end).
      rewrite Hturn.
      edestruct IH as [_ ->]; [exact Hmiss | cbn; lia | reflexivity].
Qed.

End Down.

(** C6, refuted: with the upstream down, the fetch ends after nine attempts
    and hands back an empty list (or, restarted on a progress file, the
    records of that file) as its result; nothing is raised. *)
Lemma retries_exhausted_no_error :
  fst <$> fetch_all_with_resume down 9 fresh all_findings 8 = Some (Ok []) /\
  fst <$> fetch_all_with_resume down 9 resumed all_findings 8 = Some (Ok CacheExamples.R12).
Proof. vm_compute. split; reflexivity. Qed.

(** C6, as the code has it.  When every request is refused and the cache has
    nothing for the query, the fetch makes [max_retries + 1] attempts and no
    fewer; before giving up on attempt [i] it sleeps [2 ^ min(i, 6)] seconds
    plus the jitter drawn in [0, 1], a base that doubles up to the cap of
    64; it then leaves the loop, deletes the progress file and returns the
    records it had (those of the progress file, none on a fresh start)
    without raising. *)
Theorem retries_exhausted_returns (env : Env) (w : World) (q : Models.QueryConfig.t) (max_retries : Z) :
  (forall n q', exists e, http_get env n q' = Raise e) ->
  (forall n, (0 <= uniform env n)%Q /\ (uniform env n <= 1)%Q) ->
  DataCache.get (cache w) q = None ->
  (forall o, DataCache.get (cache w) (Models.with_offset q o) = None) ->
  0 <= max_retries ->
  let attempts := S (Z.to_nat max_retries) in
  let kept := match progress_file w with Progress _ results => results | _ => [] end in
  fetch_all_with_resume env attempts w q max_retries =
    Some (Ok kept,
          {| cache := cache w; requests := (requests w + attempts)%nat;
             draws := (draws w + attempts)%nat;
             slept := slept w ++ Backoff.waits env attempts 0 (draws w);
             progress_file := NoFile |}) /\
  (forall fuel, (fuel < attempts)%nat -> fetch_all_with_resume env fuel w q max_retries = None) /\
  (forall i, (i < attempts)%nat ->
     exists j, nth_error (Backoff.waits env attempts 0 (draws w)) i =
                 Some (Qplus (inject_Z (Backoff.base (Z.of_nat i))) j) /\
               (0 <= j)%Q /\ (j <= 1)%Q) /\
  (forall k, 0 <= k -> Backoff.base (k + 1) = Z.min (2 * Backoff.base k) 64).
Proof.
  intros Hdown Hjit Hq Hpages Hmax attempts kept. subst attempts kept.
  split; [|split; [|split]].
  - unfold fetch_all_with_resume. rewrite Hq.
    destruct (progress_file w) as [| |off results] eqn:Ep; cbv beta iota zeta;
      match goal with
      | |- context [loop env (S _) q ?lim max_retries ?w0 ?l0] =>
          destruct (loop_down env q lim max_retries Hdown (Z.to_nat max_retries) w0 l0) as [-> _];
            [apply Hpages | cbn; lia | ]
      end; cbn; rewrite ?Ep; reflexivity.
  - intros fuel Hfuel. unfold fetch_all_with_resume. rewrite Hq.
    destruct (progress_file w) as [| |off results] eqn:Ep; cbv beta iota zeta;
      match goal with
      | |- context [loop env fuel q ?lim max_retries ?w0 ?l0] =>
          destruct (loop_down env q lim max_retries Hdown (Z.to_nat max_retries) w0 l0) as [_ HN];
            [apply Hpages | cbn; lia | ];
          rewrite (loop_None_le _ _ _ _ _ fuel _ _ HN) by lia
      end; reflexivity.
  - intros i Hi. exists (uniform env (draws w + i)).
    rewrite waits_nth by assumption. rewrite Z.add_0_l.
    split; [reflexivity|apply Hjit].
  - apply base_doubles.
Qed.

Lemma retries_exhausted_returns_witness :
  fetch_all_with_resume down 9 resumed all_findings 8 =
    Some (Ok CacheExamples.R12,
          {| cache := DataCache.init; requests := 9; draws := 9;
             slept := Backoff.waits down 9 0 0; progress_file := NoFile |}).
Proof.
  assert (H1 : forall n q', exists e, http_get down n q' = Raise e) by (intros; eexists; reflexivity).
  assert (H2 : forall n, (0 <= uniform down n)%Q /\ (uniform down n <= 1)%Q)
    by (intros; split; discriminate).
  assert (H3 : DataCache.get (cache resumed) all_findings = None) by reflexivity.
  assert (H4 : forall o, DataCache.get (cache resumed) (Models.with_offset all_findings o) = None)
    by (intros; apply DataCacheProps.get_miss; apply lookup_empty).
  assert (H5 : 0 <= 8) by lia.
  exact (proj1 (retries_exhausted_returns down resumed all_findings 8 H1 H2 H3 H4 H5)).
Defined.

(** A request without a filter is served from the cache by an entry with
    its very parameters or not at all. *)
Lemma get_no_filter_other (c : gmap string CacheEntry) (q : Models.QueryConfig.t) :
  Models.QueryParams.filter (Models.QueryConfig.params q) = None ->
  (forall e, c !! cache_id (_generate_cache_key q) = Some e ->
             params e <> full_params (_generate_cache_key q)) ->
  DataCache.get c q = None.
Proof.
  intros Hf Hne.
  destruct (DataCache.get c q) as [d|] eqn:E; [|reflexivity].
  apply DataCacheProps.get_Some_inv in E as (e & He & [[Hp _]|(_ & Hflt & _)]).
  - destruct (Hne e He Hp).
  - exfalso. apply Hflt. unfold get_filter.
    destruct (DataCacheProps.full_params_lookup q) as [-> _]. rewrite Hf. reflexivity.
Qed.

Lemma full_params_offset_inj (q : Models.QueryConfig.t) (o o' : Z) :
  full_params (_generate_cache_key (Models.with_offset q o)) =
  full_params (_generate_cache_key (Models.with_offset q o')) -> o = o'.
Proof.
  intros E.
  pose proof (DataCacheProps.full_params_lookup (Models.with_offset q o)) as (_ & _ & _ & H1 & _).
  pose proof (DataCacheProps.full_params_lookup (Models.with_offset q o')) as (_ & _ & _ & H2 & _).
  rewrite E, H2 in H1. cbn in H1. congruence.
Qed.

Lemma pages_below_miss (q : Models.QueryConfig.t) (c : gmap string CacheEntry) (off : Z) :
  Models.QueryParams.filter (Models.QueryConfig.params q) = None ->
  Pages.below q c off ->
  DataCache.get c (Models.with_offset q off) = None.
Proof.
  intros Hf Hinv. apply get_no_filter_other; [exact Hf|].
  intros e He Hp. destruct (Hinv _ _ He) as (o & Ho & Hpo).
  rewrite Hpo in Hp. apply full_params_offset_inj in Hp. lia.
Qed.

Lemma pages_below_put (q : Models.QueryConfig.t) (c : gmap string CacheEntry) (off off' : Z)
    (d : list record) (now : Z) :
  Pages.below q c off -> off < off' ->
  Pages.below q (DataCache.put c (Models.with_offset q off) d now) off'.
Proof.
  intros Hinv Hlt id e. unfold DataCache.put.
  destruct (decide (cache_id (_generate_cache_key (Models.with_offset q off)) = id)) as [<-|Hne].
  - rewrite lookup_insert_eq. intros [= <-]. exists off. split; [lia|reflexivity].
  - rewrite lookup_insert_ne by exact Hne. intros He.
    destruct (Hinv _ _ He) as (o & Ho & Hp). exists o. split; [lia|exact Hp].
Qed.

Lemma id_set_app_wrapper (l : list record) : id_set (l ++ [wrapper]) = id_set l.
Proof.
  induction l as [|rec l IH]; [reflexivity|].
  cbn [app id_set]. rewrite IH. reflexivity.
Qed.

Section ObjectPages.

Local Abbreviation q := all_findings.

(** Past the first page the upstream answers the empty page, which
    [fetch_data] turns into a page of one record, the wrapper itself. *)
Lemma fetch_data_wrapper (w : World) (off : Z) :
  off <> 0 ->
  DataCache.get (cache w) (Models.with_offset q off) = None ->
  fetch_data paged_objects w (Models.with_offset q off) =
    (Ok [wrapper],
     {| cache := DataCache.put (cache w) (Models.with_offset q off) [wrapper] 0;
        requests := S (requests w); draws := draws w; slept := slept w;
        progress_file := progress_file w |}).
Proof.
  intros Hoff Hmiss. unfold fetch_data. rewrite Hmiss.
  destruct off as [|p|p]; [congruence| |]; reflexivity.
Qed.

(** Such a page has no id, so it is never taken for a repetition: the turn
    appends it and goes on. *)
Lemma turn_wrapper (w : World) (l : Loop) (ids : list value) :
  offset l <> 0 ->
  DataCache.get (cache w) (Models.with_offset q (offset l)) = None ->
  id_set (all_results l) = Ok ids ->
  turn paged_objects q 100 8 w l =
    (Continue {| offset := offset l + 100; all_results := all_results l ++ [wrapper];
                 consecutive_empty_pages := 0; retry_count := 0;
                 using_cache := using_cache l |},
     {| cache := DataCache.put (cache w) (Models.with_offset q (offset l)) [wrapper] 0;
        requests := S (requests w); draws := draws w; slept := slept w;
        progress_file := Progress (offset l + 100) (all_results l ++ [wrapper]) |}).
Proof.
  intros Hoff Hmiss Hids. unfold turn.
  rewrite (fetch_data_wrapper w (offset l) Hoff Hmiss), Hmiss.
  cbn [all_results offset cache requests draws slept progress_file].
  destruct (all_results l) as [|r rs] eqn:E; [reflexivity|].
  rewrite Hids. reflexivity.
Qed.

Lemma loop_wrapper_forever (fuel : nat) : forall (w : World) (l : Loop) (ids : list value),
  0 < offset l ->
  Pages.below q (cache w) (offset l) ->
  id_set (all_results l) = Ok ids ->
  loop paged_objects fuel q 100 8 w l = None.
Proof.
  induction fuel as [|fuel IH]; intros w l ids Hoff Hinv Hids; [reflexivity|].
  cbn [loop].
  rewrite (turn_wrapper w l ids) by (try lia; try assumption; apply pages_below_miss; auto).
  apply (IH _ _ ids); cbn [offset cache all_results].
  - lia.
  - apply pages_below_put; [assumption|lia].
  - rewrite id_set_app_wrapper. assumption.
Qed.

End ObjectPages.

(** C2, at an upstream that pages in the object format: once the records
    are exhausted, the empty page comes back as a record of its own, the
    fetch appends it and asks for the next one, and so without end: no
    amount of fuel yields a result. *)
Theorem object_pages_never_end (fuel : nat) :
  fetch_all_with_resume paged_objects fuel fresh all_findings 8 = None.
Proof.
  unfold fetch_all_with_resume.
  replace (DataCache.get (cache fresh) all_findings) with (@None (list record)) by reflexivity.
  cbv beta iota zeta.
  change (match Models.QueryParams.limit (Models.QueryConfig.params all_findings) with
          | Some n => if n =? 0 then 10000 else n
          | None => 10000
          end) with 100.
  cbn [progress_file fresh].
  destruct fuel as [|fuel]; [reflexivity|].
  cbn [loop].
  assert (Hturn : turn paged_objects all_findings 100 8 fresh
            {| offset := 0; all_results := []; consecutive_empty_pages := 0;
               retry_count := 0; using_cache := false |} =
          (Continue {| offset := 100; all_results := CacheExamples.R12;
                       consecutive_empty_pages := 0; retry_count := 0; using_cache := false |},
           {| cache := DataCache.put DataCache.init (Models.with_offset all_findings 0) CacheExamples.R12 0;
              requests := 1; draws := 0; slept := [];
              progress_file := Progress 100 CacheExamples.R12 |})) by reflexivity.
  rewrite Hturn.
  rewrite (loop_wrapper_forever fuel _ _ [VInt 1; VInt 2]); [reflexivity| | |reflexivity].
  - cbn. lia.
  - cbn [cache offset]. apply pages_below_put; [|lia].
    intros id e. unfold DataCache.init. rewrite lookup_empty. discriminate.
Qed.

(** A later turn of that fetch: the accumulated list grows by one wrapper
    record per page. *)
Example object_pages_progress :
  fst (turn paged_objects all_findings 100 8
         {| cache := DataCache.init; requests := 3; draws := 0; slept := [];
            progress_file := Progress 300 (CacheExamples.R12 ++ [wrapper; wrapper]) |}
         {| offset := 300; all_results := CacheExamples.R12 ++ [wrapper; wrapper];
            consecutive_empty_pages := 0; retry_count := 0; using_cache := false |}) =
    Continue {| offset := 400; all_results := CacheExamples.R12 ++ [wrapper; wrapper; wrapper];
                consecutive_empty_pages := 0; retry_count := 0; using_cache := false |}.
Proof. reflexivity. Qed.

(** The fetch over an upstream that answers with bare arrays. *)
Lemma fetch_data_list (env : Env) (w : World) (q : Models.QueryConfig.t) (page : list record) :
  DataCache.get (cache w) q = None ->
  http_get env (requests w) q = Ok (DList page) ->
  fetch_data env w q =
    (Ok page,
     {| cache := DataCache.put (cache w) q page (time_ env (requests w));
        requests := S (requests w); draws := draws w; slept := slept w;
        progress_file := progress_file w |}).
Proof. intros H1 H2. unfold fetch_data. rewrite H1, H2. reflexivity. Qed.

Lemma existsb_VInt (z : Z) (zs : list Z) :
  List.existsb (Py.value_eqb (VInt z)) (List.map VInt zs) = true <-> In z zs.
Proof.
  rewrite existsb_exists. split.
  - intros (v & Hv & E). apply in_map_iff in Hv as (z' & <- & Hz').
    cbn in E. apply Z.eqb_eq in E. subst. exact Hz'.
  - intros H. exists (VInt z). split; [apply in_map; exact H|cbn; apply Z.eqb_refl].
Qed.

Lemma id_set_identified (l : list record) : forall zs,
  Upstream.identified l zs -> id_set l = Ok (List.map VInt zs).
Proof.
  induction l as [|r l IH]; intros zs (Hm & Hnd & H0).
  - destruct zs; [reflexivity|discriminate].
  - destruct zs as [|z zs]; [discriminate|].
    cbn [List.map] in Hm. injection Hm as Hr Hm.
    inversion Hnd as [|z' zs' Hz Hnd']; subst.
    cbn [id_set]. rewrite Hr.
    assert (Hz0 : z <> 0) by (intros ->; apply H0; left; reflexivity).
    cbn [Py.truthy]. rewrite (proj2 (Z.eqb_neq _ _) Hz0). cbn [negb].
    rewrite (IH zs) by (split; [exact Hm|split; [exact Hnd'|intros H; apply H0; right; exact H]]).
    destruct (List.existsb _ _) eqn:E; [|reflexivity].
    apply existsb_VInt in E. contradiction.
Qed.

Lemma intersection_disjoint (a b : list Z) :
  (forall z, In z a -> ~ In z b) ->
  intersection (List.map VInt a) (List.map VInt b) = [].
Proof.
  intros H. unfold intersection. induction a as [|z a IH]; [reflexivity|].
  cbn [List.map List.filter].
  destruct (List.existsb _ _) eqn:E.
  - apply existsb_VInt in E. destruct (H z (or_introl eq_refl) E).
  - apply IH. intros z' Hz'. apply H. right. exact Hz'.
Qed.

Lemma firstn_plus {A : Type} (a b : nat) (l : list A) :
  List.firstn (a + b) l = (List.firstn a l ++ List.firstn b (List.skipn a l))%list.
Proof.
  revert l. induction a as [|a IH]; intros l; [reflexivity|].
  destruct l as [|x l]; cbn [Nat.add List.firstn List.skipn app].
  - destruct b; reflexivity.
  - rewrite IH. reflexivity.
Qed.

Lemma In_firstn {A : Type} (n : nat) (x : A) (l : list A) : In x (List.firstn n l) -> In x l.
Proof.
  intros H. rewrite <- (List.firstn_skipn n l). apply in_or_app. left. exact H.
Qed.

Lemma In_skipn {A : Type} (n : nat) (x : A) (l : list A) : In x (List.skipn n l) -> In x l.
Proof.
  intros H. rewrite <- (List.firstn_skipn n l). apply in_or_app. right. exact H.
Qed.

Lemma NoDup_app_disjoint {A : Type} (l k : list A) (z : A) :
  List.NoDup (l ++ k) -> In z l -> In z k -> False.
Proof.
  induction l as [|x l IH]; cbn [app]; intros Hnd Hl Hk; [destruct Hl|].
  inversion Hnd as [|x' l' Hx Hnd']; subst.
  destruct Hl as [->|Hl]; [apply Hx, in_or_app; right; exact Hk|exact (IH Hnd' Hl Hk)].
Qed.

Lemma identified_parts (R : list record) (zs : list Z) (a b : nat) :
  Upstream.identified R zs ->
  Upstream.identified (List.firstn a R) (List.firstn a zs) /\
  Upstream.identified (List.firstn b (List.skipn a R)) (List.firstn b (List.skipn a zs)) /\
  (forall z, In z (List.firstn b (List.skipn a zs)) -> ~ In z (List.firstn a zs)).
Proof.
  intros (Hm & Hnd & H0).
  assert (Hsplit : zs = (List.firstn a zs ++ List.skipn a zs)%list) by (symmetry; apply List.firstn_skipn).
  assert (Hnd1 : List.NoDup (List.firstn a zs)).
  { rewrite Hsplit in Hnd. apply List.NoDup_app_remove_r in Hnd. exact Hnd. }
  assert (Hnd2 : List.NoDup (List.skipn a zs)).
  { rewrite Hsplit in Hnd. apply List.NoDup_app_remove_l in Hnd. exact Hnd. }
  assert (Hnd3 : List.NoDup (List.firstn b (List.skipn a zs))).
  { rewrite <- (List.firstn_skipn b (List.skipn a zs)) in Hnd2.
    apply List.NoDup_app_remove_r in Hnd2. exact Hnd2. }
  split; [|split].
  - split; [|split].
    + rewrite <- !List.firstn_map. rewrite Hm. reflexivity.
    + exact Hnd1.
    + intros H. apply H0. apply (In_firstn _ _ _ H).
  - split; [|split].
    + rewrite <- !List.firstn_map, <- !List.skipn_map. rewrite Hm. reflexivity.
    + exact Hnd3.
    + intros H. apply H0. apply In_firstn in H. apply In_skipn in H. exact H.
  - intros z H2 H1. apply In_firstn in H2.
    rewrite Hsplit in Hnd. exact (NoDup_app_disjoint _ _ z Hnd H1 H2).
Qed.

Section ListPages.

Variable env : Env.
Variable q : Models.QueryConfig.t.
Variable R : list record.
Variable zs : list Z.
Variables L max_retries : Z.

Hypothesis HL : 0 < L.
Hypothesis Hid : Upstream.identified R zs.
Hypothesis Hmiss : Upstream.pages_miss q.

Lemma slice_nil (o : Z) : (length R <= Z.to_nat o)%nat -> Upstream.slice R o L = [].
Proof.
  intros H. unfold Upstream.slice. rewrite List.skipn_all2 by exact H. apply List.firstn_nil.
Qed.

Lemma slice_cons (o : Z) : (Z.to_nat o < length R)%nat -> Upstream.slice R o L <> [].
Proof.
  intros H E. apply (f_equal (@length record)) in E. unfold Upstream.slice in E.
  rewrite List.length_firstn, List.length_skipn in E. cbn [length] in E. lia.
Qed.

Lemma turn_page (w : World) (l : Loop) :
  http_get env (requests w) (Models.with_offset q (offset l)) =
    Ok (DList (Upstream.slice R (offset l) L)) ->
  0 <= offset l ->
  all_results l = List.firstn (Z.to_nat (offset l)) R ->
  Pages.below q (cache w) (offset l) ->
  (Z.to_nat (offset l) < length R)%nat ->
  exists w',
    turn env q L max_retries w l =
      (Continue {| offset := offset l + L;
                   all_results := List.firstn (Z.to_nat (offset l + L)) R;
                   consecutive_empty_pages := 0; retry_count := 0;
                   using_cache := using_cache l |}, w') /\
    Pages.below q (cache w') (offset l + L).
Proof.
  intros Hhttp Ho Hall Hbelow Hlt.
  pose proof (Hmiss _ _ Hbelow) as Hget.
  destruct (identified_parts R zs (Z.to_nat (offset l)) (Z.to_nat L) Hid) as (Ha & Hp & Hdis).
  assert (Hnext : List.firstn (Z.to_nat (offset l + L)) R =
                  (List.firstn (Z.to_nat (offset l)) R ++ Upstream.slice R (offset l) L)%list).
  { rewrite Z2Nat.inj_add by lia. apply firstn_plus. }
  unfold turn. rewrite Hget.
  rewrite (fetch_data_list env w _ _ Hget Hhttp).
  pose proof (slice_cons (offset l) Hlt) as Hne.
  fold (Upstream.slice R (offset l) L) in Hp.
  destruct (Upstream.slice R (offset l) L) as [|x xs] eqn:Epage; [congruence|].
  cbn [all_results offset cache requests draws slept progress_file].
  rewrite Hall.
  destruct (List.firstn (Z.to_nat (offset l)) R) as [|y ys] eqn:Eall.
  - eexists. split; [rewrite Hnext; reflexivity|].
    cbn [cache]. apply pages_below_put; [exact Hbelow|lia].
  - rewrite (id_set_identified _ _ Hp), (id_set_identified _ _ Ha).
    rewrite (intersection_disjoint _ _ Hdis).
    destruct Hp as (Hm & _).
    destruct (List.firstn (Z.to_nat L) (List.skipn (Z.to_nat (offset l)) zs)) as [|z zs']; [discriminate|].
    cbn [List.map length Nat.ltb Nat.leb Nat.eqb andb].
    eexists. split; [rewrite Hnext; reflexivity|].
    cbn [cache]. apply pages_below_put; [exact Hbelow|lia].
Qed.

Lemma turn_empty (w : World) (l : Loop) :
  Upstream.serves env q R L ->
  0 <= offset l ->
  Pages.below q (cache w) (offset l) ->
  (length R <= Z.to_nat (offset l))%nat ->
  exists w',
    turn env q L max_retries w l =
      (if 3 <=? consecutive_empty_pages l + 1
       then Break {| offset := offset l; all_results := all_results l;
                     consecutive_empty_pages := consecutive_empty_pages l + 1;
                     retry_count := 0; using_cache := using_cache l |}
       else Continue {| offset := offset l + L; all_results := all_results l;
                        consecutive_empty_pages := consecutive_empty_pages l + 1;
                        retry_count := 0; using_cache := using_cache l |}, w') /\
    Pages.below q (cache w') (offset l + L).
Proof.
  intros Hserve Ho Hbelow Hge.
  pose proof (Hmiss _ _ Hbelow) as Hget.
  unfold turn. rewrite Hget.
  rewrite (fetch_data_list env w _ _ Hget (Hserve (requests w) (offset l))).
  rewrite (slice_nil (offset l) Hge).
  cbn [all_results offset cache requests draws slept progress_file consecutive_empty_pages].
  unfold max_consecutive_empty.
  eexists. split.
  - destruct (3 <=? consecutive_empty_pages l + 1); reflexivity.
  - apply pages_below_put; [exact Hbelow|lia].
Qed.





End ListPages.





End APIClientProps.

(** * Properties of the transform engine *)
Module DataTransformerProps.

Import Frame DataTransformer TransformExamples.

(** C10.  On an empty record list the engine returns the empty frame at
    once: whatever the steps and the auxiliary data are, no step is applied
    (the log holds the warning and no [Applying transform] entry) and
    nothing is raised. *)
Theorem transform_empty (pd : Pandas) (rest : Rest) (transforms : list Models.Transform.t)
    (additional_data : option additional) :
  transform pd rest [] transforms additional_data =
    ([LogWarning "No data to transform"], Ok Frame.empty).
Proof. reflexivity. Qed.

(** The same steps do raise on a record list that is not empty. *)
Example transform_missing_column_raises :
  transform Reference.pandas Reference.rest [[("id", VInt 1)]] [sort_step ["severity"] true] None =
    ([LogApplying 1; LogError 1 (ValueError "Error applying transform")],
     Raise (ValueError "Error applying transform")) /\
  transform Reference.pandas Reference.rest [] [sort_step ["severity"] true] None =
    ([LogWarning "No data to transform"], Ok Frame.empty).
Proof. split; reflexivity. Qed.

Lemma apply_all_app (pd : Pandas) (rest : Rest) (aux : option additional)
    (pre post : list Models.Transform.t) : forall (i : nat) (df : DataFrame),
  apply_all pd rest i df (pre ++ post) aux =
    match apply_all pd rest i df pre aux with
    | (ev1, inr dfk) =>
        let '(ev2, out) := apply_all pd rest (i + length pre) dfk post aux in
        ((ev1 ++ ev2)%list, out)
    | (ev1, inl e) => (ev1, Raise e)
    end.
Proof.
  induction pre as [|t pre IH]; intros i df.
  - cbn. rewrite Nat.add_0_r. destruct (apply_all pd rest i df post aux). reflexivity.
  - cbn [app apply_all length].
    destruct (apply_one pd rest df t aux) as [ev [e|df']].
    + reflexivity.
    + rewrite IH. destruct (apply_all pd rest (S i) df' pre aux) as [ev1 [e|dfk]].
      * reflexivity.
      * replace (S i + length pre)%nat with (i + S (length pre))%nat by lia.
        destruct (apply_all pd rest (i + S (length pre)) dfk post aux) as [ev2 out].
        cbn [app]. rewrite <- app_assoc. reflexivity.
Qed.

(** C5, refuted: a join whose left key column, or whose right key column,
    does not exist, and a pivot whose reshaping fails (a severity spelled
    like the index column cannot become a column next to it) all leave the
    frame as it was and let the pipeline go on; nothing is raised and no
    error is logged. *)
Lemma failing_join_and_pivot_are_skipped :
  transform Reference.pandas Reference.rest findings
    [join_step "projects" ["project_id"] ["id"]] (Some [("projects", projects)]) =
    ([LogApplying 1], Ok (of_records findings)) /\
  transform Reference.pandas Reference.rest findings
    [join_step "projects" ["project"] ["pid"]] (Some [("projects", projects)]) =
    ([LogApplying 1], Ok (of_records findings)) /\
  transform Reference.pandas Reference.rest clashing
    [pivot_step "project" "severity" "n"] None =
    ([LogApplying 1], Ok (of_records clashing)).
Proof. vm_compute. repeat split. Qed.

(** C5, as the code has it.  A step that raises stops the pipeline: the
    steps before it have been applied, [transform] logs the error with the
    number of the step and raises it, and no later step is applied.  Not
    every failure raises, though.  A join returns the frame unchanged when
    there is no auxiliary data, when the right dataset is not among them,
    when a left key column is missing, or when a right key column cannot be
    resolved; a pivot returns the frame unchanged when its three columns
    exist and the reshaping raises, and raises only when one of the three
    columns is missing. *)
Theorem step_failure_aborts_unless_tolerated (pd : Pandas) (rest : Rest) :
  (forall data pre t post aux dfk ev1 ev2 e,
     data <> [] ->
     apply_all pd rest 0 (of_records data) pre aux = (ev1, Ok dfk) ->
     apply_one pd rest dfk t aux = (ev2, Raise e) ->
     transform pd rest data (pre ++ t :: post) aux =
       ((ev1 ++ LogApplying (length pre + 1) :: ev2 ++ [LogError (length pre + 1) e])%list,
        Raise e)) /\
  (forall df join aux,
     (aux = None \/
      (exists ad, aux = Some ad /\ Py.get (Models.JoinTransform.right join) ad = None) \/
      (exists col, In col (Models.JoinTransform.left_on join) /\ mem col (columns df) = false) \/
      (exists ad right_data, aux = Some ad /\
         Py.get (Models.JoinTransform.right join) ad = Some right_data /\
         resolve_right_on (of_records right_data) (Models.JoinTransform.right_on join) = None)) ->
     _apply_join pd df join aux = Ok df) /\
  (forall df cfg,
     mem (Models.PivotTransform.index cfg) (columns df) = true ->
     mem (Models.PivotTransform.columns cfg) (columns df) = true ->
     mem (Models.PivotTransform.values cfg) (columns df) = true ->
     (forall pivoted,
        pivot_table pd
          (set_column (Models.PivotTransform.values cfg)
             (fun r => fillna (VInt 0) (cell (Models.PivotTransform.values cfg) r)) df)
          (Models.PivotTransform.index cfg) (Models.PivotTransform.columns cfg)
          (Models.PivotTransform.values cfg) = Ok pivoted ->
        exists e, reset_index pivoted = Raise e) ->
     _apply_pivot pd df cfg = Ok df) /\
  (forall df cfg,
     mem (Models.PivotTransform.index cfg) (columns df) &&
     mem (Models.PivotTransform.columns cfg) (columns df) &&
     mem (Models.PivotTransform.values cfg) (columns df) = false ->
     _apply_pivot pd df cfg = Raise (ValueError "Pivot columns not found in data")).
Proof.
  split; [|split; [|split]].
  - intros data pre t post aux dfk ev1 ev2 e Hdata Hpre Ht.
    destruct data as [|r data]; [congruence|].
    unfold transform. rewrite apply_all_app, Hpre.
    cbn [apply_all]. rewrite Ht. cbn [Nat.add]. reflexivity.
  - intros df join aux H. unfold _apply_join.
    destruct aux as [ad|]; [|reflexivity].
    destruct (Py.get (Models.JoinTransform.right join) ad) as [right_data|] eqn:Eg; [|reflexivity].
    destruct (forallb _ (Models.JoinTransform.left_on join)) eqn:El; [|reflexivity].
    cbn [negb].
    destruct H as [H|[(ad' & [= <-] & H)|[(col & Hin & Hc)|(ad' & rd & [= <-] & H1 & H2)]]].
    + discriminate.
    + congruence.
    + rewrite forallb_forall in El. rewrite (El col Hin) in Hc. discriminate.
    + rewrite Eg in H1. injection H1 as <-. rewrite H2. reflexivity.
  - intros df cfg Hi Hc Hv Hfail. unfold _apply_pivot.
    cbn [List.filter]. rewrite Hi, Hc, Hv. cbn [negb].
    destruct (pivot_table pd _ _ _ _) as [e|pivoted] eqn:Ep; [reflexivity|].
    destruct (Hfail pivoted eq_refl) as [e ->]. reflexivity.
  - intros df cfg H. unfold _apply_pivot. cbn [List.filter].
    destruct (mem (Models.PivotTransform.index cfg) (columns df)); [|reflexivity].
    destruct (mem (Models.PivotTransform.columns cfg) (columns df)); [|reflexivity].
    destruct (mem (Models.PivotTransform.values cfg) (columns df)); [discriminate|reflexivity].
Qed.

Lemma step_failure_aborts_unless_tolerated_witness :
  transform Reference.pandas Reference.rest findings
    ([join_step "projects" ["project_id"] ["id"]] ++ sort_step ["cvss"] true :: [sort_step ["severity"] true])
    (Some [("projects", projects)]) =
    ([LogApplying 1; LogApplying 2; LogError 2 (ValueError "Error applying transform")],
     Raise (ValueError "Error applying transform")) /\
  _apply_join Reference.pandas (of_records findings)
    {| Models.JoinTransform.right := "projects"; Models.JoinTransform.left_on := ["project_id"];
       Models.JoinTransform.right_on := ["id"]; Models.JoinTransform.how := "left" |}
    (Some [("projects", projects)]) = Ok (of_records findings).
Proof.
  destruct (step_failure_aborts_unless_tolerated Reference.pandas Reference.rest) as (Habort & Hjoin & _ & _).
  split.
  - apply (Habort findings [join_step "projects" ["project_id"] ["id"]] (sort_step ["cvss"] true)
             [sort_step ["severity"] true] (Some [("projects", projects)]) (of_records findings)
             [LogApplying 1] [] (ValueError "Error applying transform")).
    + discriminate.
    + reflexivity.
    + reflexivity.
  - apply Hjoin. right. right. left. exists "project_id". split; [left; reflexivity|reflexivity].
Defined.

End DataTransformerProps.

(** * The reference sort meets what is assumed of [sort_values] *)
Module ReferenceProps.

Import Frame SortSpec Reference.

Section Insertion.

Variable c : string.
Variable ascending : bool.

Local Abbreviation R := (fun a b : record => ordered ascending (key c a) (key c b)).

Lemma before_spec (x y : record) : before c ascending x y = true <-> R x y.
Proof. unfold before, ordered. destruct ascending; apply Z.leb_le. Qed.

Lemma before_false (x y : record) : before c ascending x y = false -> R y x /\ key c x <> key c y.
Proof. unfold before, ordered. destruct ascending; intros H; apply Z.leb_gt in H; lia. Qed.

Lemma insert_by_perm (x : record) (l : list record) :
  Permutation (x :: l) (insert_by (before c ascending) x l).
Proof.
  induction l as [|y l IH]; cbn [insert_by]; [reflexivity|].
  destruct (before c ascending x y); [reflexivity|].
  rewrite perm_swap. apply perm_skip. exact IH.
Qed.

Lemma insert_by_hd (x y : record) (l : list record) :
  R y x -> HdRel R y l -> HdRel R y (insert_by (before c ascending) x l).
Proof.
  intros Hyx Hl. destruct l as [|z l]; cbn [insert_by]; [constructor; exact Hyx|].
  destruct (before c ascending x z); constructor; [exact Hyx|].
  inversion Hl; assumption.
Qed.

Lemma insert_by_sorted (x : record) (l : list record) :
  Sorted R l -> Sorted R (insert_by (before c ascending) x l).
Proof.
  induction 1 as [|y l Hs IH Hhd]; cbn [insert_by]; [repeat constructor|].
  destruct (before c ascending x y) eqn:E.
  - constructor; [constructor; assumption|constructor; apply before_spec; exact E].
  - constructor; [exact IH|]. apply insert_by_hd; [|exact Hhd].
    apply before_false in E. apply E.
Qed.

Lemma insert_by_filter (k : Z) (x : record) (l : list record) :
  List.filter (fun r => Z.eqb (key c r) k) (insert_by (before c ascending) x l) =
  List.filter (fun r => Z.eqb (key c r) k) (x :: l).
Proof.
  induction l as [|y l IH]; cbn [insert_by]; [reflexivity|].
  destruct (before c ascending x y) eqn:E; [reflexivity|].
  apply before_false in E as [_ Hne].
  cbn [List.filter] in *. rewrite IH.
  destruct (Z.eqb_spec (key c x) k), (Z.eqb_spec (key c y) k); try reflexivity. congruence.
Qed.

Lemma sort_perm (l : list record) :
  Permutation l (List.fold_right (insert_by (before c ascending)) [] l).
Proof.
  induction l as [|x l IH]; cbn [List.fold_right]; [reflexivity|].
  rewrite <- insert_by_perm. apply perm_skip. exact IH.
Qed.

Lemma sort_sorted (l : list record) :
  Sorted R (List.fold_right (insert_by (before c ascending)) [] l).
Proof.
  induction l as [|x l IH]; cbn [List.fold_right]; [constructor|].
  apply insert_by_sorted. exact IH.
Qed.

Lemma sort_filter (k : Z) (l : list record) :
  List.filter (fun r => Z.eqb (key c r) k) (List.fold_right (insert_by (before c ascending)) [] l) =
  List.filter (fun r => Z.eqb (key c r) k) l.
Proof.
  induction l as [|x l IH]; cbn [List.fold_right]; [reflexivity|].
  rewrite insert_by_filter. cbn [List.filter]. rewrite IH. reflexivity.
Qed.

End Insertion.

Lemma reference_sorts : sorts pandas.
Proof.
  intros c ascending df Hc Hint. cbn [Frame.sort_values pandas]. unfold sort_values.
  replace (forallb _ (rows df)) with true.
  - eexists. split; [reflexivity|]. cbn [columns rows].
    split; [reflexivity|]. split; [apply sort_perm|apply sort_sorted].
  - symmetry. apply forallb_forall. intros r Hr.
    destruct (Hint r Hr) as [z ->]. reflexivity.
Qed.

Lemma reference_stable : stable pandas.
Proof.
  intros c ascending df out. cbn [Frame.sort_values pandas]. unfold sort_values.
  destruct (forallb _ (rows df)); [|discriminate].
  intros [= <-] k. cbn [rows]. apply sort_filter.
Qed.

End ReferenceProps.

(** * Sorting by severity *)
Module SortProps.

Import Frame SortSpec DataTransformer TransformExamples.

(** The fixed order: critical, high, medium, low, then everything else. *)
Lemma severity_rank_order :
  severity_rank (VStr "critical") = 0 /\ severity_rank (VStr "high") = 1 /\
  severity_rank (VStr "medium") = 2 /\ severity_rank (VStr "low") = 3 /\
  (forall v, v <> VStr "critical" -> v <> VStr "high" -> v <> VStr "medium" -> v <> VStr "low" ->
             severity_rank v = 99).
Proof.
  repeat split. intros v H1 H2 H3 H4. destruct v as [| | |s| |]; try reflexivity.
  unfold severity_rank.
  destruct (String.eqb_spec s "critical"); [congruence|].
  destruct (String.eqb_spec s "high"); [congruence|].
  destruct (String.eqb_spec s "medium"); [congruence|].
  destruct (String.eqb_spec s "low"); [congruence|reflexivity].
Qed.

Lemma ordered_trans (ascending : bool) : Relation_Definitions.transitive Z (ordered ascending).
Proof. intros a b c. unfold ordered. destruct ascending; lia. Qed.

Local Abbreviation tmp := "_severity_order".

Local Abbreviation tagged := (fun r : record => Py.set tmp (VInt (rank r)) r).

Section Severity.

Variable pd : Pandas.
Variable df : DataFrame.
Variable ascending : bool.

Hypothesis Hsorts : sorts pd.
Hypothesis Hwf : well_formed df.
Hypothesis Hsev : mem "severity" (columns df) = true.
Hypothesis Htmp : mem tmp (columns df) = false.
Hypothesis Hhash : forall r, In r (rows df) -> hashable (cell "severity" r) = true.

Lemma untag (r : record) : In r (rows df) -> Py.remove tmp (tagged r) = r.
Proof.
  intros Hr. apply PyProps.remove_set_fresh, PyProps.get_None.
  rewrite (Hwf r Hr). apply PyProps.mem_false. exact Htmp.
Qed.

Lemma key_tagged (r : record) : key tmp (tagged r) = rank r.
Proof. unfold key, cell. rewrite PyProps.get_set_same. reflexivity. Qed.

Lemma sort_by_severity_aux :
  exists out,
    _apply_sort pd df {| Models.SortTransform.sort := ["severity"];
                         Models.SortTransform.ascending := ascending |} = Ok out /\
    columns out = columns df /\
    Permutation (rows df) (rows out) /\
    StronglySorted (fun a b => ordered ascending (rank a) (rank b)) (rows out) /\
    (stable pd ->
     forall k, List.filter (fun r => Z.eqb (rank r) k) (rows out) =
               List.filter (fun r => Z.eqb (rank r) k) (rows df)).
Proof.
  unfold _apply_sort. cbn [Models.SortTransform.sort Models.SortTransform.ascending List.filter].
  rewrite Hsev. cbn [negb]. change (mem "severity" ["severity"]) with true. cbv iota.
  replace (forallb _ (rows df)) with true
    by (symmetry; apply forallb_forall; exact Hhash).
  cbn [List.map]. change (String.eqb "severity" "severity") with true. cbv iota.
  set (df_copy := set_column tmp _ df).
  assert (Hcols : columns df_copy = (columns df ++ [tmp])%list).
  { unfold df_copy, set_column. cbn [columns]. rewrite Htmp. reflexivity. }
  assert (Hrows : rows df_copy = List.map tagged (rows df)) by reflexivity.
  destruct (Hsorts tmp ascending df_copy) as (out & Hsv & Hc & Hp & Hs).
  { rewrite Hcols. apply PyProps.mem_app_r. }
  { intros r' Hr'. rewrite Hrows in Hr'. apply in_map_iff in Hr' as (r & <- & _).
    exists (rank r). unfold cell. rewrite PyProps.get_set_same. reflexivity. }
  assert (Hfrom : forall r', In r' (rows out) -> exists r, In r (rows df) /\ r' = tagged r).
  { intros r' Hr'. apply Permutation_sym in Hp. apply (Permutation_in _ Hp) in Hr'.
    rewrite Hrows in Hr'. apply in_map_iff in Hr' as (r & <- & Hr). exists r. auto. }
  assert (Hrank : forall r', In r' (rows out) -> rank (Py.remove tmp r') = key tmp r').
  { intros r' Hr'. destruct (Hfrom r' Hr') as (r & Hr & ->).
    rewrite untag by exact Hr. symmetry. apply key_tagged. }
  rewrite Hsv. unfold drop. rewrite Hc, Hcols, PyProps.mem_app_r.
  eexists. split; [reflexivity|]. cbn [columns rows].
  split; [apply PyProps.filter_fresh, PyProps.mem_false; exact Htmp|].
  split; [|split].
  - apply (Permutation_map (Py.remove tmp)) in Hp.
    rewrite Hrows, List.map_map in Hp.
    rewrite (List.map_ext_in _ (fun r => r)) in Hp by (intros r Hr; apply untag; exact Hr).
    rewrite List.map_id in Hp. exact Hp.
  - apply (PyProps.StronglySorted_map_in (fun a b => ordered ascending (key tmp a) (key tmp b))).
    + intros a b Ha Hb. rewrite !Hrank by assumption. auto.
    + apply Sorted_StronglySorted; [|exact Hs].
      intros a b c. apply ordered_trans.
  - intros Hstable k.
    rewrite PyProps.filter_map_swap.
    rewrite (List.filter_ext_in _ (fun r => Z.eqb (key tmp r) k))
      by (intros r' Hr'; rewrite Hrank by exact Hr'; reflexivity).
    rewrite (Hstable tmp ascending df_copy out) by assumption.
    rewrite Hrows, PyProps.filter_map_swap, List.map_map.
    rewrite (List.filter_ext _ (fun r => Z.eqb (rank r) k))
      by (intros r; rewrite key_tagged; reflexivity).
    rewrite (List.map_ext_in _ (fun r => r)).
    + apply List.map_id.
    + intros r Hr. apply filter_In in Hr as [Hr _]. apply untag. exact Hr.
Qed.

End Severity.

Lemma of_records_well_formed (data : list record) : well_formed (of_records data).
Proof.
  intros r Hr. unfold of_records in *. cbn [rows columns] in *.
  apply in_map_iff in Hr as (r0 & <- & _).
  unfold project. rewrite List.map_map. cbn [fst]. apply List.map_id.
Qed.

(** C7, refuted: asked for a descending sort, the step puts the unknown
    severity first and critical last. *)
Lemma descending_sort_puts_unknown_first :
  exists out,
    _apply_sort Reference.pandas (of_records findings)
      {| Models.SortTransform.sort := ["severity"]; Models.SortTransform.ascending := false |} = Ok out /\
    List.map (cell "severity") (rows out) =
      [VStr "urgent"; VStr "low"; VStr "low"; VStr "low"; VStr "critical"].
Proof. eexists. split; vm_compute; reflexivity. Qed.

(** C7, as the code has it.  Ranks are critical 0, high 1, medium 2, low 3
    and 99 for every other value.  Sorting a frame by [["severity"]] keeps
    its columns and its rows and arranges the rows by rank: in increasing
    rank when [ascending] is true (critical, high, medium, low, then the
    unrecognized values), in decreasing rank when it is false (the
    unrecognized values first).  The code passes no [kind] to
    [sort_values]; when the library sort is stable, rows of equal rank keep
    their relative order. *)
Theorem sort_by_severity (pd : Pandas) (df : DataFrame) (ascending : bool) :
  sorts pd ->
  well_formed df ->
  mem "severity" (columns df) = true ->
  mem "_severity_order" (columns df) = false ->
  (forall r, In r (rows df) -> hashable (cell "severity" r) = true) ->
  (severity_rank (VStr "critical") = 0 /\ severity_rank (VStr "high") = 1 /\
   severity_rank (VStr "medium") = 2 /\ severity_rank (VStr "low") = 3 /\
   (forall v, v <> VStr "critical" -> v <> VStr "high" -> v <> VStr "medium" -> v <> VStr "low" ->
              severity_rank v = 99)) /\
  exists out,
    _apply_sort pd df {| Models.SortTransform.sort := ["severity"];
                         Models.SortTransform.ascending := ascending |} = Ok out /\
    columns out = columns df /\
    Permutation (rows df) (rows out) /\
    StronglySorted (fun a b => if ascending then rank a <= rank b else rank b <= rank a) (rows out) /\
    (stable pd ->
     forall k, List.filter (fun r => Z.eqb (rank r) k) (rows out) =
               List.filter (fun r => Z.eqb (rank r) k) (rows df)).
Proof.
  intros H1 H2 H3 H4 H5. split; [exact severity_rank_order|].
  exact (sort_by_severity_aux pd df ascending H1 H2 H3 H4 H5).
Qed.

Lemma sort_by_severity_witness :
  exists out,
    _apply_sort Reference.pandas (of_records findings)
      {| Models.SortTransform.sort := ["severity"]; Models.SortTransform.ascending := true |} = Ok out /\
    columns out = columns (of_records findings) /\
    Permutation (rows (of_records findings)) (rows out) /\
    StronglySorted (fun a b => rank a <= rank b) (rows out) /\
    (forall k, List.filter (fun r => Z.eqb (rank r) k) (rows out) =
               List.filter (fun r => Z.eqb (rank r) k) (rows (of_records findings))).
Proof.
  destruct (sort_by_severity Reference.pandas (of_records findings) true) as (_ & out & Ho & Hc & Hp & Hs & Hst).
  - exact ReferenceProps.reference_sorts.
  - apply of_records_well_formed.
  - reflexivity.
  - reflexivity.
  - apply forallb_forall. vm_compute. reflexivity.
  - exists out. repeat split; try assumption. apply Hst. exact ReferenceProps.reference_stable.
Defined.

(** The two directions on the sample findings. *)
Example sort_by_severity_sample :
  exists out,
    _apply_sort Reference.pandas (of_records findings)
      {| Models.SortTransform.sort := ["severity"]; Models.SortTransform.ascending := true |} = Ok out /\
    List.map (fun x => (cell "severity" x, cell "n" x)) (rows out) =
      [(VStr "critical", VInt 3); (VStr "low", VInt 1); (VStr "low", VInt 4); (VStr "low", VInt 5);
       (VStr "urgent", VInt 2)].
Proof. eexists. split; vm_compute; reflexivity. Qed.

End SortProps.

(** * Pivoting *)
Module PivotProps.

Import Frame PivotSpec DataTransformer TransformExamples.

Lemma insert_sorted_perm (s : string) (l : list string) : Permutation (s :: l) (insert_sorted s l).
Proof.
  induction l as [|x l IH]; cbn [insert_sorted]; [reflexivity|].
  destruct (String.leb s x); [reflexivity|].
  rewrite perm_swap. apply perm_skip. exact IH.
Qed.

Lemma insert_uniq_In (s x : string) (l : list string) :
  In x (insert_uniq s l) <-> x = s \/ In x l.
Proof.
  unfold insert_uniq. destruct (mem s l) eqn:E.
  - apply PyProps.mem_In in E. split; [auto|]. intros [->|H]; assumption.
  - split; intros H.
    + apply (Permutation_in _ (Permutation_sym (insert_sorted_perm s l))) in H.
      destruct H; auto.
    + apply (Permutation_in _ (insert_sorted_perm s l)). destruct H; [left|right]; auto.
Qed.

Lemma sort_uniq_In (x : string) (l : list string) : In x (sort_uniq l) <-> In x l.
Proof.
  induction l as [|s l IH]; cbn [sort_uniq List.fold_right]; [reflexivity|].
  fold (sort_uniq l). rewrite insert_uniq_In, IH. cbn [In]. split; intros [H|H]; auto.
Qed.

Lemma sort_uniq_NoDup (l : list string) : List.NoDup (sort_uniq l).
Proof.
  induction l as [|s l IH]; cbn [sort_uniq List.fold_right]; [constructor|].
  fold (sort_uniq l). unfold insert_uniq. destruct (mem s (sort_uniq l)) eqn:E; [exact IH|].
  apply (Permutation_NoDup (insert_sorted_perm s (sort_uniq l))).
  constructor; [apply PyProps.mem_false; exact E|exact IH].
Qed.

Lemma mem_sort_uniq (x : string) (l : list string) : mem x (sort_uniq l) = mem x l.
Proof.
  destruct (mem x l) eqn:E.
  - apply PyProps.mem_In, sort_uniq_In, PyProps.mem_In. exact E.
  - apply PyProps.mem_false. rewrite sort_uniq_In. apply PyProps.mem_false. exact E.
Qed.

Lemma value_eqb_str (x : value) (s : string) : Py.value_eqb x (VStr s) = true <-> x = VStr s.
Proof.
  destruct x; cbn [Py.value_eqb]; try (split; intros; discriminate).
  rewrite String.eqb_eq. split; congruence.
Qed.

Lemma filter_nil_of_existsb {A : Type} (p : A -> bool) (l : list A) :
  List.existsb p l = false -> List.filter p l = [].
Proof.
  induction l as [|a l IH]; cbn [List.existsb List.filter]; [reflexivity|].
  destruct (p a); [discriminate|]. exact IH.
Qed.

Lemma filter_filter_implies {A : Type} (p q : A -> bool) (l : list A) :
  (forall a, p a = true -> q a = true) ->
  List.filter p (List.filter q l) = List.filter p l.
Proof.
  intros H. induction l as [|a l IH]; cbn [List.filter]; [reflexivity|].
  destruct (q a) eqn:Eq; cbn [List.filter]; rewrite IH; [reflexivity|].
  destruct (p a) eqn:Ep; [|reflexivity]. rewrite (H a Ep) in Eq. discriminate.
Qed.

Lemma combine_map_same {A B C : Type} (f : A -> B) (g : A -> C) (l : list A) :
  List.combine (List.map f l) (List.map g l) = List.map (fun x => (f x, g x)) l.
Proof. induction l as [|a l IH]; cbn [List.map List.combine]; [reflexivity|]. rewrite IH. reflexivity. Qed.

Lemma get_map_self {A : Type} (f : string -> A) (k : string) (l : list string) :
  In k l -> Py.get k (List.map (fun k' => (k', f k')) l) = Some (f k).
Proof.
  induction l as [|x l IH]; cbn [In List.map Py.get]; [intros []|].
  intros H. destruct (String.eqb_spec k x) as [->|Hne]; [reflexivity|].
  apply IH. destruct H; [congruence|assumption].
Qed.

Lemma forallb_map {A B : Type} (p : B -> bool) (g : A -> B) (l : list A) :
  List.forallb p (List.map g l) = List.forallb (fun a => p (g a)) l.
Proof. induction l as [|a l IH]; cbn [List.map List.forallb]; [reflexivity|]. rewrite IH. reflexivity. Qed.

Lemma existsb_map {A B : Type} (p : B -> bool) (g : A -> B) (l : list A) :
  List.existsb p (List.map g l) = List.existsb (fun a => p (g a)) l.
Proof. induction l as [|a l IH]; cbn [List.map List.existsb]; [reflexivity|]. rewrite IH. reflexivity. Qed.

Lemma existsb_ext {A : Type} (p q : A -> bool) (l : list A) :
  (forall a, p a = q a) -> List.existsb p l = List.existsb q l.
Proof.
  intros H. induction l as [|a l IH]; cbn [List.existsb]; [reflexivity|].
  rewrite H, IH. reflexivity.
Qed.

Section Clean.

Variables i c v : string.

Hypothesis Hiv : i <> v.
Hypothesis Hcv : c <> v.

Lemma cell_clean_other (k : string) (r : record) : k <> v -> cell k (clean v r) = cell k r.
Proof. intros Hk. unfold cell, clean. rewrite PyProps.get_set_other by congruence. reflexivity. Qed.

Lemma cell_clean_same (r : record) : cell v (clean v r) = fillna (VInt 0) (cell v r).
Proof. unfold clean. unfold cell at 1. rewrite PyProps.get_set_same. reflexivity. Qed.

Lemma has_keys_clean (r : record) : has_keys i c (clean v r) = has_keys i c r.
Proof. unfold has_keys. rewrite !cell_clean_other by assumption. reflexivity. Qed.

Lemma in_group_clean (ix k : string) (r : record) :
  in_group i c ix k (clean v r) = in_group i c ix k r.
Proof. unfold in_group. rewrite !cell_clean_other by assumption. reflexivity. Qed.

Lemma in_group_has_keys (ix k : string) (r : record) :
  in_group i c ix k r = true -> has_keys i c r = true.
Proof.
  unfold in_group, has_keys. intros H. apply andb_prop in H as [H1 H2].
  apply value_eqb_str in H1, H2. rewrite H1, H2. reflexivity.
Qed.

Lemma keyed_clean (rs : list record) :
  keyed i c (List.map (clean v) rs) = List.map (clean v) (keyed i c rs).
Proof.
  unfold keyed. rewrite PyProps.filter_map_swap. f_equal.
  apply List.filter_ext. intros r. apply has_keys_clean.
Qed.

Lemma keys_of_clean (k : string) (rs : list record) :
  k <> v -> keys_of k (List.map (clean v) rs) = keys_of k rs.
Proof.
  intros Hk. induction rs as [|r rs IH]; [reflexivity|].
  unfold keys_of in *. cbn [List.map omap list_omap]. rewrite cell_clean_other by exact Hk.
  rewrite IH. reflexivity.
Qed.

Lemma cell_sum_clean (rs : list record) (ix k : string) :
  (forall r, In r rs -> match cell v r with VInt _ | VNull => true | _ => false end = true) ->
  cell_sum i c v (keyed i c (List.map (clean v) rs)) ix k = cell_sum i c v rs ix k.
Proof.
  intros Hty. unfold cell_sum. rewrite keyed_clean, PyProps.filter_map_swap.
  rewrite (List.filter_ext _ (in_group i c ix k)) by (intros r; apply in_group_clean).
  unfold keyed. rewrite filter_filter_implies by (intros r; apply in_group_has_keys).
  rewrite List.map_map. f_equal. apply List.map_ext_in.
  intros r Hr. apply filter_In in Hr as [Hr _].
  rewrite cell_clean_same. specialize (Hty r Hr).
  destruct (cell v r); try discriminate; reflexivity.
Qed.

End Clean.

Section Pivot.

Variable pd : Pandas.
Variable df : DataFrame.
Variables i c v : string.

Hypothesis Hok : pivotable df i c v = true.

Local Abbreviation kc := (column_keys df i c).
Local Abbreviation ki := (index_keys df i c).
Local Abbreviation labels := (severity_columns kc ++ other_columns kc)%list.

Lemma pivotable_inv :
  (i <> c /\ i <> v /\ c <> v) /\
  (mem i (columns df) = true /\ mem c (columns df) = true /\ mem v (columns df) = true) /\
  (List.forallb (fun r => match cell i r with VStr _ | VNull => true | _ => false end) (rows df) = true /\
   List.forallb (fun r => match cell c r with VStr _ | VNull => true | _ => false end) (rows df) = true /\
   List.forallb (fun r => match cell v r with VInt _ | VNull => true | _ => false end) (rows df) = true) /\
  List.existsb (has_keys i c) (rows df) = true /\
  ~ In i kc /\ ~ In i severity_names.
Proof.
  unfold pivotable in Hok.
  repeat (apply andb_prop in Hok as [Hok ?]).
  repeat match goal with
         | H : negb (String.eqb _ _) = true |- _ => apply negb_true_iff, String.eqb_neq in H
         | H : negb (mem _ _) = true |- _ => apply negb_true_iff, PyProps.mem_false in H
         end.
  repeat split; assumption.
Qed.

Lemma in_labels (k : string) : In k labels <-> In k kc.
Proof.
  unfold severity_columns, other_columns. rewrite in_app_iff, !filter_In, sort_uniq_In.
  rewrite PyProps.mem_In, negb_true_iff, PyProps.mem_false. split.
  - intros [[_ H]|[H _]]; exact H.
  - intros H. destruct (in_dec string_dec k severity_names); [left|right]; auto.
Qed.

Lemma labels_not_index (k : string) : In k labels -> k <> i.
Proof.
  intros H E. subst k. apply in_labels in H.
  destruct pivotable_inv as (_ & _ & _ & _ & Hi & _). exact (Hi H).
Qed.

Lemma clean_domain :
  pivot_domain (set_column v (fun r => fillna (VInt 0) (cell v r)) df) i c v = true.
Proof.
  destruct pivotable_inv as ((Hic & Hiv & Hcv) & _ & (Fi & Fc & Fv) & Hex & _).
  unfold pivot_domain, set_column. cbn [rows].
  change (List.map (fun r => Py.set v (fillna (VInt 0) (cell v r)) r) (rows df))
    with (List.map (clean v) (rows df)).
  rewrite (proj2 (String.eqb_neq _ _) Hic), (proj2 (String.eqb_neq _ _) Hiv),
    (proj2 (String.eqb_neq _ _) Hcv). cbn [negb andb].
  rewrite forallb_forall in Fi, Fc, Fv.
  repeat (apply andb_true_intro; split).
  - apply forallb_forall. intros r' Hr'. apply in_map_iff in Hr' as (r & <- & Hr).
    rewrite (cell_clean_other v i r Hiv). exact (Fi r Hr).
  - apply forallb_forall. intros r' Hr'. apply in_map_iff in Hr' as (r & <- & Hr).
    rewrite (cell_clean_other v c r Hcv). exact (Fc r Hr).
  - apply forallb_forall. intros r' Hr'. apply in_map_iff in Hr' as (r & <- & Hr).
    rewrite cell_clean_same. specialize (Fv r Hr).
    destruct (cell v r); try discriminate; reflexivity.
  - rewrite existsb_map. rewrite existsb_exists in *. destruct Hex as (r & Hr & Hk).
    exists r. split; [exact Hr|]. rewrite has_keys_clean by assumption. exact Hk.
Qed.

Lemma present_columns :
  List.filter (fun s => mem s (i :: sort_uniq kc)) ["low"; "medium"; "high"; "critical"] =
  severity_columns kc.
Proof.
  destruct pivotable_inv as (_ & _ & _ & _ & _ & Hsev).
  unfold severity_columns. apply List.filter_ext_in. intros s Hs.
  unfold mem at 1. cbn [List.existsb]. fold (mem s (sort_uniq kc)).
  rewrite mem_sort_uniq.
  destruct (String.eqb_spec s i) as [->|_]; [destruct (Hsev Hs)|reflexivity].
Qed.

Lemma others_columns :
  List.filter (fun k => negb (mem k (severity_columns kc)) && negb (String.eqb k i)) (i :: sort_uniq kc) =
  other_columns kc.
Proof.
  destruct pivotable_inv as (_ & _ & _ & _ & Hi & _).
  cbn [List.filter]. rewrite String.eqb_refl, andb_false_r.
  unfold other_columns. apply List.filter_ext_in. intros k Hk.
  apply (proj1 (sort_uniq_In _ _)) in Hk.
  replace (String.eqb k i) with false
    by (symmetry; apply String.eqb_neq; intros ->; exact (Hi Hk)).
  rewrite andb_true_r. f_equal.
  destruct (mem k severity_names) eqn:E.
  - apply PyProps.mem_In. unfold severity_columns. apply filter_In.
    split; [apply PyProps.mem_In; exact E|apply PyProps.mem_In; exact Hk].
  - apply PyProps.mem_false. unfold severity_columns. rewrite filter_In.
    intros [H _]. apply PyProps.mem_false in E. exact (E H).
Qed.

(** The step computes the expected table. *)
Lemma apply_pivot_expected :
  _apply_pivot pd df {| Models.PivotTransform.index := i; Models.PivotTransform.columns := c;
                        Models.PivotTransform.values := v |} = Ok (expected df i c v).
Proof.
  destruct pivotable_inv as ((Hic & Hiv & Hcv) & (Mi & Mc & Mv) & (Fi & Fc & Fv) & Hex & Hi & Hsev).
  unfold _apply_pivot.
  cbn [Models.PivotTransform.index Models.PivotTransform.columns Models.PivotTransform.values].
  replace (List.filter (fun col => negb (mem col (columns df))) [i; c; v]) with (@nil string)
    by (cbn [List.filter]; rewrite Mi, Mc, Mv; reflexivity).
  unfold pivot_table. rewrite clean_domain.
  unfold pivot_table_sum, set_column. cbn [rows].
  change (List.map (fun r => Py.set v (fillna (VInt 0) (cell v r)) r) (rows df))
    with (List.map (clean v) (rows df)).
  rewrite (keyed_clean i c v Hiv Hcv).
  rewrite (keys_of_clean v i _ Hiv), (keys_of_clean v c _ Hcv).
  fold kc. fold ki.
  unfold reset_index. cbn [index_name index_values frame columns rows].
  rewrite mem_sort_uniq. rewrite (proj2 (PyProps.mem_false _ _) Hi).
  cbn [columns].
  rewrite present_columns, others_columns.
  unfold reindex, expected. cbn [columns rows]. f_equal. f_equal.
  rewrite combine_map_same, !List.map_map.
  apply List.map_ext_in. intros ix Hix.
  unfold project. cbn [List.map app fst snd].
  f_equal.
  - unfold cell. cbn [Py.get]. rewrite String.eqb_refl. reflexivity.
  - apply List.map_ext_in. intros k Hk. f_equal.
    assert (Hki : k <> i) by (apply labels_not_index; exact Hk).
    unfold cell at 1. cbn [Py.get].
    rewrite (proj2 (String.eqb_neq _ _) Hki).
    rewrite get_map_self by (apply sort_uniq_In, in_labels; exact Hk).
    rewrite <- (keyed_clean i c v Hiv Hcv).
    rewrite (cell_sum_clean i c v Hiv Hcv) by (apply forallb_forall; exact Fv).
    destruct (List.existsb (in_group i c ix k) _) eqn:E; [reflexivity|].
    f_equal. rewrite (keyed_clean i c v Hiv Hcv) in E.
    rewrite existsb_map in E.
    rewrite (existsb_ext _ _ _ (in_group_clean i c v Hiv Hcv ix k)) in E.
    unfold cell_sum. symmetry.
    rewrite <- (filter_filter_implies _ (has_keys i c)) by (intros r; apply in_group_has_keys).
    fold (keyed i c (rows df)). rewrite (filter_nil_of_existsb _ _ E). reflexivity.
Qed.

Lemma labels_NoDup : List.NoDup labels.
Proof.
  apply List.NoDup_app.
  - apply List.NoDup_filter. unfold severity_names.
    repeat (constructor; [cbn [In]; intuition discriminate|]). constructor.
  - apply List.NoDup_filter, sort_uniq_NoDup.
  - intros k H1 H2. unfold severity_columns, other_columns in *.
    apply filter_In in H1 as [H1 _]. apply filter_In in H2 as [_ H2].
    apply negb_true_iff, PyProps.mem_false in H2. exact (H2 H1).
Qed.

End Pivot.

(** C8, refuted: when a value of the columns key is spelled like the index
    column the reshaping fails and the step hands the frame back as it
    came, with its three columns and nothing summed; and an index value
    whose rows all lack the columns key gets no row. *)
Lemma pivot_not_for_every_dataset :
  _apply_pivot Reference.pandas (of_records clashing)
    {| Models.PivotTransform.index := "project"; Models.PivotTransform.columns := "severity";
       Models.PivotTransform.values := "n" |} = Ok (of_records clashing) /\
  Frame.columns (of_records clashing) = ["project"; "severity"; "n"] /\
  _apply_pivot Reference.pandas (of_records unrated)
    {| Models.PivotTransform.index := "project"; Models.PivotTransform.columns := "severity";
       Models.PivotTransform.values := "n" |} =
    Ok {| Frame.columns := ["project"; "low"];
          rows := [[("project", VStr "alpha"); ("low", VInt 1)]] |}.
Proof. vm_compute. repeat split. Qed.

(** C8, as the code has it.  On a frame that can be pivoted (the three
    columns exist and are distinct, the keys are strings or null, the values
    integers or null, and the index label is neither a value of the columns
    key nor a severity name), the step returns the table with
    one row per distinct index value and, after the index column, one
    column per distinct value of the columns key: first the severity names
    that occur, in the order low, medium, high, critical, then the other
    keys.  Every cell is the sum of the values of its (index, columns key)
    group, so a combination that does not occur in the input gives the
    integer 0: no cell is null and no column is missing.  Rows in which a
    key is null belong to no group and give neither a row nor a column. *)
Theorem pivot_fills_and_orders (pd : Pandas) (df : DataFrame) (index columns values : string) :
  pivotable df index columns values = true ->
  exists out,
    _apply_pivot pd df {| Models.PivotTransform.index := index;
                          Models.PivotTransform.columns := columns;
                          Models.PivotTransform.values := values |} = Ok out /\
    List.map (cell index) (rows out) = List.map VStr (sort_uniq (index_keys df index columns)) /\
    List.NoDup (sort_uniq (index_keys df index columns)) /\
    (forall s, In s (sort_uniq (index_keys df index columns)) <-> In s (index_keys df index columns)) /\
    Frame.columns out =
      index :: severity_columns (column_keys df index columns) ++ other_columns (column_keys df index columns) /\
    severity_columns (column_keys df index columns) =
      List.filter (fun s => mem s (column_keys df index columns)) ["low"; "medium"; "high"; "critical"] /\
    (forall s, In s (other_columns (column_keys df index columns)) ->
               ~ In s ["low"; "medium"; "high"; "critical"]) /\
    List.NoDup (severity_columns (column_keys df index columns) ++ other_columns (column_keys df index columns)) /\
    (forall s, In s (severity_columns (column_keys df index columns) ++
                     other_columns (column_keys df index columns)) <->
               In s (column_keys df index columns)) /\
    (forall r i, In r (rows out) -> cell index r = VStr i ->
       forall c, In c (severity_columns (column_keys df index columns) ++
                       other_columns (column_keys df index columns)) ->
       cell c r = VInt (cell_sum index columns values (rows df) i c)) /\
    (forall i c, (forall r, In r (rows df) -> in_group index columns i c r = false) ->
       cell_sum index columns values (rows df) i c = 0).
Proof.
  intros Hok. exists (expected df index columns values).
  split; [apply apply_pivot_expected; exact Hok|].
  split; [|split; [apply sort_uniq_NoDup|split; [intros s; apply sort_uniq_In|]]].
  { unfold expected. cbn [rows]. rewrite List.map_map. apply List.map_ext. intros i.
    unfold cell. cbn [Py.get]. rewrite String.eqb_refl. reflexivity. }
  split; [reflexivity|]. split; [reflexivity|].
  split.
  { intros s Hs. unfold other_columns in Hs. apply filter_In in Hs as [_ Hs].
    apply negb_true_iff, PyProps.mem_false in Hs. exact Hs. }
  split; [apply labels_NoDup|]. split; [intros s; apply in_labels; exact Hok|].
  split.
  - intros r i Hr Hi c Hc. unfold expected in Hr. cbn [rows] in Hr.
    apply in_map_iff in Hr as (i' & <- & _).
    unfold cell in Hi. cbn [Py.get] in Hi. rewrite String.eqb_refl in Hi. injection Hi as ->.
    unfold cell. cbn [Py.get].
    rewrite (proj2 (String.eqb_neq _ _) (labels_not_index df index columns values Hok c Hc)).
    rewrite get_map_self by exact Hc. reflexivity.
  - intros i c Hnone. unfold cell_sum.
    rewrite filter_nil_of_existsb; [reflexivity|].
    destruct (List.existsb _ _) eqn:E; [|reflexivity].
    apply existsb_exists in E as (r & Hr & Hg). rewrite (Hnone r Hr) in Hg. discriminate.
Qed.

Lemma pivot_fills_and_orders_witness :
  _apply_pivot Reference.pandas (of_records findings)
    {| Models.PivotTransform.index := "project"; Models.PivotTransform.columns := "severity";
       Models.PivotTransform.values := "n" |} =
  Ok {| Frame.columns := ["project"; "low"; "critical"; "urgent"];
        rows := [[("project", VStr "alpha"); ("low", VInt 6); ("critical", VInt 3); ("urgent", VInt 0)];
                 [("project", VStr "beta"); ("low", VInt 4); ("critical", VInt 0); ("urgent", VInt 2)]] |}.
Proof.
  assert (H : pivotable (of_records findings) "project" "severity" "n" = true) by (vm_compute; reflexivity).
  destruct (pivot_fills_and_orders Reference.pandas (of_records findings) "project" "severity" "n" H)
    as (out & Ho & _).
  rewrite Ho. vm_compute in Ho. injection Ho as <-. reflexivity.
Defined.

End PivotProps.

(** * The cache over a whole run *)
Module CacheRunProps.

Import Json DataCache.

Lemma hexdigest_length (s : string) : String.length (MD5.hexdigest s) = 32%nat.
Proof.
  unfold MD5.hexdigest, MD5.digest.
  generalize (List.fold_left MD5.block
                (MD5.blocks (length (MD5.words (length (MD5.pad (MD5.bytes_of_string s)))
                                               (MD5.pad (MD5.bytes_of_string s))))
                            (MD5.words (length (MD5.pad (MD5.bytes_of_string s)))
                                       (MD5.pad (MD5.bytes_of_string s)))) MD5.init).
  intros st. reflexivity.
Qed.

Lemma append_length (a b : string) :
  String.length (a +:+ b) = (String.length a + String.length b)%nat.
Proof. induction a as [|c a IH]; cbn; [reflexivity|]. rewrite <- IH. reflexivity. Qed.

Lemma append_inj_length (a a' b b' : string) :
  String.length a = String.length a' -> a +:+ b = a' +:+ b' -> a = a' /\ b = b'.
Proof.
  revert a'. induction a as [|c a IH]; intros [|c' a'] Hlen E; try discriminate.
  - split; [reflexivity|exact E].
  - cbn in E. injection E as -> E. injection Hlen as Hlen.
    destruct (IH a' Hlen E) as [-> ->]. split; reflexivity.
Qed.

(** The endpoint can be read off a cache id: the digest has a fixed length. *)
Lemma cache_id_endpoint (q q' : Models.QueryConfig.t) :
  cache_id (_generate_cache_key q) = cache_id (_generate_cache_key q') ->
  Models.QueryConfig.endpoint q = Models.QueryConfig.endpoint q'.
Proof.
  unfold cache_id, _generate_cache_key. cbn [endpoint params_hash].
  intros E.
  assert (Hlen : String.length (Models.QueryConfig.endpoint q) =
                 String.length (Models.QueryConfig.endpoint q')).
  { apply (f_equal String.length) in E.
    rewrite !append_length, !hexdigest_length in E. cbn in E. lia. }
  exact (proj1 (append_inj_length _ _ _ _ Hlen E)).
Qed.

Lemma append_inj_l (a b b' : string) : a +:+ b = a +:+ b' -> b = b'.
Proof.
  induction a as [|c a IH]; cbn [String.append]; intros E; [exact E|].
  injection E as E. exact (IH E).
Qed.

(** So can the digest. *)
Lemma cache_id_hash (q q' : Models.QueryConfig.t) :
  cache_id (_generate_cache_key q) = cache_id (_generate_cache_key q') ->
  params_hash (_generate_cache_key q) = params_hash (_generate_cache_key q').
Proof.
  intros E. pose proof (cache_id_endpoint _ _ E) as Hep.
  unfold cache_id in E.
  change (endpoint (_generate_cache_key q)) with (Models.QueryConfig.endpoint q) in E.
  change (endpoint (_generate_cache_key q')) with (Models.QueryConfig.endpoint q') in E.
  rewrite Hep in E. apply append_inj_l in E. apply append_inj_l in E. exact E.
Qed.

Lemma fmap_inj_option {A B : Type} (f : A -> B) (x y : option A) :
  (forall a b, f a = f b -> a = b) -> f <$> x = f <$> y -> x = y.
Proof.
  intros Hf. destruct x as [a|], y as [b|]; cbn; intros E; try discriminate; [|reflexivity].
  injection E as E. rewrite (Hf _ _ E). reflexivity.
Qed.

(** The parameters stored with an entry determine those of the query. *)
Lemma full_params_inj (q q' : Models.QueryConfig.t) :
  full_params (_generate_cache_key q) = full_params (_generate_cache_key q') ->
  Models.QueryConfig.params q = Models.QueryConfig.params q'.
Proof.
  intros E.
  pose proof (DataCacheProps.full_params_lookup q) as (F & S & L & O & A).
  pose proof (DataCacheProps.full_params_lookup q') as (F' & S' & L' & O' & A').
  cbv zeta in *. rewrite E in F, S, L, O, A.
  rewrite F' in F. rewrite S' in S. rewrite L' in L. rewrite O' in O. rewrite A' in A.
  destruct (Models.QueryConfig.params q) as [f s l o a].
  destruct (Models.QueryConfig.params q') as [f' s' l' o' a']. cbn in *.
  apply fmap_inj_option in F; [|congruence].
  apply fmap_inj_option in S; [|congruence].
  apply fmap_inj_option in L; [|congruence].
  apply fmap_inj_option in O; [|congruence].
  apply fmap_inj_option in A; [|congruence].
  congruence.
Qed.

Lemma puts_snoc (ops : list History.op) (q : Models.QueryConfig.t) (R : list record) (now : Z) :
  History.puts (ops ++ [(q, R, now)]) = put (History.puts ops) q R now.
Proof. unfold History.puts. rewrite List.fold_left_app. reflexivity. Qed.

(** X1.  Whatever sequence of [put]s built the cache, a hit returns records
    that were stored for the same endpoint: those of the very query asked
    for, unchanged, or, when another parameter set of that endpoint has the
    same MD5 digest, those stored for it, filtered by the requested filter.
    Records stored for another endpoint are never returned. *)
Theorem hit_provenance (ops : list History.op) (q : Models.QueryConfig.t) (d : list record) :
  get (History.puts ops) q = Some d ->
  exists q' R now,
    In (q', R, now) ops /\
    Models.QueryConfig.endpoint q' = Models.QueryConfig.endpoint q /\
    ((q' = q /\ d = R) \/
     (q' <> q /\
      params_hash (_generate_cache_key q') = params_hash (_generate_cache_key q) /\
      d = _subset_data R (get_filter (full_params (_generate_cache_key q))))).
Proof.
  induction ops as [|[[q0 R0] t0] ops IH] using List.rev_ind.
  - unfold History.puts, init. cbn [List.fold_left]. unfold get.
    rewrite lookup_empty. discriminate.
  - rewrite puts_snoc. intros H.
    destruct (decide (cache_id (_generate_cache_key q0) = cache_id (_generate_cache_key q)))
      as [Eid|Nid].
    + apply DataCacheProps.get_Some_inv in H as (e & He & Hcase).
      unfold put in He. rewrite <- Eid, lookup_insert_eq in He. injection He as <-.
      cbn [params data] in Hcase.
      pose proof (cache_id_endpoint _ _ Eid) as Hep.
      exists q0, R0, t0. split; [apply in_or_app; right; left; reflexivity|].
      split; [exact Hep|].
      destruct Hcase as [[Hp ->]|(Hp & _ & _ & ->)].
      * left. split; [|reflexivity].
        apply full_params_inj in Hp. destruct q0, q. cbn in *. congruence.
      * right. split; [intros ->; apply Hp; reflexivity|]. split; [|reflexivity].
        exact (cache_id_hash _ _ Eid).
    + unfold get, put in H. rewrite lookup_insert_ne in H by exact Nid.
      destruct (IH H) as (q' & R & now & Hin & Hrest).
      exists q', R, now. split; [apply in_or_app; left; exact Hin|exact Hrest].
Qed.

Lemma hit_provenance_witness :
  exists q' R now,
    In (q', R, now) [(CacheExamples.findings_query (Some CacheExamples.F2) None, [CacheExamples.r_high], 5);
                     (CacheExamples.findings_query (Some CacheExamples.F1) None, CacheExamples.R12, 7)] /\
    Models.QueryConfig.endpoint q' = "/public/v0/findings" /\
    ((q' = CacheExamples.findings_query (Some CacheExamples.F1) None /\ CacheExamples.R12 = R) \/
     (q' <> CacheExamples.findings_query (Some CacheExamples.F1) None /\
      params_hash (_generate_cache_key q') =
        params_hash (_generate_cache_key (CacheExamples.findings_query (Some CacheExamples.F1) None)) /\
      CacheExamples.R12 =
        _subset_data R (get_filter (full_params
          (_generate_cache_key (CacheExamples.findings_query (Some CacheExamples.F1) None)))))).
Proof.
  apply (hit_provenance
           [(CacheExamples.findings_query (Some CacheExamples.F2) None, [CacheExamples.r_high], 5);
            (CacheExamples.findings_query (Some CacheExamples.F1) None, CacheExamples.R12, 7)]
           (CacheExamples.findings_query (Some CacheExamples.F1) None) CacheExamples.R12).
  vm_compute. reflexivity.
Defined.

(** What the subset test accepts: the same filter, or a longer one with the
    same date range. *)
Lemma is_subset_filter_true (cf rf : string) :
  _is_subset_filter cf rf = true <->
  cf = rf \/
  (Py.contains "detected>=" cf = true /\ Py.contains "detected>=" rf = true /\
   (exists r, _extract_date_range cf = Some r /\ _extract_date_range rf = Some r) /\
   (String.length cf < String.length rf)%nat).
Proof.
  unfold _is_subset_filter.
  destruct (String.eqb_spec cf "") as [->|Hc].
  - destruct (String.eqb_spec rf "") as [->|Hr]; cbn [andb negb].
    + cbn. split; [left; reflexivity|reflexivity].
    + split; [discriminate|]. intros [E|(H & _)]; [congruence|discriminate].
  - cbn [andb].
    destruct (String.eqb_spec cf rf) as [->|Hne]; [split; [left; reflexivity|reflexivity]|].
    destruct (Py.contains "detected>=" cf); cbn [andb];
      [|split; [discriminate|intros [E|(H & _)]; [congruence|discriminate]]].
    destruct (Py.contains "detected>=" rf); cbn [andb];
      [|split; [discriminate|intros [E|(_ & H & _)]; [congruence|discriminate]]].
    destruct (_extract_date_range cf) as [cd|];
      [|split; [discriminate|intros [E|(_ & _ & (r & H & _) & _)]; [congruence|discriminate]]].
    destruct (_extract_date_range rf) as [rd|];
      [|split; [discriminate|intros [E|(_ & _ & (r & _ & H) & _)]; [congruence|discriminate]]].
    destruct (bool_decide (cd = rd)) eqn:E.
    + apply bool_decide_eq_true_1 in E. subst rd. split.
      * intros H. apply Nat.ltb_lt in H. right. repeat split; try exact H. exists cd. auto.
      * intros [E|(_ & _ & _ & H)]; [congruence|]. apply Nat.ltb_lt. exact H.
    + apply bool_decide_eq_false_1 in E. split; [discriminate|].
      intros [E'|(_ & _ & (r & H1 & H2) & _)]; [congruence|]. congruence.
Qed.

(** X2.  The subset test on filters is a partial order: every filter is a
    subset of itself, two different filters are never subsets of each other,
    and the test is transitive. *)
Theorem is_subset_filter_partial_order :
  (forall a, _is_subset_filter a a = true) /\
  (forall a b, _is_subset_filter a b = true -> _is_subset_filter b a = true -> a = b) /\
  (forall a b c, _is_subset_filter a b = true -> _is_subset_filter b c = true ->
                 _is_subset_filter a c = true).
Proof.
  split; [|split].
  - intros a. apply is_subset_filter_true. left. reflexivity.
  - intros a b H1 H2. apply is_subset_filter_true in H1, H2.
    destruct H1 as [E|(_ & _ & _ & L1)]; [exact E|].
    destruct H2 as [E|(_ & _ & _ & L2)]; [congruence|]. lia.
  - intros a b c H1 H2. apply is_subset_filter_true in H1, H2. apply is_subset_filter_true.
    destruct H1 as [->|(Ca & Cb & (r & Ra & Rb) & L1)]; [exact H2|].
    destruct H2 as [<-|(_ & Cc & (r' & Rb' & Rc) & L2)].
    + right. repeat split; try assumption. exists r. auto.
    + right. repeat split; try assumption; [|lia].
      exists r. split; [exact Ra|]. congruence.
Qed.

End CacheRunProps.

(** * The statistics of the cache *)
Module CacheStatsProps.

Import Json DataCache CacheStats.

Lemma sum_records_comm (z1 z2 : CacheEntry) (y : nat) :
  (length (data z1) + (length (data z2) + y) = length (data z2) + (length (data z1) + y))%nat.
Proof. lia. Qed.

Lemma sum_records_insert (c : DataCache.t) (id : string) (e : CacheEntry) :
  (sum_records (<[id := e]> c) + match c !! id with Some e0 => length (data e0) | None => 0 end =
   sum_records c + length (data e))%nat.
Proof.
  unfold sum_records. destruct (c !! id) as [e0|] eqn:E.
  - rewrite <- insert_delete_eq.
    rewrite map_fold_insert_L; [|intros; apply sum_records_comm|apply lookup_delete_eq].
    rewrite (map_fold_delete_L _ _ id e0 c); [|intros; apply sum_records_comm|exact E].
    lia.
  - rewrite map_fold_insert_L; [|intros; apply sum_records_comm|exact E]. lia.
Qed.

(** X3.  The statistics follow the cache: storing under a new cache id adds
    one entry, storing under an id already there replaces its entry; in both
    cases the record total changes by the records stored minus the records
    replaced.  After [clear] there is nothing left. *)
Theorem stats_follow_put (c : DataCache.t) (q : Models.QueryConfig.t) (R : list record) (now : Z) :
  let id := cache_id (_generate_cache_key q) in
  let s := get_stats c in
  let s' := get_stats (put c q R now) in
  total_entries s' = match c !! id with Some _ => total_entries s | None => S (total_entries s) end /\
  (total_records s' + match c !! id with Some e => length (data e) | None => 0 end =
   total_records s + length R)%nat /\
  cache_keys s' = {[ id ]} ∪ cache_keys s /\
  get_stats (clear (put c q R now)) =
    {| total_entries := 0; total_records := 0; cache_keys := ∅ |}.
Proof.
  cbv zeta. unfold get_stats, put. cbn [total_entries total_records cache_keys].
  split; [|split; [|split]].
  - rewrite map_size_insert. destruct (c !! _); reflexivity.
  - apply (sum_records_insert c _ {| data := R; timestamp := now; params := _ |}).
  - apply dom_insert_L.
  - unfold clear, sum_records. rewrite map_size_empty, map_fold_empty, dom_empty_L. reflexivity.
Qed.

End CacheStatsProps.

(** * More on the fetcher *)
Module FetchProps.

Import Json DataCache APIClient ApiExamples.

Lemma get_after_put (c : gmap string CacheEntry) (q : Models.QueryConfig.t)
    (R : list record) (now : Z) :
  DataCache.get (DataCache.put c q R now) q = Some R.
Proof.
  unfold DataCache.get, DataCache.put.
  rewrite lookup_insert_eq. cbn [params data].
  rewrite DataCacheProps.can_reuse_refl.
  rewrite bool_decide_eq_true_2; reflexivity.
Qed.

(** What a successful [fetch_data] leaves behind: the page is in the cache
    under the query. *)
Lemma fetch_data_caches (env : Env) (w w' : World) (q : Models.QueryConfig.t) (d : list record) :
  fetch_data env w q = (Ok d, w') -> DataCache.get (cache w') q = Some d.
Proof.
  unfold fetch_data.
  destruct (DataCache.get (cache w) q) as [cached|] eqn:Hget.
  - intros [= <- <-]. exact Hget.
  - destruct (http_get env (requests w) q) as [e|[data|data]]; [discriminate| |].
    + intros [= <- <-]. cbn [cache]. apply get_after_put.
    + destruct (or_else _ _) as [[| | | |[|x l]|]|];
        try (intros [= <- <-]; cbn [cache]; apply get_after_put).
      destruct (records_of (x :: l)) as [e|items]; [discriminate|].
      intros [= <- <-]. cbn [cache]. apply get_after_put.
Qed.

Lemma fetch_data_hit (env : Env) (w : World) (q : Models.QueryConfig.t) (d : list record) :
  DataCache.get (cache w) q = Some d -> fetch_data env w q = (Ok d, w).
Proof. intros H. unfold fetch_data. rewrite H. reflexivity. Qed.

(** X6.  A page that [fetch_data] has returned once is returned again by
    every later call for the same query, without a request and without any
    change to the cache, whatever the upstream would answer by then. *)
Theorem fetch_data_served_again (env env' : Env) (w w' : World) (q : Models.QueryConfig.t)
    (d : list record) :
  fetch_data env w q = (Ok d, w') ->
  fetch_data env' w' q = (Ok d, w').
Proof.
  intros H. apply fetch_data_hit. exact (fetch_data_caches env w w' q d H).
Qed.

Lemma fetch_data_served_again_witness :
  fetch_data down
    {| cache := DataCache.put DataCache.init (Models.with_offset Upstream.by_three 0)
                  (Upstream.slice Upstream.seven 0 3) 0;
       requests := 1; draws := 0; slept := []; progress_file := NoFile |}
    (Models.with_offset Upstream.by_three 0) =
  (Ok (Upstream.slice Upstream.seven 0 3),
   {| cache := DataCache.put DataCache.init (Models.with_offset Upstream.by_three 0)
                 (Upstream.slice Upstream.seven 0 3) 0;
      requests := 1; draws := 0; slept := []; progress_file := NoFile |}).
Proof.
  apply (fetch_data_served_again Upstream.listing down fresh).
  vm_compute. reflexivity.
Defined.

(** X7.  Once [test_connection] has succeeded, it succeeds again from the
    cache alone: no request is made, the client is left as it was, and the
    answer is [True] even when the upstream refuses every request. *)
Theorem test_connection_cached (env env' : Env) (w w' : World) :
  Request.test_connection env w = (true, w') ->
  Request.test_connection env' w' = (true, w').
Proof.
  unfold Request.test_connection.
  destruct (fetch_data env w Request.test_query) as [[e|d] w1] eqn:E; [discriminate|].
  intros [= <-]. rewrite (fetch_data_hit env' w1 _ d (fetch_data_caches env w w1 _ d E)).
  reflexivity.
Qed.

Lemma test_connection_cached_witness :
  Request.test_connection down
    {| cache := DataCache.put DataCache.init Request.test_query Upstream.seven 0;
       requests := 1; draws := 0; slept := []; progress_file := NoFile |} =
  (true,
   {| cache := DataCache.put DataCache.init Request.test_query Upstream.seven 0;
      requests := 1; draws := 0; slept := []; progress_file := NoFile |}).
Proof.
  apply (test_connection_cached Upstream.listing down fresh).
  vm_compute. reflexivity.
Defined.

(** One turn of the loop never takes back a record. *)
Lemma turn_keeps (env : Env) (q : Models.QueryConfig.t) (L max_retries : Z) (w w' : World)
    (l : Loop) (o : outcome) :
  turn env q L max_retries w l = (o, w') ->
  match o with
  | Continue l' | Break l' => exists more, all_results l' = (all_results l ++ more)%list
  | Raised _ => True
  end.
Proof.
  unfold turn.
  destruct (fetch_data env w (Models.with_offset q (offset l))) as [[e|[|x page]] w1];
    cbv beta iota zeta; cbn [all_results offset consecutive_empty_pages retry_count].
  - destruct (max_retries <? retry_count l + 1); intros [= <- <-];
      exists []; cbn [all_results]; rewrite List.app_nil_r; reflexivity.
  - destruct (max_consecutive_empty <=? consecutive_empty_pages l + 1); intros [= <- <-];
      exists []; cbn [all_results]; rewrite List.app_nil_r; reflexivity.
  - destruct (all_results l) as [|y ys] eqn:Eall.
    + intros [= <- <-]. exists (x :: page). reflexivity.
    + destruct (id_set (x :: page)) as [e|page_ids]; [intros [= <- <-]; exact I|].
      destruct (id_set (y :: ys)) as [e|existing_ids]; [intros [= <- <-]; exact I|].
      destruct (intersection page_ids existing_ids) as [|dup dups].
      * destruct ((0 <? length page_ids)%nat && (length (@nil value) =? length page_ids)%nat);
          intros [= <- <-]; cbn [all_results].
        -- exists []. rewrite List.app_nil_r. reflexivity.
        -- exists (x :: page). reflexivity.
      * intros [= <- <-]. cbn [all_results]. exists []. rewrite List.app_nil_r. reflexivity.
Qed.

Lemma loop_keeps (env : Env) (q : Models.QueryConfig.t) (L max_retries : Z) (fuel : nat) :
  forall (w w' : World) (l : Loop) (out : list record),
  loop env fuel q L max_retries w l = Some (Ok out, w') ->
  exists more, out = (all_results l ++ more)%list.
Proof.
  induction fuel as [|fuel IH]; intros w w' l out; [discriminate|].
  cbn [loop].
  destruct (turn env q L max_retries w l) as [o w1] eqn:Hturn.
  pose proof (turn_keeps env q L max_retries w w1 l o Hturn) as Hkeep.
  destruct o as [l'|l'|e].
  - intros H. destruct (IH _ _ _ _ H) as (more' & ->).
    destruct Hkeep as (more & ->). exists (more ++ more')%list. symmetry. apply List.app_assoc.
  - intros [= <- <-]. exact Hkeep.
  - discriminate.
Qed.

(** X8.  A fetch that resumes from a progress file never drops what the
    file holds: whatever the upstream answers, fails with or repeats, the
    list returned starts with the records of the progress file, in their
    order. *)
Theorem resumed_records_are_kept (env : Env) (fuel : nat) (w : World) (q : Models.QueryConfig.t)
    (max_retries off : Z) (saved out : list record) :
  DataCache.get (cache w) q = None ->
  progress_file w = Progress off saved ->
  fst <$> fetch_all_with_resume env fuel w q max_retries = Some (Ok out) ->
  exists more, out = (saved ++ more)%list.
Proof.
  intros Hget Hpf. unfold fetch_all_with_resume. rewrite Hget, Hpf.
  cbv beta iota zeta.
  destruct (loop env fuel q _ max_retries w _) as [[[e|res] w1]|] eqn:Hloop; cbn; try discriminate.
  intros [= <-]. destruct (loop_keeps _ _ _ _ _ _ _ _ _ Hloop) as (more & ->).
  exists more. reflexivity.
Qed.

Lemma resumed_records_are_kept_witness :
  exists more, Upstream.seven = (List.firstn 3 Upstream.seven ++ more)%list.
Proof.
  apply (resumed_records_are_kept Upstream.listing 10
           {| cache := DataCache.init; requests := 0; draws := 0; slept := [];
              progress_file := Progress 3 (List.firstn 3 Upstream.seven) |}
           Upstream.by_three 8 3 (List.firstn 3 Upstream.seven) Upstream.seven).
  - reflexivity.
  - reflexivity.
  - vm_compute. reflexivity.
Defined.



End FetchProps.

(** * Flattening of nested records *)
Module FlattenProps.

Import PyStr Flatten FlattenSpec.

(** Induction on a value and, inside it, on the values it holds. *)
Lemma value_nested_ind (P : value -> Prop) :
  P VNull -> (forall b, P (VBool b)) -> (forall z, P (VInt z)) -> (forall s, P (VStr s)) ->
  (forall l, List.Forall P l -> P (VList l)) ->
  (forall d, List.Forall (fun kv => P (snd kv)) d -> P (VDict d)) ->
  forall v, P v.
Proof.
  intros Hnull Hbool Hint Hstr Hlist Hdict.
  fix IH 1. intros [|b|z|s|l|d].
  - exact Hnull.
  - apply Hbool.
  - apply Hint.
  - apply Hstr.
  - apply Hlist.
    exact ((fix go (l : list value) : List.Forall P l :=
              match l with
              | [] => @List.Forall_nil _ P
              | x :: l' => @List.Forall_cons _ P x l' (IH x) (go l')
              end) l).
  - apply Hdict.
    exact ((fix go (d : list (string * value)) : List.Forall (fun kv => P (snd kv)) d :=
              match d with
              | [] => @List.Forall_nil _ (fun kv => P (snd kv))
              | kv :: d' => @List.Forall_cons _ (fun kv => P (snd kv)) kv d' (IH (snd kv)) (go d')
              end) d).
Qed.

Lemma flatten_value_items (d : record) (parent_key sep : string) :
  flatten_value (VDict d) parent_key sep = dict_ (items d parent_key sep).
Proof.
  cbn [flatten_value]. f_equal. unfold items.
  induction d as [|[k v] d IH]; [reflexivity|].
  cbn [List.flat_map fst snd]. rewrite <- IH. destruct v; reflexivity.
Qed.

(** *** [d[k] = v], [update], [del] on association lists *)

Lemma in_set {A : Type} (k k' : string) (v b : A) (d : list (string * A)) :
  In (k', b) (Py.set k v d) -> (k' = k /\ b = v) \/ In (k', b) d.
Proof.
  induction d as [|[k0 v0] d IH]; cbn [Py.set].
  - intros [[= <- <-]|[]]. left. split; reflexivity.
  - destruct (String.eqb k k0).
    + intros [[= <- <-]|H]; [left; split; reflexivity|right; right; exact H].
    + intros [H|H]; [right; left; exact H|].
      destruct (IH H) as [E|Hin]; [left; exact E|right; right; exact Hin].
Qed.

Lemma in_set_other {A : Type} (k k' : string) (v b : A) (d : list (string * A)) :
  k' <> k -> In (k', b) d -> In (k', b) (Py.set k v d).
Proof.
  intros Hne. induction d as [|[k0 v0] d IH]; cbn [Py.set]; [intros []|].
  destruct (String.eqb_spec k k0) as [->|Hk].
  - intros [[= -> ->]|H]; [congruence|right; exact H].
  - intros [H|H]; [left; exact H|right; exact (IH H)].
Qed.

Lemma in_set_same {A : Type} (k : string) (v : A) (d : list (string * A)) :
  In (k, v) (Py.set k v d).
Proof.
  induction d as [|[k0 v0] d IH]; cbn [Py.set]; [left; reflexivity|].
  destruct (String.eqb k k0); [left; reflexivity|right; exact IH].
Qed.

Lemma keys_set {A : Type} (k : string) (v : A) (d : list (string * A)) :
  List.map fst (Py.set k v d) =
  if Frame.mem k (List.map fst d) then List.map fst d else (List.map fst d ++ [k])%list.
Proof.
  induction d as [|[k0 v0] d IH]; cbn [Py.set List.map fst]; [reflexivity|].
  unfold Frame.mem in *. cbn [List.existsb].
  destruct (String.eqb_spec k k0) as [->|Hk]; cbn [orb List.map fst]; [reflexivity|].
  rewrite IH. destruct (List.existsb (String.eqb k) (List.map fst d)); reflexivity.
Qed.

Lemma NoDup_keys_set {A : Type} (k : string) (v : A) (d : list (string * A)) :
  List.NoDup (List.map fst d) -> List.NoDup (List.map fst (Py.set k v d)).
Proof.
  intros H. rewrite keys_set.
  destruct (Frame.mem k (List.map fst d)) eqn:E; [exact H|].
  apply PyProps.mem_false in E.
  apply List.NoDup_app; [exact H|constructor; [intros []|constructor]|].
  intros x Hx [<-|[]]. exact (E Hx).
Qed.

Lemma update_snoc {A : Type} (d o : list (string * A)) (kv : string * A) :
  update d (o ++ [kv]) = Py.set (fst kv) (snd kv) (update d o).
Proof. unfold update. rewrite List.fold_left_app. reflexivity. Qed.

Lemma in_update {A : Type} (k : string) (b : A) (d o : list (string * A)) :
  In (k, b) (update d o) -> In (k, b) d \/ In (k, b) o.
Proof.
  induction o as [|[k0 v0] o IH] using List.rev_ind; [intros H; left; exact H|].
  rewrite update_snoc. cbn [fst snd]. intros H.
  apply in_set in H as [[-> ->]|H].
  - right. apply in_or_app. right. left. reflexivity.
  - destruct (IH H) as [Hd|Ho]; [left; exact Hd|right; apply in_or_app; left; exact Ho].
Qed.

Lemma in_update_keep {A : Type} (k : string) (a : A) (d o : list (string * A)) :
  In (k, a) d -> exists b, In (k, b) (update d o) /\ (b = a \/ In (k, b) o).
Proof.
  intros Hd. induction o as [|[k0 v0] o IH] using List.rev_ind.
  - exists a. split; [exact Hd|left; reflexivity].
  - rewrite update_snoc. cbn [fst snd]. destruct IH as (b & Hb & Hor).
    destruct (String.eqb_spec k k0) as [->|Hne].
    + exists v0. split; [apply in_set_same|]. right. apply in_or_app. right. left. reflexivity.
    + exists b. split; [apply in_set_other; assumption|].
      destruct Hor as [->|Ho]; [left; reflexivity|right; apply in_or_app; left; exact Ho].
Qed.

Lemma NoDup_keys_update {A : Type} (d o : list (string * A)) :
  List.NoDup (List.map fst d) -> List.NoDup (List.map fst (update d o)).
Proof.
  intros H. induction o as [|kv o IH] using List.rev_ind; [exact H|].
  rewrite update_snoc. apply NoDup_keys_set. exact IH.
Qed.

Lemma NoDup_keys_dict {A : Type} (o : list (string * A)) : List.NoDup (List.map fst (dict_ o)).
Proof. apply NoDup_keys_update. constructor. Qed.

Lemma in_dict {A : Type} (k : string) (b : A) (o : list (string * A)) :
  In (k, b) (dict_ o) -> In (k, b) o.
Proof. intros H. apply in_update in H as [[]|H]. exact H. Qed.

Lemma in_remove {A : Type} (k k' : string) (b : A) (d : list (string * A)) :
  In (k', b) (Py.remove k d) -> In (k', b) d.
Proof.
  induction d as [|[k0 v0] d IH]; cbn [Py.remove]; [intros []|].
  destruct (String.eqb k k0); [intros H; right; exact H|].
  intros [H|H]; [left; exact H|right; exact (IH H)].
Qed.

Lemma in_remove_other {A : Type} (k k' : string) (b : A) (d : list (string * A)) :
  k' <> k -> In (k', b) d -> In (k', b) (Py.remove k d).
Proof.
  intros Hne. induction d as [|[k0 v0] d IH]; cbn [Py.remove]; [intros []|].
  destruct (String.eqb_spec k k0) as [->|Hk].
  - intros [[= -> ->]|H]; [congruence|exact H].
  - intros [H|H]; [left; exact H|right; exact (IH H)].
Qed.

Lemma keys_remove_sub {A : Type} (k x : string) (d : list (string * A)) :
  In x (List.map fst (Py.remove k d)) -> In x (List.map fst d).
Proof.
  induction d as [|[k0 v0] d IH]; cbn [Py.remove List.map fst]; [intros []|].
  destruct (String.eqb k k0); [intros H; right; exact H|].
  cbn [List.map fst]. intros [H|H]; [left; exact H|right; exact (IH H)].
Qed.

Lemma NoDup_keys_remove {A : Type} (k : string) (d : list (string * A)) :
  List.NoDup (List.map fst d) -> List.NoDup (List.map fst (Py.remove k d)).
Proof.
  induction d as [|[k0 v0] d IH]; cbn [Py.remove List.map fst]; [intros H; exact H|].
  intros H. apply List.NoDup_cons_iff in H as [Hn H].
  destruct (String.eqb k k0); [exact H|].
  cbn [List.map fst]. constructor; [|exact (IH H)].
  intros Hin. apply Hn. exact (keys_remove_sub _ _ _ Hin).
Qed.

Lemma removed_key_gone {A : Type} (k : string) (d : list (string * A)) :
  List.NoDup (List.map fst d) -> ~ In k (List.map fst (Py.remove k d)).
Proof.
  induction d as [|[k0 v0] d IH]; cbn [Py.remove List.map fst]; [intros _ []|].
  intros H. apply List.NoDup_cons_iff in H as [Hn H].
  destruct (String.eqb_spec k k0) as [->|Hk]; [exact Hn|].
  cbn [List.map fst]. intros [E|Hin]; [congruence|exact (IH H Hin)].
Qed.

Lemma get_in {A : Type} (k : string) (b : A) (d : list (string * A)) :
  In (k, b) d -> exists b', Py.get k d = Some b'.
Proof.
  induction d as [|[k0 v0] d IH]; [intros []|].
  cbn [Py.get]. destruct (String.eqb_spec k k0) as [->|Hne]; [intros _; exists v0; reflexivity|].
  intros [[= -> ->]|H]; [congruence|exact (IH H)].
Qed.

Lemma get_not_in {A : Type} (k : string) (d : list (string * A)) :
  ~ In k (List.map fst d) -> Py.get k d = None.
Proof. apply PyProps.get_None. Qed.

Lemma in_get {A : Type} (k : string) (b : A) (d : list (string * A)) :
  Py.get k d = Some b -> In (k, b) d.
Proof.
  induction d as [|[k0 v0] d IH]; [discriminate|].
  cbn [Py.get]. destruct (String.eqb_spec k k0) as [->|Hne].
  - intros [= ->]. left. reflexivity.
  - intros H. right. exact (IH H).
Qed.

(** *** [flatten_dict] *)

Lemma in_items (d : record) (parent_key sep : string) (k : string) (b : value) :
  In (k, b) (items d parent_key sep) ->
  exists k0 v0,
    In (k0, v0) d /\
    let new_key := if String.eqb parent_key "" then k0 else parent_key +:+ sep +:+ k0 in
    match v0 with
    | VDict _ => In (k, b) (flatten_value v0 new_key sep)
    | _ => k = new_key /\ b = v0
    end.
Proof.
  unfold items. intros H. apply List.in_flat_map in H as ([k0 v0] & Hin & H).
  exists k0, v0. split; [exact Hin|]. cbn [fst snd] in H. cbv zeta.
  destruct v0; try (destruct H as [[= <- <-]|[]]; split; reflexivity).
  exact H.
Qed.

Lemma flatten_value_flat (v : value) : forall parent_key sep, flat (flatten_value v parent_key sep).
Proof.
  induction v as [|b|z|s|l _|d IH] using value_nested_ind; intros parent_key sep;
    try (constructor).
  rewrite flatten_value_items. apply List.Forall_forall. intros [k b] Hin. cbn [snd].
  apply in_dict, in_items in Hin as (k0 & v0 & Hd & H). cbv zeta in H.
  rewrite List.Forall_forall in IH. specialize (IH _ Hd). cbn [snd] in IH.
  destruct v0; try (destruct H as [_ ->]; reflexivity).
  specialize (IH (if String.eqb parent_key "" then k0 else parent_key +:+ sep +:+ k0) sep).
  unfold flat in IH. rewrite List.Forall_forall in IH. exact (IH _ H).
Qed.

(** X10.  [flatten_dict] flattens at every depth: whatever the nesting of
    the input, no value of the result is a dictionary, and no key occurs
    twice. *)
Theorem flatten_dict_is_flat (d : record) (parent_key sep : string) :
  flat (flatten_dict d parent_key sep) /\
  List.NoDup (keys (flatten_dict d parent_key sep)).
Proof.
  split.
  - apply flatten_value_flat.
  - unfold flatten_dict, keys. rewrite flatten_value_items. apply NoDup_keys_dict.
Qed.

Lemma append_assoc (a b c : string) : (a +:+ b) +:+ c = a +:+ (b +:+ c).
Proof.
  induction a as [|x a IH]; [reflexivity|].
  change (String x ((a +:+ b) +:+ c) = String x (a +:+ (b +:+ c))). f_equal. exact IH.
Qed.

Lemma prefix_append (a b : string) : String.prefix a (a +:+ b) = true.
Proof.
  induction a as [|x a IH]; [destruct b; reflexivity|].
  change (String.prefix (String x a) (String x (a +:+ b)) = true). cbn [String.prefix].
  destruct (ascii_dec x x) as [_|Hne]; [exact IH|congruence].
Qed.

Lemma prefix_app_l (a b s : string) : String.prefix (a +:+ b) s = true -> String.prefix a s = true.
Proof.
  revert s. induction a as [|x a IH]; intros s; [destruct s; reflexivity|].
  change (String.prefix (String x (a +:+ b)) s = true -> String.prefix (String x a) s = true).
  destruct s as [|y s]; cbn [String.prefix]; [discriminate|].
  destruct (ascii_dec x y); [apply IH|discriminate].
Qed.

Lemma flatten_value_prefixed (v : value) : forall parent_key sep k b,
  parent_key <> "" ->
  In (k, b) (flatten_value v parent_key sep) ->
  Py.startswith (parent_key +:+ sep) k = true.
Proof.
  induction v as [|b0|z|s|l _|d IH] using value_nested_ind; intros parent_key sep k b Hp Hin;
    try (destruct Hin).
  rewrite flatten_value_items in Hin.
  apply in_dict, in_items in Hin as (k0 & v0 & Hd & H). cbv zeta in H.
  rewrite List.Forall_forall in IH. specialize (IH _ Hd). cbn [snd] in IH.
  apply String.eqb_neq in Hp. rewrite Hp in H. unfold Py.startswith.
  assert (Hleaf : String.prefix (parent_key +:+ sep) (parent_key +:+ sep +:+ k0) = true).
  { rewrite <- append_assoc. apply prefix_append. }
  destruct v0; try (destruct H as [-> _]; exact Hleaf).
  apply (prefix_app_l _ (k0 +:+ sep)).
  replace ((parent_key +:+ sep) +:+ k0 +:+ sep) with ((parent_key +:+ sep +:+ k0) +:+ sep)
    by (rewrite !append_assoc; reflexivity).
  apply (IH _ sep k b); [|exact H].
  destruct parent_key; [discriminate|discriminate].
Qed.

(** X11.  With a parent key, every key of the result of [flatten_dict]
    starts with that key and the separator: the keys made for a field of a
    record all read [field.]... *)
Theorem flatten_dict_keys_prefixed (d : record) (parent_key sep : string) :
  parent_key <> "" ->
  List.Forall (fun kv => Py.startswith (parent_key +:+ sep) (fst kv) = true)
    (flatten_dict d parent_key sep).
Proof.
  intros Hp. apply List.Forall_forall. intros [k b] Hin. cbn [fst].
  exact (flatten_value_prefixed (VDict d) parent_key sep k b Hp Hin).
Qed.

Lemma flatten_dict_keys_prefixed_witness :
  List.Forall (fun kv => Py.startswith ("component" +:+ ".") (fst kv) = true)
    (flatten_dict [("name", VStr "zlib"); ("version", VDict [("major", VInt 1); ("minor", VInt 3)])]
       "component" ".").
Proof.
  apply (flatten_dict_keys_prefixed
           [("name", VStr "zlib"); ("version", VDict [("major", VInt 1); ("minor", VInt 3)])]
           "component" ".").
  discriminate.
Defined.

Lemma set_fresh {A : Type} (k : string) (v : A) (d : list (string * A)) :
  ~ In k (List.map fst d) -> Py.set k v d = (d ++ [(k, v)])%list.
Proof.
  induction d as [|[k0 v0] d IH]; cbn [Py.set List.map fst app]; [reflexivity|].
  intros H. destruct (String.eqb_spec k k0) as [->|Hne].
  - exfalso. apply H. left. reflexivity.
  - rewrite IH; [reflexivity|]. intros Hin. apply H. right. exact Hin.
Qed.

Lemma update_fresh {A : Type} (o : list (string * A)) : forall d,
  List.NoDup (List.map fst (d ++ o)) -> update d o = (d ++ o)%list.
Proof.
  unfold update. induction o as [|[k v] o IH]; intros d H; cbn [List.fold_left fst snd].
  - rewrite List.app_nil_r. reflexivity.
  - assert (Hk : ~ In k (List.map fst d)).
    { rewrite List.map_app in H. cbn [List.map fst] in H.
      apply List.NoDup_remove_2 in H. intros Hin. apply H. apply in_or_app. left. exact Hin. }
    rewrite (set_fresh k v d Hk). rewrite IH; rewrite <- List.app_assoc; [reflexivity|exact H].
Qed.

(** A dictionary without nested dictionaries is left as it is. *)
Lemma flatten_dict_of_flat (r : record) (sep : string) :
  flat r -> List.NoDup (keys r) -> flatten_dict r "" sep = r.
Proof.
  intros Hflat Hnd. unfold flatten_dict. rewrite flatten_value_items.
  assert (Hitems : items r "" sep = r).
  { unfold items. clear Hnd. induction Hflat as [|[k v] r Hv Hflat IH]; [reflexivity|].
    cbn [List.flat_map]. rewrite IH. cbn [fst snd String.eqb] in Hv |- *.
    destruct v; try reflexivity. discriminate. }
  rewrite Hitems. unfold dict_. apply (update_fresh r []). exact Hnd.
Qed.

(** X12.  Flattening is idempotent: flattening the result of
    [flatten_dict] once more changes nothing. *)
Theorem flatten_dict_idempotent (d : record) (parent_key sep : string) :
  flatten_dict (flatten_dict d parent_key sep) "" sep = flatten_dict d parent_key sep.
Proof.
  apply flatten_dict_of_flat.
  - apply flatten_value_flat.
  - unfold flatten_dict, keys. rewrite flatten_value_items. apply NoDup_keys_dict.
Qed.

Lemma NoDup_keys_unique {A : Type} (k : string) (a b : A) (r : list (string * A)) :
  List.NoDup (List.map fst r) -> In (k, a) r -> In (k, b) r -> a = b.
Proof.
  induction r as [|[k1 v1] r IH]; [intros _ []|].
  cbn [List.map fst]. intros Hr Ha Hb. apply List.NoDup_cons_iff in Hr as [Hn Hr].
  assert (Hfresh : forall x, ~ In (k1, x) r).
  { intros x Hx. apply Hn. apply in_map_iff. exists (k1, x). split; [reflexivity|exact Hx]. }
  destruct Ha as [Ea|Ha], Hb as [Eb|Hb].
  - congruence.
  - injection Ea as -> ->. destruct (Hfresh _ Hb).
  - injection Eb as -> ->. destruct (Hfresh _ Ha).
  - exact (IH Hr Ha Hb).
Qed.

(** *** [flatten_records] *)

Lemma pending_start (rec : record) : List.NoDup (keys rec) -> pending rec rec.
Proof.
  intros Hnd. split; [exact Hnd|]. split.
  - intros k v Hin. exists v. split; [exact Hin|left; reflexivity].
  - intros k b Hin _. unfold keys. apply in_map_iff. exists (k, b). split; [reflexivity|exact Hin].
Qed.

Lemma pending_step (kv : string * value) (todo r : record) :
  List.NoDup (keys (kv :: todo)) ->
  pending (kv :: todo) r ->
  exists r', flatten_item (Ok r) kv = Ok r' /\ pending todo r'.
Proof.
  destruct kv as [k v]. unfold keys. cbn [List.map fst]. intros Hnd (Hr & Hkeep & Hdict).
  apply List.NoDup_cons_iff in Hnd as [Hk Hnd].
  assert (Hrest : forall k' v', In (k', v') todo -> k' <> k).
  { intros k' v' Hin ->. apply Hk. apply in_map_iff. exists (k, v'). split; [reflexivity|exact Hin]. }
  assert (Hdict' : forall k' b, In (k', b) r -> is_dict b = true -> k = k' \/ In k' (keys todo)).
  { intros k' b Hin Hd. exact (Hdict k' b Hin Hd). }
  clear Hdict. unfold flatten_item. cbn [fst snd].
  destruct (is_dict v) eqn:Ev.
  - destruct v as [| | | | |d]; try discriminate.
    set (fl := flatten_dict d k ".").
    destruct (Hkeep k (VDict d) (or_introl eq_refl)) as (b & Hb & _).
    destruct (in_update_keep k b r fl Hb) as (b' & Hb' & _).
    destruct (get_in k b' _ Hb') as (b'' & Hget).
    unfold del_. rewrite Hget. eexists. split; [reflexivity|].
    pose proof (NoDup_keys_update r fl Hr) as Hu.
    split; [|split].
    + apply NoDup_keys_remove. exact Hu.
    + intros k' v' Hin. pose proof (Hrest _ _ Hin) as Hne.
      destruct (Hkeep k' v' (or_intror Hin)) as (a & Ha & Hor).
      destruct (in_update_keep k' a r fl Ha) as (a' & Ha' & Hor').
      exists a'. split; [apply in_remove_other; assumption|].
      destruct Hor' as [->|Hfl]; [exact Hor|].
      right. pose proof (flatten_value_flat (VDict d) k ".") as Hflat.
      unfold flat in Hflat. rewrite List.Forall_forall in Hflat. exact (Hflat _ Hfl).
    + intros k' b0 Hin Hd.
      assert (Hk' : k' <> k).
      { intros ->. apply (removed_key_gone k _ Hu). apply in_map_iff.
        exists (k, b0). split; [reflexivity|exact Hin]. }
      apply in_remove, in_update in Hin as [Hin|Hin].
      * destruct (Hdict' _ _ Hin Hd) as [E|H]; [congruence|exact H].
      * pose proof (flatten_value_flat (VDict d) k ".") as Hflat.
        unfold flat in Hflat. rewrite List.Forall_forall in Hflat.
        specialize (Hflat _ Hin). cbn [snd] in Hflat. congruence.
  - exists r. split; [destruct v; try reflexivity; discriminate|].
    split; [exact Hr|]. split.
    + intros k' v' Hin. exact (Hkeep k' v' (or_intror Hin)).
    + intros k' b0 Hin Hd. destruct (Hdict' _ _ Hin Hd) as [<-|H]; [|exact H].
      exfalso. destruct (Hkeep k v (or_introl eq_refl)) as (b & Hb & Hor).
      assert (b = b0) by exact (NoDup_keys_unique k b b0 r Hr Hb Hin).
      subst b0. destruct Hor as [->|Hb0]; congruence.
Qed.

Lemma pending_loop (todo : record) : forall r,
  List.NoDup (keys todo) -> pending todo r ->
  exists r', List.fold_left flatten_item todo (Ok r) = Ok r' /\ flat r'.
Proof.
  induction todo as [|kv todo IH]; intros r Hnd Hp.
  - exists r. split; [reflexivity|]. destruct Hp as (_ & _ & Hdict).
    apply List.Forall_forall. intros [k b] Hin. cbn [snd].
    destruct (is_dict b) eqn:E; [|reflexivity]. destruct (Hdict _ _ Hin E).
  - destruct (pending_step kv todo r Hnd Hp) as (r1 & Hstep & Hp1).
    cbn [List.fold_left]. rewrite Hstep. apply IH; [|exact Hp1].
    unfold keys in *. cbn [List.map] in Hnd. apply List.NoDup_cons_iff in Hnd as [_ Hnd]. exact Hnd.
Qed.

(** X13.  Without a list of fields (or with an empty one), [flatten_records]
    raises nothing and returns one record for each record given, in order,
    none of which holds a dictionary any more. *)
Theorem flatten_records_all_fields (records : list record) (fields : option (list string)) :
  fields = None \/ fields = Some [] ->
  List.Forall (fun rec => List.NoDup (keys rec)) records ->
  exists out,
    flatten_records records fields = Ok out /\
    length out = length records /\
    List.Forall flat out.
Proof.
  intros Hf Hall.
  assert (Hrec : forall rec, List.NoDup (keys rec) ->
            exists r', flatten_record fields rec = Ok r' /\ flat r').
  { intros rec Hnd. destruct Hf as [-> | ->]; cbn [flatten_record];
      apply pending_loop; try exact Hnd; apply pending_start; exact Hnd. }
  induction Hall as [|rec records Hnd Hall IH].
  - exists []. repeat split. constructor.
  - destruct (Hrec rec Hnd) as (r' & Hr' & Hflat).
    destruct IH as (out & Hout & Hlen & Hflats).
    exists (r' :: out). cbn [flatten_records]. rewrite Hr', Hout.
    split; [reflexivity|]. split; [cbn [length]; rewrite Hlen; reflexivity|].
    constructor; assumption.
Qed.

Lemma flatten_records_all_fields_witness :
  exists out,
    flatten_records
      [[("id", VInt 1); ("component", VDict [("name", VStr "zlib"); ("version", VDict [("major", VInt 1)])])];
       [("id", VInt 2); ("component", VNull)]] None = Ok out /\
    length out = 2%nat /\
    List.Forall flat out.
Proof.
  apply (flatten_records_all_fields
           [[("id", VInt 1); ("component", VDict [("name", VStr "zlib"); ("version", VDict [("major", VInt 1)])])];
            [("id", VInt 2); ("component", VNull)]] None).
  - left. reflexivity.
  - repeat constructor; cbn [In]; intros H; repeat destruct H as [H|H]; try discriminate; exact H.
Defined.

Lemma prefix_length (a s : string) :
  String.prefix a s = true -> (String.length a <= String.length s)%nat.
Proof.
  revert s. induction a as [|x a IH]; intros s; [cbn; lia|].
  destruct s as [|y s]; cbn [String.prefix String.length]; [discriminate|].
  destruct (ascii_dec x y); [|discriminate]. intros H. apply IH in H. lia.
Qed.

Lemma append_cons_length (a b : string) :
  String.length (a +:+ b) = (String.length a + String.length b)%nat.
Proof.
  induction a as [|x a IH]; [reflexivity|].
  change (S (String.length (a +:+ b)) = S (String.length a + String.length b)).
  rewrite IH. reflexivity.
Qed.

Lemma keys_update_sub {A : Type} (x : string) (d o : list (string * A)) :
  In x (List.map fst (update d o)) -> In x (List.map fst d) \/ In x (List.map fst o).
Proof.
  intros H. apply in_map_iff in H as ([k b] & <- & H). cbn [fst].
  apply in_update in H as [H|H]; [left|right]; apply in_map_iff; exists (k, b); split;
    try reflexivity; exact H.
Qed.

Lemma fold_raised (rec : record) (e : exn) (fields : list string) :
  List.fold_left (flatten_field rec) fields (Raise e) = Raise e.
Proof. induction fields as [|f fields IH]; [reflexivity|exact IH]. Qed.

(** A field that is a dictionary cannot be flattened twice: the second
    [del] finds the key gone. *)
Lemma flatten_record_repeated (rec : record) (field : string) (fields : list string) (d : record) :
  List.NoDup (keys rec) ->
  field <> "" ->
  Py.get field rec = Some (VDict d) ->
  flatten_record (Some (field :: field :: fields)) rec = Raise (KeyError field).
Proof.
  intros Hnd Hf Hget. cbn [flatten_record List.fold_left].
  set (fl := flatten_dict d field ".").
  assert (H1 : flatten_field rec (Ok rec) field = Ok (Py.remove field (update rec fl))).
  { unfold flatten_field. rewrite Hget. fold fl. unfold del_.
    destruct (in_update_keep field (VDict d) rec fl (in_get _ _ _ Hget)) as (b & Hb & _).
    destruct (get_in field b _ Hb) as (b' & ->). reflexivity. }
  rewrite H1.
  assert (H2 : flatten_field rec (Ok (Py.remove field (update rec fl))) field = Raise (KeyError field)).
  { unfold flatten_field. rewrite Hget. fold fl. unfold del_.
    rewrite get_not_in; [reflexivity|].
    intros Hin. apply keys_update_sub in Hin as [Hin|Hin].
    - exact (removed_key_gone field _ (NoDup_keys_update rec fl Hnd) Hin).
    - apply in_map_iff in Hin as ([k b] & Hk & Hin). cbn [fst] in Hk. subst k.
      pose proof (flatten_value_prefixed (VDict d) field "." field b Hf Hin) as Hp.
      apply prefix_length in Hp. rewrite append_cons_length in Hp. cbn in Hp. lia. }
  rewrite H2. apply fold_raised.
Qed.

(** X14.  A field named twice in a row in [fields_to_flatten] makes
    [flatten_records] raise: as soon as one record holds a dictionary under
    that field, the second pass deletes a key that the first pass has
    already deleted, and no list is returned. *)
Theorem flatten_records_repeated_field (records : list record) (rec : record)
    (field : string) (fields : list string) (d : record) :
  In rec records ->
  List.NoDup (keys rec) ->
  field <> "" ->
  Py.get field rec = Some (VDict d) ->
  exists e, flatten_records records (Some (field :: field :: fields)) = Raise e.
Proof.
  intros Hin Hnd Hf Hget.
  induction records as [|r records IH]; [destruct Hin|].
  cbn [flatten_records].
  destruct (flatten_record (Some (field :: field :: fields)) r) as [e|r'] eqn:Hr.
  - exists e. reflexivity.
  - destruct Hin as [->|Hin].
    + rewrite (flatten_record_repeated rec field fields d Hnd Hf Hget) in Hr. discriminate.
    + destruct (IH Hin) as (e & ->). exists e. reflexivity.
Qed.

Lemma flatten_records_repeated_field_witness :
  exists e,
    flatten_records
      [[("id", VInt 2); ("component", VNull)];
       [("id", VInt 1); ("component", VDict [("name", VStr "zlib")])]]
      (Some ["component"; "component"; "project"]) = Raise e.
Proof.
  apply (flatten_records_repeated_field
           [[("id", VInt 2); ("component", VNull)];
            [("id", VInt 1); ("component", VDict [("name", VStr "zlib")])]]
           [("id", VInt 1); ("component", VDict [("name", VStr "zlib")])]
           "component" ["project"] [("name", VStr "zlib")]).
  - right. left. reflexivity.
  - repeat constructor; cbn [In]; intros H; repeat destruct H as [H|H]; try discriminate; exact H.
  - discriminate.
  - reflexivity.
Defined.

End FlattenProps.

(** * More on the transform steps *)
Module StepProps.

Import Frame DataTransformer.

Lemma mem_filter_out (c : string) (l : list string) :
  mem c (List.filter (fun c' => negb (String.eqb c c')) l) = false.
Proof.
  apply PyProps.mem_false. intros H. apply List.filter_In in H as [_ H].
  rewrite String.eqb_refl in H. discriminate.
Qed.

(** X15.  Whatever the steps do, a frame that [transform] returns has no
    column named [i_d]: the final clean-up drops it when there is a
    [finding_count] column and renames it to [finding_count] otherwise. *)
Theorem transform_output_has_no_i_d (pd : Pandas) (rest : Rest) (data : list record)
    (transforms : list Models.Transform.t) (additional_data : option additional)
    (ev : list event) (out : DataFrame) :
  transform pd rest data transforms additional_data = (ev, Ok out) ->
  mem "i_d" (columns out) = false.
Proof.
  unfold transform. destruct data as [|r data]; [intros [= _ <-]; reflexivity|].
  destruct (apply_all pd rest 0 (of_records (r :: data)) transforms additional_data) as [ev' [e|df]];
    [discriminate|].
  intros [= _ H]. unfold cleanup in H.
  destruct (mem "i_d" (columns df)) eqn:Hid; [|injection H as <-; exact Hid].
  destruct (mem "finding_count" (columns df)) eqn:Hfc.
  - unfold drop in H. rewrite Hid in H. injection H as <-. cbn [columns]. apply mem_filter_out.
  - injection H as <-. unfold rename. cbn [columns]. apply PyProps.mem_false.
    intros Hin. apply in_map_iff in Hin as (c & Hc & _). cbn [Py.get] in Hc.
    destruct (String.eqb c "i_d") eqn:E; [discriminate|].
    apply String.eqb_neq in E. exact (E Hc).
Qed.

Lemma transform_output_has_no_i_d_witness :
  mem "i_d" ["severity"; "finding_count"] = false.
Proof.
  apply (transform_output_has_no_i_d Reference.pandas Reference.rest
           [[("severity", VStr "high"); ("i_d", VInt 3)]; [("severity", VStr "low"); ("i_d", VInt 1)]]
           [TransformExamples.sort_step ["i_d"] true] None
           [LogApplying 1]
           {| columns := ["severity"; "finding_count"];
              rows := [[("severity", VStr "low"); ("finding_count", VInt 1)];
                       [("severity", VStr "high"); ("finding_count", VInt 3)]] |}).
  vm_compute. reflexivity.
Defined.





(** X17.  Renaming a column and renaming it back gives the frame again:
    on a frame whose rows have exactly its columns, with a column [a] and
    no column [b], the step [a -> b] followed by the step [b -> a] returns
    the frame the first step was given. *)
Theorem rename_round_trip (df : DataFrame) (a b : string) :
  SortSpec.well_formed df ->
  In a (columns df) ->
  ~ In b (columns df) ->
  exists mid,
    _apply_rename df {| Models.RenameTransform.columns := [(a, b)] |} = Ok mid /\
    In b (columns mid) /\
    (a <> b -> ~ In a (columns mid)) /\
    _apply_rename mid {| Models.RenameTransform.columns := [(b, a)] |} = Ok df.
Proof.
  intros Hwf Ha Hb.
  set (new := fun c : string => match Py.get c [(a, b)] with Some c' => c' | None => c end).
  set (back := fun c : string => match Py.get c [(b, a)] with Some c' => c' | None => c end).
  assert (Hnew : forall c, new c = if String.eqb c a then b else c).
  { intros c. unfold new. cbn [Py.get]. destruct (String.eqb c a); reflexivity. }
  assert (Hback : forall c, In c (columns df) -> back (new c) = c).
  { intros c Hc. rewrite Hnew. unfold back. cbn [Py.get].
    destruct (String.eqb c a) eqn:Eca.
    - rewrite String.eqb_refl. apply String.eqb_eq in Eca. congruence.
    - destruct (String.eqb c b) eqn:Ecb; [|reflexivity].
      apply String.eqb_eq in Ecb. subst c. destruct (Hb Hc). }
  assert (Hmid : In b (List.map new (columns df))).
  { apply in_map_iff. exists a. split; [|exact Ha]. rewrite Hnew, String.eqb_refl. reflexivity. }
  exists (rename [(a, b)] df). split; [|split; [|split]].
  - unfold _apply_rename. cbn [Models.RenameTransform.columns List.filter fst].
    rewrite (proj2 (PyProps.mem_In a (columns df)) Ha). reflexivity.
  - exact Hmid.
  - intros Hab Hin. cbn [rename columns] in Hin. fold new in Hin.
    apply in_map_iff in Hin as (c & Hc & Hcin). rewrite Hnew in Hc.
    destruct (String.eqb c a) eqn:Eca; [congruence|].
    apply String.eqb_neq in Eca. congruence.
  - unfold _apply_rename. cbn [Models.RenameTransform.columns List.filter fst].
    cbn [rename columns]. fold new.
    rewrite (proj2 (PyProps.mem_In b (List.map new (columns df))) Hmid).
    unfold rename. cbn [columns rows]. fold new back.
    destruct df as [cols rws]. cbn [columns rows] in *. f_equal. f_equal.
    + rewrite List.map_map. rewrite <- (List.map_id cols) at 2.
      apply List.map_ext_in. exact Hback.
    + rewrite List.map_map. rewrite <- (List.map_id rws) at 2.
      apply List.map_ext_in. intros r Hr. rewrite List.map_map.
      rewrite <- (List.map_id r) at 2. apply List.map_ext_in. intros [k v] Hkv. cbn [fst snd].
      assert (Hk : In k cols).
      { pose proof (Hwf r Hr) as E. cbn [columns] in E. rewrite <- E.
        apply in_map_iff. exists (k, v). split; [reflexivity|exact Hkv]. }
      f_equal. exact (Hback k Hk).
Qed.

Lemma rename_round_trip_witness :
  exists mid,
    _apply_rename (of_records TransformExamples.findings)
      {| Models.RenameTransform.columns := [("n", "count")] |} = Ok mid /\
    In "count" (columns mid) /\
    ("n" <> "count" -> ~ In "n" (columns mid)) /\
    _apply_rename mid {| Models.RenameTransform.columns := [("count", "n")] |} =
      Ok (of_records TransformExamples.findings).
Proof.
  apply (rename_round_trip (of_records TransformExamples.findings) "n" "count").
  - intros r Hr. vm_compute in Hr. repeat destruct Hr as [<-|Hr]; try reflexivity. destruct Hr.
  - vm_compute. auto.
  - vm_compute. intros H. repeat destruct H as [H|H]; try discriminate; exact H.
Defined.

End StepProps.

(** * Facts on strings *)
Module StrProps.

Import PyStr.

Lemma append_cons (c : ascii) (a b : string) : String c a +:+ b = String c (a +:+ b).
Proof. reflexivity. Qed.

Lemma all_chars_app (p : ascii -> bool) (a b : string) :
  all_chars p (a +:+ b) = all_chars p a && all_chars p b.
Proof.
  induction a as [|c a IH]; [reflexivity|].
  rewrite append_cons. cbn [all_chars]. rewrite IH. apply andb_assoc.
Qed.

Lemma all_chars_prefix (p : ascii -> bool) (a : string) : forall s,
  String.prefix a s = true -> all_chars p s = true -> all_chars p a = true.
Proof.
  induction a as [|x a IH]; intros s; [reflexivity|].
  destruct s as [|y s]; cbn [String.prefix all_chars]; [discriminate|].
  destruct (ascii_dec x y) as [->|]; [|discriminate].
  intros Hp H. apply andb_true_iff in H as [Hy Hs]. rewrite Hy. exact (IH s Hp Hs).
Qed.

Lemma all_chars_contains (p : ascii -> bool) (sub s : string) :
  Py.contains sub s = true -> all_chars p s = true -> all_chars p sub = true.
Proof.
  induction s as [|c s IH]; cbn [Py.contains all_chars]; intros H Hs.
  - rewrite orb_false_r in H. exact (all_chars_prefix p sub "" H eq_refl).
  - apply andb_true_iff in Hs as [Hc Hs]. apply orb_true_iff in H as [H|H].
    + apply (all_chars_prefix p sub (String c s) H). cbn [all_chars]. rewrite Hc. exact Hs.
    + exact (IH H Hs).
Qed.

Lemma prefix_app_r (a : string) : forall s b,
  String.prefix a s = true -> String.prefix a (s +:+ b) = true.
Proof.
  induction a as [|x a IH]; intros s b; [destruct (s +:+ b); reflexivity|].
  destruct s as [|y s]; cbn [String.prefix]; [discriminate|].
  rewrite append_cons. cbn [String.prefix].
  destruct (ascii_dec x y); [apply IH|discriminate].
Qed.

Lemma contains_app_l (sub a b : string) :
  Py.contains sub a = true -> Py.contains sub (a +:+ b) = true.
Proof.
  induction a as [|c a IH]; cbn [Py.contains].
  - rewrite orb_false_r. intros H. destruct sub; [|discriminate].
    destruct b; reflexivity.
  - rewrite append_cons. cbn [Py.contains]. intros H. apply orb_true_iff in H as [H|H].
    + apply orb_true_iff. left. exact (prefix_app_r sub (String c a) b H).
    + apply orb_true_iff. right. exact (IH H).
Qed.

Lemma contains_app_r (sub a b : string) :
  Py.contains sub b = true -> Py.contains sub (a +:+ b) = true.
Proof.
  intros H. induction a as [|c a IH]; [exact H|].
  rewrite append_cons. cbn [Py.contains]. rewrite IH. apply orb_true_r.
Qed.

Lemma all_chars_lstrip (p : ascii -> bool) (s : string) :
  (forall c, Py.is_space c = true -> p c = true) ->
  all_chars p (Py.lstrip s) = true -> all_chars p s = true.
Proof.
  intros Hsp. induction s as [|c s IH]; [reflexivity|].
  cbn [Py.lstrip]. destruct (Py.is_space c) eqn:E; [|intros H; exact H].
  intros H. cbn [all_chars]. rewrite (Hsp c E), (IH H). reflexivity.
Qed.

Lemma all_chars_rstrip (p : ascii -> bool) (s : string) :
  (forall c, Py.is_space c = true -> p c = true) ->
  all_chars p (Py.rstrip s) = true -> all_chars p s = true.
Proof.
  intros Hsp. induction s as [|c s IH]; [reflexivity|].
  cbn [Py.rstrip]. destruct (Py.rstrip s) as [|d r].
  - destruct (Py.is_space c) eqn:E; cbn [all_chars]; intros H.
    + rewrite (Hsp c E), IH; reflexivity.
    + apply andb_true_iff in H as [-> _]. rewrite IH; reflexivity.
  - intros H. cbn [all_chars] in H |- *. apply andb_true_iff in H as [-> H]. exact (IH H).
Qed.

Lemma all_chars_strip (p : ascii -> bool) (s : string) :
  (forall c, Py.is_space c = true -> p c = true) ->
  all_chars p (Py.strip s) = true -> all_chars p s = true.
Proof.
  intros Hsp H. apply (all_chars_lstrip p s Hsp), (all_chars_rstrip p _ Hsp). exact H.
Qed.

Lemma digits_chars (s : string) : forall acc count after r,
  digits acc count after s = Some r -> all_chars int_char s = true.
Proof.
  induction s as [|c s IH]; intros acc count after r; [reflexivity|].
  cbn [digits all_chars]. unfold int_char at 1.
  destruct (is_digit c); [rewrite orb_true_r; cbn [orb andb]; apply IH|].
  destruct (Ascii.eqb c underscore); cbn [andb orb]; [|discriminate].
  destruct after; cbn [negb]; [discriminate|]. rewrite orb_true_r. cbn [andb]. apply IH.
Qed.

(** What [int] accepts is made of white space, digits, signs and
    underscores. *)
Lemma int_chars (s : string) (z : Z) : int_ s = Some z -> all_chars int_char s = true.
Proof.
  unfold int_. intros H. apply all_chars_strip.
  { intros c Hc. unfold int_char. rewrite Hc. reflexivity. }
  destruct (Py.strip s) as [|c r]; [discriminate|].
  assert (Hbody : forall body, match body with
                  | String c0 _ =>
                      if is_digit c0
                      then match digits 0 0 false body with
                           | Some (z0, n) => if (int_max_str_digits <? n)%nat then None else Some z0
                           | None => None
                           end
                      else None
                  | EmptyString => None
                  end <> None -> all_chars int_char body = true).
  { intros [|c0 b]; [congruence|]. destruct (is_digit c0); [|congruence].
    destruct (digits 0 0 false (String c0 b)) as [[z0 n]|] eqn:E; [|congruence].
    intros _. exact (digits_chars _ _ _ _ _ E). }
  cbn [all_chars].
  destruct (Ascii.eqb c "+") eqn:Eplus.
  - replace (int_char c) with true
      by (unfold int_char; rewrite Eplus, orb_true_r; reflexivity).
    cbn [andb]. apply Hbody.
    destruct r as [|c0 b]; [discriminate|]. destruct (is_digit c0); [|discriminate].
    destruct (digits 0 0 false (String c0 b)) as [[z0 n]|]; [|discriminate].
    destruct (int_max_str_digits <? n)%nat; [discriminate|congruence].
  - destruct (Ascii.eqb c "-") eqn:Eminus.
    + replace (int_char c) with true
        by (unfold int_char; rewrite Eminus, orb_true_r; reflexivity).
      cbn [andb]. apply Hbody.
      destruct r as [|c0 b]; [discriminate|]. destruct (is_digit c0); [|discriminate].
      destruct (digits 0 0 false (String c0 b)) as [[z0 n]|]; [|discriminate].
      destruct (int_max_str_digits <? n)%nat; [discriminate|congruence].
    + change (all_chars int_char (String c r) = true). apply Hbody.
      destruct (is_digit c); [|discriminate].
      destruct (digits 0 0 false (String c r)) as [[z0 n]|]; [|discriminate].
      destruct (int_max_str_digits <? n)%nat; [discriminate|congruence].
Qed.

Lemma int_none_of_contains (sub s : string) :
  Py.contains sub s = true -> all_chars int_char sub = false -> int_ s = None.
Proof.
  intros Hc Hsub. destruct (int_ s) as [z|] eqn:E; [|reflexivity].
  rewrite (all_chars_contains int_char sub s Hc (int_chars s z E)) in Hsub. discriminate.
Qed.

(** *** [replace] *)

(** Characters other than [o]. *)
Lemma not_first_no_prefix (o c : ascii) (old' s : string) :
  Ascii.eqb c o = false -> String.prefix (String o old') (String c s) = false.
Proof.
  intros H. cbn [String.prefix]. destruct (ascii_dec o c) as [->|]; [|reflexivity].
  rewrite Ascii.eqb_refl in H. discriminate.
Qed.

Lemma replace_skip (o : ascii) (old' new a b : string) :
  all_chars (fun c => negb (Ascii.eqb c o)) a = true ->
  replace_from (String o old') new 0 (a +:+ b) = a +:+ replace_from (String o old') new 0 b.
Proof.
  induction a as [|c a IH]; [reflexivity|].
  cbn [all_chars]. intros H. apply andb_true_iff in H as [Hc Ha].
  apply negb_true_iff in Hc.
  rewrite !append_cons. cbn [replace_from].
  rewrite (not_first_no_prefix o c old' (a +:+ b) Hc), (IH Ha). reflexivity.
Qed.

Lemma replace_pass (old new : string) (a : string) : forall b,
  replace_from old new (String.length a) (a +:+ b) = replace_from old new 0 b.
Proof.
  induction a as [|c a IH]; intros b; [reflexivity|].
  rewrite append_cons. cbn [String.length replace_from]. apply IH.
Qed.

Lemma replace_hit (o : ascii) (old' new b : string) :
  replace_from (String o old') new 0 (String o old' +:+ b) =
  new +:+ replace_from (String o old') new 0 b.
Proof.
  rewrite append_cons. cbn [replace_from].
  change (String.prefix (String o old') (String o (old' +:+ b)))
    with (String.prefix (String o old') (String o old' +:+ b)).
  rewrite FlattenProps.prefix_append.
  cbn [String.length]. rewrite Nat.sub_succ, Nat.sub_0_r. rewrite replace_pass. reflexivity.
Qed.

Lemma append_nil_r (a : string) : a +:+ "" = a.
Proof. induction a as [|c a IH]; [reflexivity|]. rewrite append_cons, IH. reflexivity. Qed.

Lemma replace_none (o : ascii) (old' new a : string) :
  all_chars (fun c => negb (Ascii.eqb c o)) a = true ->
  replace_from (String o old') new 0 a = a.
Proof.
  intros H. rewrite <- (append_nil_r a) at 1. rewrite (replace_skip o old' new a "" H).
  apply append_nil_r.
Qed.

(** *** [strip], [lower], slices *)

Lemma rstrip_app (a b : string) : Py.rstrip b <> "" -> Py.rstrip (a +:+ b) = a +:+ Py.rstrip b.
Proof.
  intros Hb. induction a as [|c a IH]; [reflexivity|].
  rewrite !append_cons. cbn [Py.rstrip]. rewrite IH.
  destruct (a +:+ Py.rstrip b) as [|d r] eqn:E; [|reflexivity].
  destruct a; [|discriminate]. destruct (Hb E).
Qed.

Lemma rstrip_idem (s : string) : Py.rstrip (Py.rstrip s) = Py.rstrip s.
Proof.
  induction s as [|c s IH]; [reflexivity|].
  cbn [Py.rstrip]. destruct (Py.rstrip s) as [|d r] eqn:E.
  - destruct (Py.is_space c) eqn:Ec; [reflexivity|]. cbn [Py.rstrip]. rewrite Ec. reflexivity.
  - cbn [Py.rstrip]. cbn [Py.rstrip] in IH. rewrite IH. reflexivity.
Qed.

Lemma lstrip_head (s : string) :
  Py.lstrip s = "" \/ exists c r, Py.lstrip s = String c r /\ Py.is_space c = false.
Proof.
  induction s as [|c s IH]; [left; reflexivity|].
  cbn [Py.lstrip]. destruct (Py.is_space c) eqn:E; [exact IH|].
  right. exists c, s. split; [reflexivity|exact E].
Qed.

Lemma rstrip_head (c : ascii) (s : string) :
  Py.is_space c = false -> exists r, Py.rstrip (String c s) = String c r.
Proof.
  intros E. cbn [Py.rstrip]. destruct (Py.rstrip s) as [|d r].
  - rewrite E. exists "". reflexivity.
  - exists (String d r). reflexivity.
Qed.

Lemma strip_idem (s : string) : Py.strip (Py.strip s) = Py.strip s.
Proof.
  unfold Py.strip. destruct (lstrip_head s) as [->|(c & r & -> & Hc)]; [reflexivity|].
  destruct (rstrip_head c r Hc) as (r' & E).
  rewrite E at 1. cbn [Py.lstrip]. rewrite Hc. rewrite <- E. apply rstrip_idem.
Qed.

Lemma lower_app (a b : string) : lower (a +:+ b) = lower a +:+ lower b.
Proof.
  induction a as [|c a IH]; [reflexivity|].
  rewrite append_cons. cbn [lower]. rewrite IH. reflexivity.
Qed.

Lemma substring_all (s : string) : String.substring 0 (String.length s) s = s.
Proof. induction s as [|c s IH]; [reflexivity|]. cbn [String.length String.substring]. rewrite IH. reflexivity. Qed.

Lemma substring_app_tail (a b : string) :
  String.substring (String.length a) (String.length b) (a +:+ b) = b.
Proof.
  induction a as [|c a IH]; [apply substring_all|].
  rewrite append_cons. cbn [String.length String.substring]. exact IH.
Qed.

Lemma substring_app_head (a b : string) :
  String.substring 0 (String.length a) (a +:+ b) = a.
Proof.
  induction a as [|c a IH]; [destruct b; reflexivity|].
  rewrite append_cons. cbn [String.length String.substring]. rewrite IH. reflexivity.
Qed.

Lemma length_app (a b : string) :
  String.length (a +:+ b) = (String.length a + String.length b)%nat.
Proof.
  induction a as [|c a IH]; [reflexivity|].
  rewrite append_cons. cbn [String.length]. rewrite IH. reflexivity.
Qed.

Lemma drop_app (a b : string) : Py.drop (String.length a) (a +:+ b) = b.
Proof.
  unfold Py.drop. rewrite length_app.
  replace (String.length a + String.length b - String.length a)%nat with (String.length b) by lia.
  apply substring_app_tail.
Qed.

Lemma after_first_hit (o : ascii) (sep' b : string) :
  Py.after_first (String o sep') (String o sep' +:+ b) = Some b.
Proof.
  rewrite append_cons. cbn [Py.after_first].
  change (String o (sep' +:+ b)) with (String o sep' +:+ b).
  rewrite FlattenProps.prefix_append, drop_app. reflexivity.
Qed.

Lemma after_first_skip (o : ascii) (sep' a b : string) :
  all_chars (fun c => negb (Ascii.eqb c o)) a = true ->
  Py.after_first (String o sep') (a +:+ String o sep' +:+ b) = Some b.
Proof.
  induction a as [|c a IH]; [intros _; apply after_first_hit|].
  cbn [all_chars]. intros H. apply andb_true_iff in H as [Hc Ha]. apply negb_true_iff in Hc.
  rewrite append_cons. cbn [Py.after_first].
  rewrite (not_first_no_prefix o c sep' _ Hc). exact (IH Ha).
Qed.

Lemma endswith_app (a p : string) : Py.endswith p (a +:+ p) = true.
Proof.
  unfold Py.endswith. rewrite length_app.
  replace (String.length a + String.length p - String.length p)%nat with (String.length a) by lia.
  rewrite substring_app_tail, String.eqb_refl.
  rewrite andb_true_r. apply Nat.leb_le. lia.
Qed.

Lemma slice_0_m1_app (a : string) (c : ascii) : slice_0_m1 (a +:+ String c "") = a.
Proof.
  unfold slice_0_m1. rewrite length_app. cbn [String.length].
  replace (String.length a + 1 - 1)%nat with (String.length a) by lia.
  apply substring_app_head.
Qed.

End StrProps.

(** * The queries of the report engine *)
Module EngineProps.

Import PyStr Validators ReportEngine.

(** The filter of the findings reports is the date range, followed by
    nothing or by clauses that start with [;]. *)
Lemma findings_filter_shape (config : Config.t) :
  findings_filter config = "detected>=${start};detected<=${end}" \/
  exists rest, findings_filter config = "detected>=${start};detected<=${end}" +:+ ";" +:+ rest.
Proof.
  unfold findings_filter.
  destruct (Config.project_filter config) as [[|c s]|];
    destruct (Config.version_filter config) as [[|c' s']|];
    try (left; reflexivity); right;
    first [ eexists; reflexivity
          | rewrite FlattenProps.append_assoc; eexists; reflexivity ].
Qed.

(** X18.  The findings reports cannot be run for a project or a version
    whose name contains the letters [and] (such as [sandbox] or
    [android-11]): the name is not a number, so it goes into the filter as
    it is, the filter holds a [;] already, and the validator of the query
    parameters refuses the pair.  No query is built. *)
Theorem findings_query_refuses_and (config : Config.t) (query : Models.QueryConfig.t)
    (name : string) :
  Config.project_filter config = Some name \/ Config.version_filter config = Some name ->
  Py.contains "and" name = true ->
  validate_filter (Some (findings_filter config)) =
    Raise (ValueError "Cannot mix ';' and 'and' operators in filter") /\
  findings_query config query = Raise (ValueError "validation error for QueryParams").
Proof.
  intros Hname Hand.
  assert (Hint : int_ name = None).
  { apply (StrProps.int_none_of_contains "and" name Hand). reflexivity. }
  assert (Hne : exists c s, name = String c s).
  { destruct name as [|c s]; [discriminate|]. exists c, s. reflexivity. }
  destruct Hne as (c & s & Ename).
  assert (Hsemi : Py.contains ";" (findings_filter config) = true).
  { destruct (findings_filter_shape config) as [->|(rest & ->)]; [reflexivity|].
    apply StrProps.contains_app_l. reflexivity. }
  assert (Hclause : forall k, id_clause k name = k +:+ "==" +:+ name).
  { intros k. unfold id_clause. rewrite Hint. reflexivity. }
  assert (Hhas : Py.contains "and" (findings_filter config) = true).
  { unfold findings_filter.
    destruct Hname as [Hp|Hv].
    - rewrite Hp, Ename. cbv beta iota zeta. rewrite <- Ename, Hclause.
      assert (H1 : Py.contains "and"
                ("detected>=${start};detected<=${end}" +:+ ";" +:+ "project" +:+ "==" +:+ name) = true).
      { do 4 apply StrProps.contains_app_r. exact Hand. }
      destruct (Config.version_filter config) as [[|c' s']|]; try exact H1.
      apply StrProps.contains_app_l. exact H1.
    - rewrite Hv, Ename. cbv beta iota zeta. rewrite <- Ename, Hclause.
      do 4 apply StrProps.contains_app_r. exact Hand. }
  assert (Hval : validate_filter (Some (findings_filter config)) =
                 Raise (ValueError "Cannot mix ';' and 'and' operators in filter")).
  { unfold validate_filter. rewrite Hsemi, Hhas. reflexivity. }
  split; [exact Hval|].
  unfold findings_query, Validators.QueryParams. rewrite Hval. reflexivity.
Qed.

Lemma findings_query_refuses_and_witness :
  validate_filter
    (Some (findings_filter
       {| Config.auth_token := "t"; Config.domain := "example.finitestate.io";
          Config.output_dir := "./output"; Config.start_date := "2024-01-01";
          Config.end_date := "2024-12-31"; Config.project_filter := Some "sandbox";
          Config.version_filter := None |})) =
    Raise (ValueError "Cannot mix ';' and 'and' operators in filter") /\
  findings_query
    {| Config.auth_token := "t"; Config.domain := "example.finitestate.io";
       Config.output_dir := "./output"; Config.start_date := "2024-01-01";
       Config.end_date := "2024-12-31"; Config.project_filter := Some "sandbox";
       Config.version_filter := None |}
    (CacheExamples.findings_query None None) =
    Raise (ValueError "validation error for QueryParams").
Proof.
  apply (findings_query_refuses_and _ _ "sandbox").
  - left. reflexivity.
  - reflexivity.
Defined.

(** X19.  Every filter that the engine builds for the findings reports has
    the date range [${start}] to [${end}], whatever the project and version
    filters are, and the cache takes each of them for a subset of the filter
    without project and version. *)
Theorem findings_filters_share_date_range (config : Config.t) :
  DataCache._extract_date_range (findings_filter config) = Some ("${start}", "${end}") /\
  DataCache._is_subset_filter "detected>=${start};detected<=${end}" (findings_filter config) = true.
Proof.
  destruct (findings_filter_shape config) as [->|(rest & ->)].
  - split; reflexivity.
  - destruct rest as [|c rest]; split; vm_compute; reflexivity.
Qed.

End EngineProps.

(** ** What the client sends, and the validators of [models.py] *)
Module RequestProps.

Import PyStr Validators Request.

Lemma replace_from_cons (old new : string) (c : ascii) (s : string) :
  replace_from old new 0 (String c s) =
  if String.prefix old (String c s)
  then new +:+ replace_from old new (String.length old - 1) s
  else String c (replace_from old new 0 s).
Proof. reflexivity. Qed.

Lemma replace_start_at_end (new c : string) :
  all_chars no_dollar c = true ->
  replace_from "${start}" new 0 ("${end}" +:+ c) = "${end}" +:+ c.
Proof.
  intros Hc.
  change ("${end}" +:+ c) with (String "$" ("{end}" +:+ c)).
  rewrite replace_from_cons.
  replace (String.prefix "${start}" (String "$" ("{end}" +:+ c)))
    with false by (vm_compute; reflexivity).
  f_equal.
  apply (StrProps.replace_none "$" "{start}" new).
  change (all_chars no_dollar ("{end}" +:+ c) = true).
  rewrite StrProps.all_chars_app, Hc. reflexivity.
Qed.

(** X20.  In a filter where [${start}] and then [${end}] occur once each and
    no other dollar sign does, [_substitute_variables] puts the first second
    of the start day and the last second of the end day in their places and
    leaves the rest as it is; the times end in [Z] except for a findings
    endpoint. *)
Theorem substitute_date_variables (day_of : string -> res string) (config : Config.t)
    (endpoint a b c start_day end_day : string) :
  day_of (Config.start_date config) = Ok start_day ->
  day_of (Config.end_date config) = Ok end_day ->
  all_chars no_dollar start_day = true ->
  all_chars no_dollar a = true ->
  all_chars no_dollar b = true ->
  all_chars no_dollar c = true ->
  let suffix := if is_findings_endpoint endpoint then "" else "Z" in
  _substitute_variables day_of config (a +:+ "${start}" +:+ b +:+ "${end}" +:+ c) endpoint =
  Ok (a +:+ (start_day +:+ "T00:00:00" +:+ suffix) +:+ b +:+
      (end_day +:+ "T23:59:59" +:+ suffix) +:+ c).
Proof.
  intros Hs He Hsd Ha Hb Hc suffix.
  unfold _substitute_variables. rewrite Hs, He. cbv beta iota zeta. fold suffix.
  assert (Hstr : all_chars no_dollar (start_day +:+ "T00:00:00" +:+ suffix) = true).
  { rewrite !StrProps.all_chars_app, Hsd. subst suffix.
    destruct (is_findings_endpoint endpoint); reflexivity. }
  set (start_str := start_day +:+ "T00:00:00" +:+ suffix) in *.
  set (end_str := end_day +:+ "T23:59:59" +:+ suffix).
  f_equal. unfold replace.
  rewrite (StrProps.replace_skip "$" "{start}" start_str a _ Ha).
  rewrite (StrProps.replace_hit "$" "{start}" start_str).
  rewrite (StrProps.replace_skip "$" "{start}" start_str b _ Hb).
  rewrite (replace_start_at_end start_str c Hc).
  rewrite (StrProps.replace_skip "$" "{end}" end_str a _ Ha).
  rewrite (StrProps.replace_skip "$" "{end}" end_str start_str _ Hstr).
  rewrite (StrProps.replace_skip "$" "{end}" end_str b _ Hb).
  rewrite (StrProps.replace_hit "$" "{end}" end_str).
  rewrite (StrProps.replace_none "$" "{end}" end_str c Hc).
  reflexivity.
Qed.

Lemma substitute_date_variables_witness :
  _substitute_variables (fun s => Ok (String.substring 0 10 s))
    {| Config.auth_token := "t"; Config.domain := "example.finitestate.io";
       Config.output_dir := "./output"; Config.start_date := "2024-01-01T08:30:00";
       Config.end_date := "2024-12-31"; Config.project_filter := None;
       Config.version_filter := Some "7" |}
    ("detected>=" +:+ "${start}" +:+ ";detected<=" +:+ "${end}" +:+ ";projectVersion==7")
    "/public/v0/findings" =
  Ok ("detected>=" +:+ ("2024-01-01" +:+ "T00:00:00" +:+ "") +:+ ";detected<=" +:+
      ("2024-12-31" +:+ "T23:59:59" +:+ "") +:+ ";projectVersion==7").
Proof.
  apply (substitute_date_variables (fun s => Ok (String.substring 0 10 s)) _ "/public/v0/findings"
           "detected>=" ";detected<=" ";projectVersion==7" "2024-01-01" "2024-12-31");
    reflexivity.
Defined.

(** X21.  The first page of a paginated fetch, which carries the offset 0,
    sends the request of the query without offset, since an offset of zero is
    not sent; the cache all the same files the two under different keys. *)
Theorem offset_zero_is_not_sent (day_of : string -> res string) (config : Config.t)
    (q : Models.QueryConfig.t) :
  Models.QueryParams.offset (Models.QueryConfig.params q) = None ->
  request_params day_of config (Models.with_offset q 0) = request_params day_of config q /\
  DataCache._generate_cache_key (Models.with_offset q 0) <> DataCache._generate_cache_key q.
Proof.
  intros Hoff. split.
  - unfold request_params, Models.with_offset.
    cbn [Models.QueryConfig.params Models.QueryConfig.endpoint Models.QueryParams.filter
         Models.QueryParams.sort Models.QueryParams.limit Models.QueryParams.offset
         Models.QueryParams.archived].
    rewrite Hoff. reflexivity.
  - intros E.
    pose proof (DataCacheProps.full_params_lookup (Models.with_offset q 0)) as (_ & _ & _ & H0 & _).
    pose proof (DataCacheProps.full_params_lookup q) as (_ & _ & _ & H1 & _).
    rewrite E, H1, Hoff in H0. discriminate H0.
Qed.

Lemma offset_zero_is_not_sent_witness :
  request_params (fun s => Ok (String.substring 0 10 s))
    {| Config.auth_token := "t"; Config.domain := "example.finitestate.io";
       Config.output_dir := "./output"; Config.start_date := "2024-01-01";
       Config.end_date := "2024-12-31"; Config.project_filter := None;
       Config.version_filter := None |}
    (Models.with_offset Request.test_query 0) =
  request_params (fun s => Ok (String.substring 0 10 s))
    {| Config.auth_token := "t"; Config.domain := "example.finitestate.io";
       Config.output_dir := "./output"; Config.start_date := "2024-01-01";
       Config.end_date := "2024-12-31"; Config.project_filter := None;
       Config.version_filter := None |}
    Request.test_query /\
  DataCache._generate_cache_key (Models.with_offset Request.test_query 0) <>
    DataCache._generate_cache_key Request.test_query.
Proof.
  apply (offset_zero_is_not_sent (fun s => Ok (String.substring 0 10 s)) _ Request.test_query).
  reflexivity.
Defined.

(** X22.  [validate_name] refuses exactly the names that are blank, returns
    any other name without the white space around it, never returns an
    empty name, and accepts its own result unchanged. *)
Theorem validate_name_strips (v : string) :
  match validate_name v with
  | inr n => n = Py.strip v /\ n <> "" /\ validate_name n = Ok n
  | inl e => e = ValueError "Recipe name cannot be empty" /\ Py.strip v = ""
  end.
Proof.
  unfold validate_name at 1. destruct (String.eqb (Py.strip v) "") eqn:E.
  - split; [reflexivity|]. apply String.eqb_eq. exact E.
  - split; [reflexivity|]. split; [apply String.eqb_neq; exact E|].
    unfold validate_name. rewrite StrProps.strip_idem, E. reflexivity.
Qed.

Lemma strip_kept (c : ascii) (rest t : string) :
  Py.is_space c = false -> Py.rstrip t <> "" -> Py.rstrip t = t ->
  Py.strip (String c rest +:+ t) = String c rest +:+ t.
Proof.
  intros Hc Hne Ht. unfold Py.strip. rewrite StrProps.append_cons.
  cbn [Py.lstrip]. rewrite Hc. rewrite <- StrProps.append_cons.
  rewrite (StrProps.rstrip_app _ _ Hne), Ht. reflexivity.
Qed.

Lemma validate_domain_of (c : ascii) (rest h : string) :
  Py.is_space c = false ->
  all_chars (fun x => negb (Ascii.eqb x ":")) (lower (String c rest)) = true ->
  Py.startswith "http://" (lower (String c rest) +:+ "://" +:+ lower h +:+ "/") ||
  Py.startswith "https://" (lower (String c rest) +:+ "://" +:+ lower h +:+ "/") = true ->
  validate_domain ((String c rest +:+ "://") +:+ h +:+ "/") = Ok (lower h).
Proof.
  intros Hc Hcolon Hstart.
  assert (Hslash : Py.rstrip (h +:+ "/") = h +:+ "/").
  { rewrite StrProps.rstrip_app; [reflexivity|discriminate]. }
  assert (Ht : Py.rstrip ("://" +:+ h +:+ "/") = "://" +:+ h +:+ "/").
  { rewrite StrProps.rstrip_app; [rewrite Hslash; reflexivity|].
    rewrite Hslash. destruct h; discriminate. }
  unfold validate_domain.
  rewrite FlattenProps.append_assoc.
  rewrite (strip_kept c rest ("://" +:+ h +:+ "/") Hc); [|rewrite Ht; discriminate|exact Ht].
  rewrite (StrProps.append_cons c rest). cbn [String.eqb]. rewrite <- (StrProps.append_cons c rest).
  cbv zeta.
  rewrite !StrProps.lower_app.
  change (lower "/") with "/". change (lower "://") with "://".
  rewrite Hstart.
  rewrite (StrProps.after_first_skip ":" "//" (lower (String c rest)) _ Hcolon).
  rewrite StrProps.endswith_app, StrProps.slice_0_m1_app. reflexivity.
Qed.

(** X23.  [validate_domain] turns a URL into its host: the scheme [http://]
    or [https://], in either case, and the final slash are dropped and the
    host is put in lower case.  Nothing requires that a host is left: the
    scheme alone is accepted, with the empty domain as result. *)
Theorem validate_domain_drops_scheme (h : string) :
  validate_domain ("https://" +:+ h +:+ "/") = Ok (lower h) /\
  validate_domain ("http://" +:+ h +:+ "/") = Ok (lower h) /\
  validate_domain ("HTTPS://" +:+ h +:+ "/") = Ok (lower h) /\
  validate_domain "https://" = Ok "".
Proof.
  split; [|split; [|split]].
  - apply (validate_domain_of "h" "ttps" h); [reflexivity|reflexivity|].
    unfold Py.startswith.
    change (lower "https" +:+ "://" +:+ lower h +:+ "/") with ("https://" +:+ lower h +:+ "/").
    rewrite (FlattenProps.prefix_append "https://"). apply orb_true_r.
  - apply (validate_domain_of "h" "ttp" h); [reflexivity|reflexivity|].
    unfold Py.startswith.
    change (lower "http" +:+ "://" +:+ lower h +:+ "/") with ("http://" +:+ lower h +:+ "/").
    rewrite (FlattenProps.prefix_append "http://"). reflexivity.
  - apply (validate_domain_of "H" "TTPS" h); [reflexivity|reflexivity|].
    unfold Py.startswith.
    change (lower "HTTPS" +:+ "://" +:+ lower h +:+ "/") with ("https://" +:+ lower h +:+ "/").
    rewrite (FlattenProps.prefix_append "https://"). apply orb_true_r.
  - vm_compute. reflexivity.
Qed.

End RequestProps.

(** ** A paginated fetch run twice *)
Module ReplayProps.

Import Json DataCache APIClient ApiExamples Replay.

Lemma get_put_other (c : gmap string CacheEntry) (q q' : Models.QueryConfig.t)
    (d : list record) (now : Z) :
  cache_id (_generate_cache_key q') <> cache_id (_generate_cache_key q) ->
  DataCache.get (DataCache.put c q' d now) q = DataCache.get c q.
Proof.
  intros Hne. unfold DataCache.get, DataCache.put.
  rewrite lookup_insert_ne by exact Hne. reflexivity.
Qed.

(** The cache and the request count after one turn are those that its
    [fetch_data] has left. *)
Lemma turn_fetch (env : Env) (q : Models.QueryConfig.t) (L max_retries : Z) (w w' : World)
    (l : Loop) (o : outcome) :
  turn env q L max_retries w l = (o, w') ->
  cache w' = cache (snd (fetch_data env w (Models.with_offset q (offset l)))) /\
  requests w' = requests (snd (fetch_data env w (Models.with_offset q (offset l)))).
Proof.
  unfold turn.
  destruct (fetch_data env w (Models.with_offset q (offset l))) as [[e|[|x page]] w1];
    cbv beta iota zeta; cbn [all_results offset consecutive_empty_pages retry_count snd].
  - destruct (max_retries <? retry_count l + 1); intros [= <- <-]; split; reflexivity.
  - destruct (max_consecutive_empty <=? consecutive_empty_pages l + 1); intros [= <- <-];
      split; reflexivity.
  - destruct (all_results l) as [|y ys] eqn:Eall.
    + intros [= <- <-]. split; reflexivity.
    + destruct (id_set (x :: page)) as [e|page_ids]; [intros [= <- <-]; split; reflexivity|].
      destruct (id_set (y :: ys)) as [e|existing_ids]; [intros [= <- <-]; split; reflexivity|].
      destruct (intersection page_ids existing_ids) as [|dup dups].
      * destruct ((0 <? length page_ids)%nat && (length (@nil value) =? length page_ids)%nat);
          intros [= <- <-]; split; reflexivity.
      * intros [= <- <-]. split; reflexivity.
Qed.

(** A query without offset and without filter is not served from the pages
    of a fetch. *)
Lemma unpaged_miss (q : Models.QueryConfig.t) (c : gmap string CacheEntry) (off : Z) :
  Models.QueryParams.filter (Models.QueryConfig.params q) = None ->
  Models.QueryParams.offset (Models.QueryConfig.params q) = None ->
  Pages.below q c off ->
  DataCache.get c q = None.
Proof.
  intros Hf Hoff Hbelow. apply APIClientProps.get_no_filter_other; [exact Hf|].
  intros e He Hp. destruct (Hbelow _ _ He) as (o & _ & Hpo).
  pose proof (DataCacheProps.full_params_lookup (Models.with_offset q o)) as (_ & _ & _ & H0 & _).
  pose proof (DataCacheProps.full_params_lookup q) as (_ & _ & _ & H1 & _).
  rewrite <- Hpo, Hp, H1, Hoff in H0. discriminate H0.
Qed.

Section FirstRun.

Variable env : Env.
Variable q : Models.QueryConfig.t.
Variable R : list record.
Variable zs : list Z.
Variables L max_retries : Z.
Variable N : nat.

Hypothesis HL : 0 < L.
Hypothesis Hid : Upstream.identified R zs.
Hypothesis Hf : Models.QueryParams.filter (Models.QueryConfig.params q) = None.
Hypothesis Hserve : Upstream.serves env q R L.
Hypothesis HN : Z.of_nat (length R) + 3 * L <= Z.of_nat N * L.
Hypothesis Hnodup : List.NoDup (page_ids q L N).

Lemma pages_miss_no_filter : Upstream.pages_miss q.
Proof. intros c off Hb. apply APIClientProps.pages_below_miss; [exact Hf|exact Hb]. Qed.

Lemma ids_distinct (i j : nat) :
  (i < N)%nat -> (j < N)%nat ->
  cache_id (_generate_cache_key (page q L i)) = cache_id (_generate_cache_key (page q L j)) ->
  i = j.
Proof.
  intros Hi Hj E.
  pose proof (proj1 (List.NoDup_nth (page_ids q L N)
                       (cache_id (_generate_cache_key (page q L 0)))) Hnodup i j) as H.
  unfold page_ids in H. rewrite List.length_map, List.length_seq in H.
  rewrite !(List.map_nth (fun k => cache_id (_generate_cache_key (page q L k)))) in H.
  rewrite !List.seq_nth in H by assumption.
  apply H; assumption.
Qed.

Lemma turn_caches_page (m : nat) (w w' : World) (l : Loop) (o : outcome) :
  offset l = Z.of_nat m * L -> (m < N)%nat ->
  Pages.below q (cache w) (offset l) ->
  cached q (cache w) R L m ->
  turn env q L max_retries w l = (o, w') ->
  cached q (cache w') R L (S m).
Proof.
  intros Ho Hm Hbelow Hc Hturn.
  pose proof (pages_miss_no_filter _ _ Hbelow) as Hget.
  destruct (turn_fetch _ _ _ _ _ _ _ _ Hturn) as [Hcache _].
  rewrite (APIClientProps.fetch_data_list env w _ _ Hget (Hserve (requests w) (offset l))) in Hcache.
  cbn [snd cache] in Hcache.
  intros k Hk. rewrite Hcache.
  destruct (decide (k = m)) as [->|Hne].
  - unfold page. rewrite <- Ho. apply FetchProps.get_after_put.
  - rewrite get_put_other.
    + apply Hc. lia.
    + rewrite Ho. intros E. apply Hne. symmetry. apply (ids_distinct m k); [lia|lia|exact E].
Qed.

Lemma loop_tail_cached (n : nat) : forall (m : nat) (w : World) (l : Loop),
  offset l = Z.of_nat m * L ->
  Pages.below q (cache w) (offset l) ->
  cached q (cache w) R L m ->
  (length R <= Z.to_nat (offset l))%nat ->
  consecutive_empty_pages l = 3 - Z.of_nat (S n) ->
  (m + S n <= N)%nat ->
  exists w', loop env (S n) q L max_retries w l = Some (Ok (all_results l), w') /\
    cached q (cache w') R L (m + S n) /\
    Pages.below q (cache w') (Z.of_nat (m + S n) * L).
Proof.
  induction n as [|n IH]; intros m w l Ho Hbelow Hc Hge Hcep Hm.
  - assert (Ho' : 0 <= offset l) by lia.
    destruct (APIClientProps.turn_empty env q R L max_retries HL pages_miss_no_filter w l
                Hserve Ho' Hbelow Hge) as (w' & Hturn & Hbelow').
    pose proof (turn_caches_page m w w' l _ Ho ltac:(lia) Hbelow Hc Hturn) as Hc'.
    cbn [loop]. rewrite Hturn.
    replace (3 <=? consecutive_empty_pages l + 1) with true by (symmetry; apply Z.leb_le; lia).
    exists w'. split; [reflexivity|].
    replace (m + 1)%nat with (S m) by lia. split; [exact Hc'|].
    replace (Z.of_nat (S m) * L) with (offset l + L) by lia. exact Hbelow'.
  - assert (Ho' : 0 <= offset l) by lia.
    destruct (APIClientProps.turn_empty env q R L max_retries HL pages_miss_no_filter w l
                Hserve Ho' Hbelow Hge) as (w' & Hturn & Hbelow').
    pose proof (turn_caches_page m w w' l _ Ho ltac:(lia) Hbelow Hc Hturn) as Hc'.
    change (loop env (S (S n)) q L max_retries w l) with
      (match turn env q L max_retries w l with
       | (Continue l', w') => loop env (S n) q L max_retries w' l'
       | (Break l', w') => Some (Ok (all_results l'), w')
       | (Raised e, w') => Some (Raise e, w')
       end).
    rewrite Hturn.
    replace (3 <=? consecutive_empty_pages l + 1) with false by (symmetry; apply Z.leb_gt; lia).
    destruct (IH (S m) w' {| offset := offset l + L; all_results := all_results l;
                             consecutive_empty_pages := consecutive_empty_pages l + 1;
                             retry_count := 0; using_cache := using_cache l |})
      as (w'' & Hloop & Hc'' & Hbelow'');
      [cbn [offset]; lia | exact Hbelow' | exact Hc' | cbn [offset]; lia
      | cbn [consecutive_empty_pages]; lia | lia |].
    exists w''. split; [exact Hloop|].
    replace (m + S (S n))%nat with (S m + S n)%nat by lia. split; assumption.
Qed.

Lemma loop_pages_cached (n : nat) : forall (m : nat) (w : World) (l : Loop),
  offset l = Z.of_nat m * L ->
  (length R - Z.to_nat (offset l) <= n)%nat ->
  all_results l = List.firstn (Z.to_nat (offset l)) R ->
  consecutive_empty_pages l = 0 ->
  Pages.below q (cache w) (offset l) ->
  cached q (cache w) R L m ->
  (m + 3 <= N)%nat ->
  exists fuel w' N',
    loop env fuel q L max_retries w l = Some (Ok R, w') /\
    cached q (cache w') R L N' /\
    Pages.below q (cache w') (Z.of_nat N' * L) /\
    Z.of_nat (length R) + 3 * L <= Z.of_nat N' * L.
Proof.
  induction n as [|n IH]; intros m w l Ho Hn Hall Hcep Hbelow Hc Hm.
  - destruct (loop_tail_cached 2 m w l Ho Hbelow Hc) as (w' & H & Hc' & Hbelow');
      [lia | rewrite Hcep; reflexivity | lia |].
    exists 3%nat, w', (m + 3)%nat.
    split; [rewrite H, Hall, List.firstn_all2 by lia; reflexivity|].
    split; [exact Hc'|]. split; [exact Hbelow'|]. lia.
  - destruct (le_lt_dec (length R) (Z.to_nat (offset l))) as [Hge|Hlt].
    + apply (IH m w l); try assumption. lia.
    + assert (Ho' : 0 <= offset l) by lia.
      destruct (APIClientProps.turn_page env q R zs L max_retries HL Hid pages_miss_no_filter
                  w l (Hserve _ _) Ho' Hall Hbelow Hlt) as (w' & Hturn & Hbelow').
      pose proof (turn_caches_page m w w' l _ Ho ltac:(lia) Hbelow Hc Hturn) as Hc'.
      destruct (IH (S m) w' {| offset := offset l + L;
                               all_results := List.firstn (Z.to_nat (offset l + L)) R;
                               consecutive_empty_pages := 0; retry_count := 0;
                               using_cache := using_cache l |})
        as (fuel & w'' & N' & Hloop & Hrest).
      * cbn [offset]. lia.
      * cbn [offset]. rewrite Z2Nat.inj_add by lia. lia.
      * reflexivity.
      * reflexivity.
      * exact Hbelow'.
      * exact Hc'.
      * nia.
      * exists (S fuel), w'', N'. split; [|exact Hrest]. cbn [loop]. rewrite Hturn. exact Hloop.
Qed.

End FirstRun.

Section SecondRun.

Variable env : Env.
Variable q : Models.QueryConfig.t.
Variable R : list record.
Variable zs : list Z.
Variables L max_retries : Z.
Variable N : nat.

Hypothesis HL : 0 < L.
Hypothesis Hid : Upstream.identified R zs.
Hypothesis HN : Z.of_nat (length R) + 3 * L <= Z.of_nat N * L.

Lemma turn_page_hit (w : World) (l : Loop) :
  DataCache.get (cache w) (Models.with_offset q (offset l)) =
    Some (Upstream.slice R (offset l) L) ->
  0 <= offset l ->
  all_results l = List.firstn (Z.to_nat (offset l)) R ->
  (Z.to_nat (offset l) < length R)%nat ->
  turn env q L max_retries w l =
    (Continue {| offset := offset l + L;
                 all_results := List.firstn (Z.to_nat (offset l + L)) R;
                 consecutive_empty_pages := 0; retry_count := 0; using_cache := true |},
     {| cache := cache w; requests := requests w; draws := draws w; slept := slept w;
        progress_file := Progress (offset l + L) (List.firstn (Z.to_nat (offset l + L)) R) |}).
Proof.
  intros Hget Ho Hall Hlt.
  destruct (APIClientProps.identified_parts R zs (Z.to_nat (offset l)) (Z.to_nat L) Hid)
    as (Ha & Hp & Hdis).
  assert (Hnext : List.firstn (Z.to_nat (offset l + L)) R =
                  (List.firstn (Z.to_nat (offset l)) R ++ Upstream.slice R (offset l) L)%list).
  { rewrite Z2Nat.inj_add by lia. apply APIClientProps.firstn_plus. }
  unfold turn. rewrite Hget.
  rewrite (FetchProps.fetch_data_hit env w _ _ Hget).
  pose proof (APIClientProps.slice_cons R L HL (offset l) Hlt) as Hne.
  fold (Upstream.slice R (offset l) L) in Hp.
  destruct (Upstream.slice R (offset l) L) as [|x xs] eqn:Epage; [congruence|].
  cbn [all_results offset cache requests draws slept progress_file].
  rewrite Hall.
  destruct (List.firstn (Z.to_nat (offset l)) R) as [|y ys] eqn:Eall.
  - rewrite Hnext. reflexivity.
  - rewrite (APIClientProps.id_set_identified _ _ Hp), (APIClientProps.id_set_identified _ _ Ha).
    rewrite (APIClientProps.intersection_disjoint _ _ Hdis).
    destruct Hp as (Hm & _).
    destruct (List.firstn (Z.to_nat L) (List.skipn (Z.to_nat (offset l)) zs)) as [|z zs']; [discriminate|].
    cbn [List.map length Nat.ltb Nat.leb Nat.eqb andb].
    rewrite Hnext. reflexivity.
Qed.

Lemma turn_empty_hit (w : World) (l : Loop) :
  DataCache.get (cache w) (Models.with_offset q (offset l)) =
    Some (Upstream.slice R (offset l) L) ->
  (length R <= Z.to_nat (offset l))%nat ->
  turn env q L max_retries w l =
    (if 3 <=? consecutive_empty_pages l + 1
     then Break {| offset := offset l; all_results := all_results l;
                   consecutive_empty_pages := consecutive_empty_pages l + 1;
                   retry_count := 0; using_cache := true |}
     else Continue {| offset := offset l + L; all_results := all_results l;
                      consecutive_empty_pages := consecutive_empty_pages l + 1;
                      retry_count := 0; using_cache := true |}, w).
Proof.
  intros Hget Hge.
  unfold turn. rewrite Hget.
  rewrite (FetchProps.fetch_data_hit env w _ _ Hget).
  rewrite (APIClientProps.slice_nil R L (offset l) Hge).
  cbn [all_results offset cache requests draws slept progress_file consecutive_empty_pages].
  unfold max_consecutive_empty.
  destruct (3 <=? consecutive_empty_pages l + 1); reflexivity.
Qed.

Lemma loop_tail_hit (n : nat) : forall (m : nat) (w : World) (l : Loop),
  offset l = Z.of_nat m * L ->
  cached q (cache w) R L N ->
  (length R <= Z.to_nat (offset l))%nat ->
  consecutive_empty_pages l = 3 - Z.of_nat (S n) ->
  (m + S n <= N)%nat ->
  loop env (S n) q L max_retries w l = Some (Ok (all_results l), w).
Proof.
  induction n as [|n IH]; intros m w l Ho Hc Hge Hcep Hm.
  - assert (Hget : DataCache.get (cache w) (Models.with_offset q (offset l)) =
                   Some (Upstream.slice R (offset l) L)).
    { rewrite Ho. apply (Hc m). lia. }
    cbn [loop]. rewrite (turn_empty_hit w l Hget Hge).
    replace (3 <=? consecutive_empty_pages l + 1) with true by (symmetry; apply Z.leb_le; lia).
    reflexivity.
  - assert (Hget : DataCache.get (cache w) (Models.with_offset q (offset l)) =
                   Some (Upstream.slice R (offset l) L)).
    { rewrite Ho. apply (Hc m). lia. }
    change (loop env (S (S n)) q L max_retries w l) with
      (match turn env q L max_retries w l with
       | (Continue l', w') => loop env (S n) q L max_retries w' l'
       | (Break l', w') => Some (Ok (all_results l'), w')
       | (Raised e, w') => Some (Raise e, w')
       end).
    rewrite (turn_empty_hit w l Hget Hge).
    replace (3 <=? consecutive_empty_pages l + 1) with false by (symmetry; apply Z.leb_gt; lia).
    apply (IH (S m) w {| offset := offset l + L; all_results := all_results l;
                         consecutive_empty_pages := consecutive_empty_pages l + 1;
                         retry_count := 0; using_cache := true |});
      [cbn [offset]; lia | exact Hc | cbn [offset]; lia
      | cbn [consecutive_empty_pages]; lia | lia].
Qed.

Lemma loop_pages_hit (n : nat) : forall (m : nat) (w : World) (l : Loop),
  offset l = Z.of_nat m * L ->
  (length R - Z.to_nat (offset l) <= n)%nat ->
  all_results l = List.firstn (Z.to_nat (offset l)) R ->
  consecutive_empty_pages l = 0 ->
  cached q (cache w) R L N ->
  (m + 3 <= N)%nat ->
  exists fuel w', loop env fuel q L max_retries w l = Some (Ok R, w') /\ same_client w w'.
Proof.
  induction n as [|n IH]; intros m w l Ho Hn Hall Hcep Hc Hm.
  - exists 3%nat, w. split; [|repeat split].
    rewrite (loop_tail_hit 2 m w l Ho Hc); [|lia|rewrite Hcep; reflexivity|lia].
    rewrite Hall, List.firstn_all2 by lia. reflexivity.
  - destruct (le_lt_dec (length R) (Z.to_nat (offset l))) as [Hge|Hlt].
    + apply (IH m w l); try assumption. lia.
    + assert (Ho' : 0 <= offset l) by lia.
      assert (Hget : DataCache.get (cache w) (Models.with_offset q (offset l)) =
                     Some (Upstream.slice R (offset l) L)).
      { rewrite Ho. apply (Hc m). lia. }
      pose proof (turn_page_hit w l Hget Ho' Hall Hlt) as Hturn.
      destruct (IH (S m)
                  {| cache := cache w; requests := requests w; draws := draws w;
                     slept := slept w;
                     progress_file :=
                       Progress (offset l + L) (List.firstn (Z.to_nat (offset l + L)) R) |}
                  {| offset := offset l + L;
                     all_results := List.firstn (Z.to_nat (offset l + L)) R;
                     consecutive_empty_pages := 0; retry_count := 0;
                     using_cache := true |})
        as (fuel & w'' & Hloop & Hsame).
      * cbn [offset]. lia.
      * cbn [offset]. rewrite Z2Nat.inj_add by lia. lia.
      * reflexivity.
      * reflexivity.
      * exact Hc.
      * nia.
      * exists (S fuel), w''. split; [cbn [loop]; rewrite Hturn; exact Hloop|exact Hsame].
Qed.

End SecondRun.

Lemma first_fetch (env : Env) (w : World) (q : Models.QueryConfig.t)
    (R : list record) (zs : list Z) (L max_retries : Z) (N : nat) :
  Models.QueryParams.limit (Models.QueryConfig.params q) = Some L ->
  0 < L ->
  Models.QueryParams.filter (Models.QueryConfig.params q) = None ->
  Upstream.serves env q R L ->
  Upstream.identified R zs ->
  cache w = DataCache.init ->
  progress_file w = NoFile ->
  Z.of_nat (length R) + 3 * L <= Z.of_nat N * L ->
  List.NoDup (page_ids q L N) ->
  exists fuel w1 N',
    fetch_all_with_resume env fuel w q max_retries = Some (Ok R, w1) /\
    progress_file w1 = NoFile /\
    cached q (cache w1) R L N' /\
    Pages.below q (cache w1) (Z.of_nat N' * L) /\
    Z.of_nat (length R) + 3 * L <= Z.of_nat N' * L.
Proof.
  intros Hlim HL Hf Hserve Hid Hempty Hpf HN Hnodup.
  destruct (loop_pages_cached env q R zs L max_retries N HL Hid Hf Hserve HN Hnodup
              (length R) 0%nat w
              {| offset := 0; all_results := []; consecutive_empty_pages := 0;
                 retry_count := 0; using_cache := false |})
    as (fuel & w' & N' & Hloop & Hc & Hbelow & HN').
  - reflexivity.
  - cbn [offset]. lia.
  - reflexivity.
  - reflexivity.
  - rewrite Hempty. intros id e. unfold DataCache.init. rewrite lookup_empty. discriminate.
  - intros k Hk. lia.
  - nia.
  - exists fuel. eexists. exists N'. split; [|split; [|split; [|split]]].
    + unfold fetch_all_with_resume. rewrite Hempty. unfold DataCache.get at 1, DataCache.init.
      rewrite lookup_empty. rewrite Hlim, Hpf.
      replace (L =? 0) with false by (symmetry; apply Z.eqb_neq; lia).
      cbv beta iota zeta. rewrite Hloop. reflexivity.
    + reflexivity.
    + exact Hc.
    + exact Hbelow.
    + exact HN'.
Qed.

(** X24.  A paginated fetch run twice.  When a fresh client fetches a query
    without filter and without offset from an upstream that serves a list
    of records with distinct non-zero ids in slices of [limit], and the
    pages asked for have different cache ids, the fetch returns the list and
    leaves every page in the cache: the same fetch run again returns the
    same list and leaves the client as it was, without a request, whatever
    the upstream would answer by then. *)
Theorem second_fetch_from_cache (env env' : Env) (w : World) (q : Models.QueryConfig.t)
    (R : list record) (zs : list Z) (L max_retries : Z) (N : nat) :
  Models.QueryParams.limit (Models.QueryConfig.params q) = Some L ->
  0 < L ->
  Models.QueryParams.filter (Models.QueryConfig.params q) = None ->
  Models.QueryParams.offset (Models.QueryConfig.params q) = None ->
  Upstream.serves env q R L ->
  Upstream.identified R zs ->
  cache w = DataCache.init ->
  progress_file w = NoFile ->
  Z.of_nat (length R) + 3 * L <= Z.of_nat N * L ->
  List.NoDup (page_ids q L N) ->
  exists fuel w1,
    fetch_all_with_resume env fuel w q max_retries = Some (Ok R, w1) /\
    exists fuel', fetch_all_with_resume env' fuel' w1 q max_retries = Some (Ok R, w1).
Proof.
  intros Hlim HL Hf Hoff Hserve Hid Hempty Hpf HN Hnodup.
  destruct (first_fetch env w q R zs L max_retries N Hlim HL Hf Hserve Hid Hempty Hpf HN Hnodup)
    as (fuel & w1 & N' & Hrun & Hpf1 & Hc & Hbelow & HN').
  exists fuel, w1. split; [exact Hrun|].
  destruct (loop_pages_hit env' q R zs L max_retries N' HL Hid HN' (length R) 0%nat w1
              {| offset := 0; all_results := []; consecutive_empty_pages := 0;
                 retry_count := 0; using_cache := false |})
    as (fuel' & w2 & Hloop & Hcache & Hreq & Hdraws & Hslept);
    [reflexivity | cbn [offset]; lia | reflexivity | reflexivity | exact Hc | nia |].
  exists fuel'. unfold fetch_all_with_resume.
  rewrite (unpaged_miss q (cache w1) _ Hf Hoff Hbelow), Hlim, Hpf1.
  replace (L =? 0) with false by (symmetry; apply Z.eqb_neq; lia).
  cbv beta iota zeta. rewrite Hloop, Hcache, Hreq, Hdraws, Hslept.
  destruct w1 as [c1 r1 d1 s1 p1]. cbn [progress_file] in Hpf1. subst p1. reflexivity.
Qed.

Lemma second_fetch_from_cache_witness :
  exists fuel w1,
    fetch_all_with_resume Upstream.listing fuel fresh Upstream.by_three 8 =
      Some (Ok Upstream.seven, w1) /\
    exists fuel', fetch_all_with_resume down fuel' w1 Upstream.by_three 8 =
      Some (Ok Upstream.seven, w1).
Proof.
  apply (second_fetch_from_cache Upstream.listing down fresh Upstream.by_three Upstream.seven
           [1; 2; 3; 4; 5; 6; 7] 3 8 6).
  - reflexivity.
  - lia.
  - reflexivity.
  - reflexivity.
  - intros n o. reflexivity.
  - split; [reflexivity|]. split; [|cbn [In]; lia].
    repeat (constructor; [cbn [In]; lia|]). constructor.
  - reflexivity.
  - reflexivity.
  - cbn. lia.
  - unfold page_ids. apply NoDup_ListNoDup. apply (bool_decide_unpack _). vm_compute. exact I.
Defined.

(** X25.  A query that asks for the offset 0 itself is the query of its
    own first page.  When a fresh client fetches such a query, without
    filter, from an upstream that serves a list of records with distinct
    non-zero ids in slices of [limit], and the pages asked for have
    different cache ids, the first fetch returns the whole list, and the
    same fetch run again returns the first page only: the entry of that
    page answers for the query before any page is asked for. *)
Theorem offset_zero_fetch_shrinks (env env' : Env) (w : World) (q : Models.QueryConfig.t)
    (R : list record) (zs : list Z) (L max_retries : Z) (N : nat) (fuel' : nat) :
  Models.QueryParams.limit (Models.QueryConfig.params q) = Some L ->
  0 < L ->
  Models.QueryParams.filter (Models.QueryConfig.params q) = None ->
  Models.QueryParams.offset (Models.QueryConfig.params q) = Some 0 ->
  Upstream.serves env q R L ->
  Upstream.identified R zs ->
  cache w = DataCache.init ->
  progress_file w = NoFile ->
  Z.of_nat (length R) + 3 * L <= Z.of_nat N * L ->
  List.NoDup (page_ids q L N) ->
  exists fuel w1,
    fetch_all_with_resume env fuel w q max_retries = Some (Ok R, w1) /\
    fetch_all_with_resume env' fuel' w1 q max_retries =
      Some (Ok (List.firstn (Z.to_nat L) R), w1).
Proof.
  intros Hlim HL Hf Hoff Hserve Hid Hempty Hpf HN Hnodup.
  destruct (first_fetch env w q R zs L max_retries N Hlim HL Hf Hserve Hid Hempty Hpf HN Hnodup)
    as (fuel & w1 & N' & Hrun & Hpf1 & Hc & Hbelow & HN').
  exists fuel, w1. split; [exact Hrun|].
  assert (Hq : page q L 0 = q).
  { unfold page, Models.with_offset. destruct q as [ep [f s l o a]].
    cbn in Hoff |- *. rewrite Hoff. reflexivity. }
  pose proof (Hc 0%nat ltac:(nia)) as H0. rewrite Hq in H0.
  unfold fetch_all_with_resume. rewrite H0. reflexivity.
Qed.

Lemma offset_zero_fetch_shrinks_witness :
  exists fuel w1,
    fetch_all_with_resume Upstream.listing fuel fresh (Models.with_offset Upstream.by_three 0) 8 =
      Some (Ok Upstream.seven, w1) /\
    fetch_all_with_resume down 0 w1 (Models.with_offset Upstream.by_three 0) 8 =
      Some (Ok (List.firstn (Z.to_nat 3) Upstream.seven), w1).
Proof.
  apply (offset_zero_fetch_shrinks Upstream.listing down fresh
           (Models.with_offset Upstream.by_three 0) Upstream.seven
           [1; 2; 3; 4; 5; 6; 7] 3 8 6 0).
  - reflexivity.
  - lia.
  - reflexivity.
  - reflexivity.
  - intros n o. reflexivity.
  - split; [reflexivity|]. split; [|cbn [In]; lia].
    repeat (constructor; [cbn [In]; lia|]). constructor.
  - reflexivity.
  - reflexivity.
  - cbn. lia.
  - unfold page_ids. apply NoDup_ListNoDup. apply (bool_decide_unpack _). vm_compute. exact I.
Defined.

End ReplayProps.
